(** * AirForceNone: the identification, deduplication and classification
      pipeline of [poc_tracker.py] and [poc_tracker2.py]

    A shallow embedding of the two tracker scripts.  Text is modelled as
    Rocq [string]s (sequences of 8-bit characters) with the ASCII case
    mapping and ASCII white space of Python's [str.lower], [str.upper] and
    [str.strip]: the identifiers, callsigns and tables of the scripts are
    ASCII.  JSON numbers (latitude, longitude, altitude, ...) are modelled
    by the rational they denote, [Q]. *)

From Stdlib Require Import QArith ZArith Ascii String List Permutation.
From Stdlib Require Import Sorting.Sorted.
From Stdlib Require Import Lqa.
From stdpp Require Import gmap strings list fin_maps pretty.

Local Close Scope Q_scope.
Local Open Scope string_scope.

(** ** Python text operations *)

Module PyStr.

(** [c.lower()] on one ASCII character. *)
Definition lower_ascii (c : ascii) : ascii :=
  let n := N_of_ascii c in
  if ((65 <=? n) && (n <=? 90))%N then ascii_of_N (n + 32) else c.

(** [c.upper()] on one ASCII character. *)
Definition upper_ascii (c : ascii) : ascii :=
  let n := N_of_ascii c in
  if ((97 <=? n) && (n <=? 122))%N then ascii_of_N (n - 32) else c.

(** [c.isspace()]: tab, line feed, vertical tab, form feed, carriage
    return, the four separators 0x1c-0x1f and the space. *)
Definition is_space (c : ascii) : bool :=
  let n := N_of_ascii c in
  (((9 <=? n) && (n <=? 13)) || ((28 <=? n) && (n <=? 31)) || (n =? 32))%N.

Fixpoint lower (s : string) : string :=
  match s with
  | EmptyString => EmptyString
  | String c r => String (lower_ascii c) (lower r)
  end.

Fixpoint upper (s : string) : string :=
  match s with
  | EmptyString => EmptyString
  | String c r => String (upper_ascii c) (upper r)
  end.

Fixpoint lstrip (s : string) : string :=
  match s with
  | EmptyString => EmptyString
  | String c r => if is_space c then lstrip r else s
  end.

Fixpoint rstrip (s : string) : string :=
  match s with
  | EmptyString => EmptyString
  | String c r =>
      match rstrip r with
      | EmptyString => if is_space c then EmptyString else String c EmptyString
      | r' => String c r'
      end
  end.

(** [s.strip()] *)
Definition strip (s : string) : string := rstrip (lstrip s).

(** [s.startswith(p)] *)
Definition startswith (s p : string) : bool := String.prefix p s.

(** Truthiness of a string: [bool(s)]. *)
Definition truthy (s : string) : bool :=
  match s with EmptyString => false | _ => true end.

(** [a or b] on strings. *)
Definition or_else (a b : string) : string := if truthy a then a else b.

(** [s[:n]] *)
Definition take (n : nat) (s : string) : string := String.substring 0 n s.

(** A character of a hexadecimal numeral, either case. *)
Definition is_hex_digit (c : ascii) : bool :=
  let n := N_of_ascii c in
  (((48 <=? n) && (n <=? 57)) || ((97 <=? n) && (n <=? 102))
   || ((65 <=? n) && (n <=? 70)))%N.

Fixpoint all_hex (s : string) : bool :=
  match s with
  | EmptyString => true
  | String c r => is_hex_digit c && all_hex r
  end.

End PyStr.

(** ** Python numbers *)

Module PyNum.

(** Truthiness of a number: zero is falsy. *)
Definition truthy (q : Q) : bool := negb (Qeq_bool q 0).

(** The integer nearest to [n / d], ties to the even one: the rounding
    of the format specifier [.2f] on the exact value. *)
Definition round_half_even (n d : Z) : Z :=
  let quo := (n / d)%Z in
  let rem := (n mod d)%Z in
  if (2 * rem <? d)%Z then quo
  else if (d <? 2 * rem)%Z then (quo + 1)%Z
  else if Z.even quo then quo else (quo + 1)%Z.

Definition two_digits (n : Z) : string :=
  if (n <? 10)%Z then "0" +:+ pretty n else pretty n.

(** [f"{q:.2f}"] *)
Definition format_2f (q : Q) : string :=
  let hundredths := round_half_even (Z.abs (Qnum q) * 100) (Zpos (Qden q)) in
  (if (Qnum q <? 0)%Z then "-" else "")
    +:+ pretty (hundredths / 100)%Z +:+ "." +:+ two_digits (hundredths mod 100)%Z.

End PyNum.

(** ** Python dictionaries *)

Module PyDict.

Section Ordered.
Context {V : Type}.

(** [d[k] = v] on an insertion-ordered dictionary: a key already present
    keeps its position and takes the new value. *)
Fixpoint set_item (d : list (string * V)) (k : string) (v : V)
  : list (string * V) :=
  match d with
  | [] => [(k, v)]
  | (k', v') :: d' =>
      if String.eqb k' k then (k', v) :: d' else (k', v') :: set_item d' k v
  end.

(** The value of a dictionary display [{k1: v1, k2: v2, ...}]: the items
    are stored from left to right. *)
Definition literal (items : list (string * V)) : list (string * V) :=
  fold_left (fun d kv => set_item d (fst kv) (snd kv)) items [].

(** The same display when only look-ups are made on it. *)
Definition literal_map (items : list (string * V)) : gmap string V :=
  fold_left (fun m kv => <[fst kv := snd kv]> m) items ∅.
End Ordered.

End PyDict.

(** ** The data source: raw tracks and the API response *)

(** [alt_baro] is a number of feet or the text ["ground"]. *)
Inductive alt_value : Type :=
| AltFeet (feet : Q)
| AltGround.

(** One element of the response's ["ac"] array; [None] is an absent key. *)
Record RawTrack : Type := mkRawTrack {
  hex : option string;
  flight : option string;
  r : option string;
  t : option string;
  lat : option Q;
  lon : option Q;
  alt_baro : option alt_value;
  gs : option Q;
  track : option Q;
  baro_rate : option Q;
  squawk : option string;
  seen : option Q
}.

(** The JSON object returned by the API, or built by the client on a fault. *)
Record ApiResponse : Type := mkApiResponse {
  ac : option (list RawTrack);
  msg : option string
}.

(** [api_response.get("ac", [])] *)
Definition get_ac (api_response : ApiResponse) : list RawTrack :=
  default [] (ac api_response).

(** [ac_data.get("alt_baro") if ac_data.get("alt_baro") != "ground" else 0] *)
Definition altitude_of (ac_data : RawTrack) : option Q :=
  match alt_baro ac_data with
  | Some AltGround => Some 0%Q
  | Some (AltFeet feet) => Some feet
  | None => None
  end.

(** [ac_data.get("alt_baro") == "ground"] *)
Definition on_ground_of (ac_data : RawTrack) : bool :=
  match alt_baro ac_data with
  | Some AltGround => true
  | _ => false
  end.

(** [lat and lon], as a condition. *)
Definition lat_and_lon (lat lon : option Q) : bool :=
  match lat, lon with
  | Some a, Some b => PyNum.truthy a && PyNum.truthy b
  | _, _ => false
  end.

(** ** The HTTP client *)

Module Client.

(** The exceptions a request can end in.  [Timeout], [ConnectionError],
    [HTTPError] (raised by [raise_for_status]) and [JSONDecodeError]
    (raised by [response.json()]) are the [requests] library's and derive
    from [requests.RequestException] (the last one since version 2.27 of
    the library); [OtherError] stands for any exception that does not. *)
Inductive exn_class : Type :=
| Timeout | ConnectionError | HTTPError | JSONDecodeError | OtherError.

Definition is_RequestException (c : exn_class) : bool :=
  match c with
  | OtherError => false
  | _ => true
  end.

(** What happens inside the [try] block: the three calls succeed and
    yield the decoded body, or one of them raises [e] with [str(e) = text]. *)
Inductive transport : Type :=
| Body (response : ApiResponse)
| Raises (c : exn_class) (text : string).

Inductive result (A : Type) : Type :=
| Returned (a : A)
| Raised (c : exn_class) (text : string).
Arguments Returned {A} a.
Arguments Raised {A} c text.

(** The client's pacing state: [time.time()] readings are rationals. *)
Record ADSBOneClient : Type := mkClient {
  last_request_time : Q;
  min_request_interval : Q
}.

Definition init : ADSBOneClient :=
  {| last_request_time := 0; min_request_interval := 1 |}.

(** [_rate_limit]: [now] is the clock on entry; returns the time slept
    and the client with the clock reading taken after the sleep. *)
Definition _rate_limit (self : ADSBOneClient) (now : Q) : Q * ADSBOneClient :=
  let elapsed := (now - last_request_time self)%Q in
  let slept :=
    if Qlt_le_dec elapsed (min_request_interval self)
    then (min_request_interval self - elapsed)%Q else 0%Q in
  (slept, {| last_request_time := (now + slept)%Q;
             min_request_interval := min_request_interval self |}).

(** [get_military_aircraft], after [_rate_limit]: the [try]/[except
    requests.RequestException] around the request. *)
Definition get_military_aircraft (outcome : transport) : result ApiResponse :=
  match outcome with
  | Body response => Returned response
  | Raises c text =>
      if is_RequestException c
      then Returned {| ac := Some []; msg := Some text |}
      else Raised c text
  end.

End Client.

(** ** Reverse geocoding with the location cache *)

Module Geo.

(** One dictionary of the list returned by [rg.search]. *)
Record rg_result : Type := mkRgResult {
  rg_name : option string;
  rg_cc : option string
}.

Inductive rg_outcome : Type :=
| RgRaises
| RgReturns (results : list rg_result).

(** The module-level [_location_cache], with the log of the calls made
    to [rg.search] so far, oldest first. *)
Record geo_state : Type := mkGeoState {
  location_cache : gmap string string;
  rg_calls : list (Q * Q)
}.

Definition initial : geo_state :=
  {| location_cache := ∅; rg_calls := [] |}.

Definition cache_key (lat lon : Q) : string :=
  PyNum.format_2f lat +:+ "," +:+ PyNum.format_2f lon.

Section Lookup.
(** Whether [import reverse_geocoder] succeeded. *)
Variable RG_AVAILABLE : bool.
(** [rg.search([(lat, lon)], mode=1, verbose=False)]; the first argument
    is the number of calls made before this one, so the geocoder may
    answer differently from call to call. *)
Variable rg_search : nat -> Q -> Q -> rg_outcome.
(** The [country_names] table of the variant. *)
Variable country_names : gmap string string.

Definition get_location (lat lon : option Q) (st : geo_state)
  : string * geo_state :=
  match lat, lon with
  | Some lat, Some lon =>
      if negb RG_AVAILABLE then ("", st)
      else
        let key := cache_key lat lon in
        match location_cache st !! key with
        | Some location => (location, st)
        | None =>
            let called :=
              {| location_cache := location_cache st;
                 rg_calls := (rg_calls st ++ [(lat, lon)])%list |} in
            match rg_search (length (rg_calls st)) lat lon with
            | RgReturns (result :: _) =>
                let cc := default "" (rg_cc result) in
                let location := default cc (country_names !! cc) in
                (location,
                 {| location_cache := <[key := location]> (location_cache st);
                    rg_calls := rg_calls called |})
            | RgReturns [] => ("", called)
            | RgRaises => ("", called)
            end
        end
  | _, _ => ("", st)
  end.

(** A run of calls to [get_location], in order. *)
Fixpoint get_locations (calls : list (option Q * option Q)) (st : geo_state)
  : list string * geo_state :=
  match calls with
  | [] => ([], st)
  | (lat, lon) :: rest =>
      let '(location, st1) := get_location lat lon st in
      let '(locations, st2) := get_locations rest st1 in
      (location :: locations, st2)
  end.
End Lookup.

End Geo.

(** ** Python's stable sort and the order on its keys *)

Module PySort.

Section Sort.
Context {A K : Type}.
(** [a <= b] on the keys. *)
Variable leb : K -> K -> bool.
Variable key : A -> K.

(** Put [x] before the first element whose key is not smaller. *)
Fixpoint insert (x : A) (l : list A) : list A :=
  match l with
  | [] => [x]
  | y :: l' => if leb (key x) (key y) then x :: l else y :: insert x l'
  end.

(** [l.sort(key=key)]: the list in ascending order of the keys, elements
    with equal keys in their original order.  The stable sort is given
    here as an insertion sort from the right. *)
Fixpoint sort (l : list A) : list A :=
  match l with
  | [] => []
  | x :: l' => insert x (sort l')
  end.
End Sort.

(** Comparison of tuples, component by component. *)
Definition lex (c1 c2 : comparison) : comparison :=
  match c1 with Eq => c2 | _ => c1 end.

(** [(a1, a2) ? (b1, b2)]: the first components decide unless equal. *)
Definition tuple_compare {A B : Type} (cmpA : A -> A -> comparison)
    (cmpB : B -> B -> comparison) (a b : A * B) : comparison :=
  lex (cmpA (fst a) (fst b)) (cmpB (snd a) (snd b)).

(** [a <= b] from the three-way comparison. *)
Definition not_gt (c : comparison) : bool :=
  match c with Gt => false | _ => true end.

(** A three-way comparison that is a total order. *)
Class CompareOrder {A : Type} (cmp : A -> A -> comparison) : Prop := {
  cmp_eq : forall a b, cmp a b = Eq <-> a = b;
  cmp_antisym : forall a b, cmp a b = CompOpp (cmp b a);
  cmp_lt_trans : forall a b c, cmp a b = Lt -> cmp b c = Lt -> cmp a c = Lt
}.

(** [a <= b] from the three-way comparison [cmp]. *)
Definition leb {K : Type} (cmp : K -> K -> comparison) (a b : K) : bool :=
  not_gt (cmp a b).

(** [a] may stand before [b] in a list sorted on [key]. *)
Definition key_le {A K : Type} (cmp : K -> K -> comparison) (key : A -> K)
    (a b : A) : Prop :=
  leb cmp (key a) (key b) = true.

End PySort.

(** * poc_tracker.py *)

Module Tracker1.

Definition PRIORITY_COUNTRIES : gset string :=
  {[ "USA"; "Russia"; "Czech Rep"; "Ukraine"; "China"; "North Korea" ]}.

(** A value of [PRESIDENTIAL_AIRCRAFT]: every entry of the table has the
    four keys. *)
Record KnownRecord : Type := mkKnown {
  known_country : string;
  known_description : string;
  known_registration : string;
  known_type : string
}.

Definition PRESIDENTIAL_AIRCRAFT_items : list (string * KnownRecord) := [
("ae001f", mkKnown "USA" "Air Force One (VC-25A)" "82-8000" "VC25");
("ae0020", mkKnown "USA" "Air Force One (VC-25A)" "92-9000" "VC25");
("ae001c", mkKnown "USA" "Air Force Two (C-32A)" "98-0001" "C32");
("ae001d", mkKnown "USA" "Air Force Two (C-32A)" "98-0002" "C32");
("ae4a48", mkKnown "USA" "C-32A VIP Transport" "99-6143" "C32");
("ae01fa", mkKnown "USA" "C-40B Executive Transport" "01-0040" "C40");
("ae01fb", mkKnown "USA" "C-40B Executive Transport" "01-0041" "C40");
("ae010c", mkKnown "USA" "C-37A Gulfstream VIP" "97-0400" "C37A");
("ae010d", mkKnown "USA" "C-37A Gulfstream VIP" "97-0401" "C37A");
("ae0100", mkKnown "USA" "C-37B Gulfstream VIP" "09-0525" "C37B");
("ae0101", mkKnown "USA" "C-37B Gulfstream VIP" "09-0540" "C37B");
("ae0414", mkKnown "USA" "E-4B Nightwatch NAOC" "73-1676" "E4B");
("ae0415", mkKnown "USA" "E-4B Nightwatch NAOC" "74-0787" "E4B");
("ae0416", mkKnown "USA" "E-4B Nightwatch NAOC" "75-0125" "E4B");
("ae0417", mkKnown "USA" "E-4B Nightwatch NAOC" "75-0126" "E4B");
("ae0419", mkKnown "USA" "E-6B Mercury TACAMO" "162782" "E6");
("ae041a", mkKnown "USA" "E-6B Mercury TACAMO" "162783" "E6");
("ae041b", mkKnown "USA" "E-6B Mercury TACAMO" "163918" "E6");
("155026", mkKnown "Russia" "IL-96-300PU Presidential" "RA-96016" "IL96");
("155027", mkKnown "Russia" "IL-96-300PU Presidential" "RA-96017" "IL96");
("155028", mkKnown "Russia" "IL-96-300PU Presidential" "RA-96018" "IL96");
("155029", mkKnown "Russia" "IL-96-300PU Presidential" "RA-96019" "IL96");
("15502a", mkKnown "Russia" "IL-96-300PU Presidential" "RA-96020" "IL96");
("15502b", mkKnown "Russia" "IL-96-300PU Presidential" "RA-96021" "IL96");
("15502c", mkKnown "Russia" "IL-96-300PU Presidential" "RA-96022" "IL96");
("150d4e", mkKnown "Russia" "Tu-214PU Government" "RA-64517" "T214");
("150d4f", mkKnown "Russia" "Tu-214PU Government" "RA-64520" "T214");
("150125", mkKnown "Russia" "IL-96-400 Presidential" "RA-96102" "IL96");
("155001", mkKnown "Russia" "Tu-214SR Government" "RA-64515" "T214");
("155002", mkKnown "Russia" "Tu-214SR Government" "RA-64516" "T214");
("145624", mkKnown "Russia" "Il-80 Doomsday Plane" "RA-86147" "IL86");
("145625", mkKnown "Russia" "Il-80 Doomsday Plane" "RA-86148" "IL86");
("780a71", mkKnown "China" "B747-8i Presidential" "B-2479" "B748");
("780a72", mkKnown "China" "B747-8i VIP" "B-2480" "B748");
("780b71", mkKnown "China" "B737-800 Government" "B-4026" "B738");
("780b72", mkKnown "China" "B737-800 Government" "B-4027" "B738");
("780c01", mkKnown "China" "A319CJ Government" "B-4090" "A319");
("780c02", mkKnown "China" "A319CJ Government" "B-4091" "A319");
("781011", mkKnown "China" "PLAAF VIP Transport" "B-4025" "B738");
("720101", mkKnown "North Korea" "IL-62M Chammae-1" "P-618" "IL62");
("720102", mkKnown "North Korea" "IL-62M Government" "P-885" "IL62");
("720201", mkKnown "North Korea" "Tu-154 Government" "P-552" "T154");
("720301", mkKnown "North Korea" "AN-148 Government" "P-671" "A148");
("720302", mkKnown "North Korea" "AN-148 Government" "P-672" "A148");
("508a28", mkKnown "Ukraine" "A319CJ Presidential" "UR-ABA" "A319");
("508016", mkKnown "Ukraine" "IL-62M Government" "UR-86527" "IL62");
("508017", mkKnown "Ukraine" "IL-62M Government" "UR-86528" "IL62");
("508a01", mkKnown "Ukraine" "An-148 Government" "UR-UKR" "A148");
("498da4", mkKnown "Czech Rep" "A319CJ Government" "OK-GOV" "A319");
("498d4a", mkKnown "Czech Rep" "CL-601 Challenger VIP" "OK-BYR" "CL60");
("498012", mkKnown "Czech Rep" "A319 Air Force" "3085" "A319");
("498001", mkKnown "Czech Rep" "CASA C-295M" "0452" "C295");
("498002", mkKnown "Czech Rep" "CASA C-295M" "0453" "C295");
("43c6c4", mkKnown "UK" "RAF Voyager A330 MRTT" "ZZ330" "A332");
("43c6c5", mkKnown "UK" "RAF Voyager A330 MRTT" "ZZ331" "A332");
("43c6c6", mkKnown "UK" "RAF Voyager A330 MRTT" "ZZ332" "A332");
("43c6c7", mkKnown "UK" "RAF Voyager A330 MRTT" "ZZ333" "A332");
("43c6c8", mkKnown "UK" "RAF Voyager A330 MRTT" "ZZ334" "A332");
("43c6c9", mkKnown "UK" "RAF Voyager A330 MRTT" "ZZ335" "A332");
("43c6d0", mkKnown "UK" "RAF Voyager A330 MRTT" "ZZ336" "A332");
("43c2f0", mkKnown "UK" "BAe 146 Royal Flight" "ZE700" "B461");
("43c2f1", mkKnown "UK" "BAe 146 Royal Flight" "ZE701" "B461");
("3b75a6", mkKnown "France" "A330-200 Cotam 001" "F-RARF" "A332");
("3b75a5", mkKnown "France" "A330-200 Cotam 002" "F-RARE" "A332");
("3b7541", mkKnown "France" "Falcon 7X VIP" "F-RAFB" "FA7X");
("3b7542", mkKnown "France" "Falcon 7X VIP" "F-RAFC" "FA7X");
("3b7543", mkKnown "France" "Falcon 900 VIP" "F-RAFD" "F900");
("3b7544", mkKnown "France" "Falcon 2000 VIP" "F-RAFE" "F2TH");
("3b7545", mkKnown "France" "A340-200 VIP" "F-RAJB" "A342");
("3b7601", mkKnown "France" "A330 MRTT Phenix" "F-UJCA" "A332");
("3b7602", mkKnown "France" "A330 MRTT Phenix" "F-UJCB" "A332");
("3f4615", mkKnown "Germany" "A350-900 Konrad Adenauer" "10+01" "A359");
("3f4616", mkKnown "Germany" "A350-900 Theodor Heuss" "10+02" "A359");
("3f4617", mkKnown "Germany" "A350-900 Kurt Schumacher" "10+03" "A359");
("3f4542", mkKnown "Germany" "A321-200 VIP" "15+01" "A321");
("3f4543", mkKnown "Germany" "A321-200 VIP" "15+02" "A321");
("3f4544", mkKnown "Germany" "A319CJ VIP" "15+03" "A319");
("3f4545", mkKnown "Germany" "A319CJ VIP" "15+04" "A319");
("3f457c", mkKnown "Germany" "Global 5000 VIP" "14+01" "GL5T");
("3f457d", mkKnown "Germany" "Global 5000 VIP" "14+02" "GL5T");
("3f457e", mkKnown "Germany" "Global 5000 VIP" "14+03" "GL5T");
("3f457f", mkKnown "Germany" "Global 5000 VIP" "14+04" "GL5T");
("33ff01", mkKnown "Italy" "A340-500 Presidential" "I-TALY" "A345");
("33ff02", mkKnown "Italy" "A319CJ VIP" "MM62243" "A319");
("33ff03", mkKnown "Italy" "A319CJ VIP" "MM62174" "A319");
("33ff10", mkKnown "Italy" "Falcon 900EX VIP" "MM62210" "F900");
("33ff11", mkKnown "Italy" "Falcon 900EX VIP" "MM62211" "F900");
("33ff12", mkKnown "Italy" "Falcon 900EX VIP" "MM62244" "F900");
("34318c", mkKnown "Spain" "A310-300 VIP" "T.22-1" "A310");
("34318d", mkKnown "Spain" "A310-300 VIP" "T.22-2" "A310");
("343191", mkKnown "Spain" "Falcon 900 VIP" "T.18-1" "F900");
("343192", mkKnown "Spain" "Falcon 900 VIP" "T.18-2" "F900");
("343193", mkKnown "Spain" "Falcon 900 VIP" "T.18-3" "F900");
("343194", mkKnown "Spain" "Falcon 900 VIP" "T.18-4" "F900");
("343195", mkKnown "Spain" "Falcon 900 VIP" "T.18-5" "F900");
("3431a0", mkKnown "Spain" "A400M Atlas" "T.23-01" "A400");
("489702", mkKnown "Poland" "B737-800 Head of State" "SP-LIG" "B738");
("489460", mkKnown "Poland" "Gulfstream G550 VIP" "0110" "G550");
("489461", mkKnown "Poland" "Gulfstream G550 VIP" "0111" "G550");
("48947e", mkKnown "Poland" "B737-800BBJ VIP" "0001" "B738");
("48947f", mkKnown "Poland" "B737-800BBJ VIP" "0002" "B738");
("484101", mkKnown "Netherlands" "B737-700BBJ Royal" "PH-GOV" "B737");
("484102", mkKnown "Netherlands" "Gulfstream G650 VIP" "PH-GVI" "G650");
("484110", mkKnown "Netherlands" "KDC-10 Tanker/VIP" "T-264" "DC10");
("44d001", mkKnown "Belgium" "ERJ-135 VIP" "CE-01" "E135");
("44d002", mkKnown "Belgium" "ERJ-145 VIP" "CE-02" "E145");
("44d003", mkKnown "Belgium" "Falcon 7X VIP" "CD-01" "FA7X");
("44d010", mkKnown "Belgium" "A321 Government" "CS-TRJ" "A321");
("440101", mkKnown "Austria" "PC-12 VIP" "OE-EPM" "PC12");
("440102", mkKnown "Austria" "C-130K Hercules" "8T-CA" "C130");
("440103", mkKnown "Austria" "C-130K Hercules" "8T-CB" "C130");
("440104", mkKnown "Austria" "C-130K Hercules" "8T-CC" "C130");
("4b0011", mkKnown "Switzerland" "Citation Excel VIP" "T-784" "C56X");
("4b0012", mkKnown "Switzerland" "PC-24 VIP" "T-786" "PC24");
("4b0013", mkKnown "Switzerland" "Falcon 900 VIP" "T-785" "F900");
("4a8001", mkKnown "Sweden" "Gulfstream G550 VIP" "102001" "G550");
("4a8002", mkKnown "Sweden" "Gulfstream G550 VIP" "102002" "G550");
("4a8003", mkKnown "Sweden" "S102B Korpen SIGINT" "102003" "G550");
("478101", mkKnown "Norway" "Falcon 7X VIP" "053" "FA7X");
("478102", mkKnown "Norway" "Falcon 7X VIP" "054" "FA7X");
("478103", mkKnown "Norway" "Falcon 20 EW" "041" "FA20");
("459901", mkKnown "Denmark" "CL-604 Challenger VIP" "C-080" "CL60");
("459902", mkKnown "Denmark" "CL-604 Challenger VIP" "C-168" "CL60");
("459903", mkKnown "Denmark" "CL-604 Challenger VIP" "C-172" "CL60");
("461e01", mkKnown "Finland" "CL-604 Challenger VIP" "CC-1" "CL60");
("461e02", mkKnown "Finland" "LJ-35 Learjet VIP" "LJ-1" "LJ35");
("461e03", mkKnown "Finland" "LJ-35 Learjet VIP" "LJ-2" "LJ35");
("490501", mkKnown "Portugal" "Falcon 50 VIP" "17401" "FA50");
("490502", mkKnown "Portugal" "Falcon 50 VIP" "17402" "FA50");
("490503", mkKnown "Portugal" "Falcon 50 VIP" "17403" "FA50");
("468c01", mkKnown "Greece" "ERJ-135 VIP" "145-208" "E135");
("468c02", mkKnown "Greece" "ERJ-135 VIP" "145-209" "E135");
("468c03", mkKnown "Greece" "Gulfstream V VIP" "678" "GLF5");
("47a001", mkKnown "Hungary" "Falcon 7X VIP" "606" "FA7X");
("47a002", mkKnown "Hungary" "Dassault 900LX VIP" "604" "F900");
("47a003", mkKnown "Hungary" "A319CJ VIP" "605" "A319");
("4a1001", mkKnown "Romania" "B737-700BBJ VIP" "YR-BBJ" "B737");
("4a1002", mkKnown "Romania" "C-130H Hercules" "5930" "C130");
("450501", mkKnown "Bulgaria" "Falcon 2000 VIP" "LZ-OOI" "F2TH");
("450502", mkKnown "Bulgaria" "A319 Government" "LZ-AOB" "A319");
("501c01", mkKnown "Croatia" "CL-604 Challenger VIP" "9A-CRO" "CL60");
("4d0001", mkKnown "Slovenia" "Falcon 2000 VIP" "S5-BAV" "F2TH");
("506c01", mkKnown "Slovakia" "Fokker 100 VIP" "OM-BYA" "F100");
("506c02", mkKnown "Slovakia" "Fokker 100 VIP" "OM-BYB" "F100");
("511017", mkKnown "Estonia" "CRJ-700 Government" "ES-PVG" "CRJ7");
("502c03", mkKnown "Latvia" "A220-300 Government" "YL-LFB" "BCS3");
("502c17", mkKnown "Latvia" "L-410 Government" "YL-KAM" "L410");
("503c01", mkKnown "Lithuania" "L-410 Government" "01" "L410");
("503c02", mkKnown "Lithuania" "C-27J Spartan" "02" "C27J");
("4c8001", mkKnown "Ireland" "LJ-45 Learjet VIP" "252" "LJ45");
("4c8002", mkKnown "Ireland" "LJ-45 Learjet VIP" "253" "LJ45");
("4c8003", mkKnown "Ireland" "G280 Government" "280" "G280");
("4b8001", mkKnown "Turkey" "A330-200 VIP" "TC-TUR" "A332");
("4b8002", mkKnown "Turkey" "A319CJ VIP" "TC-ANA" "A319");
("4b8003", mkKnown "Turkey" "Gulfstream 550 VIP" "TC-DAP" "G550");
("4b8004", mkKnown "Turkey" "B737-800BBJ VIP" "TC-ATA" "B738");
("151db8", mkKnown "Belarus" "B737-800 Presidential" "EW-001PA" "B738");
("151db9", mkKnown "Belarus" "B767 VIP" "EW-001PB" "B767");
("151dc0", mkKnown "Belarus" "Tu-134 Government" "EW-65149" "T134");
("4d0101", mkKnown "Serbia" "Falcon 900 VIP" "YU-FSS" "F900");
("4d0102", mkKnown "Serbia" "ERJ-135 VIP" "YU-SRB" "E135");
("501901", mkKnown "Albania" "AS365 Dauphin VIP" "ZA-BDF" "AS65");
("4d0301", mkKnown "N. Macedonia" "LJ-60 Learjet VIP" "Z3-MKD" "LJ60");
("4d0201", mkKnown "Montenegro" "Falcon 50 VIP" "4O-MNE" "FA50");
("4d0401", mkKnown "Bosnia" "HUEY II VIP" "T9-HAD" "HUEY");
("4b0501", mkKnown "Luxembourg" "LJ-45 Learjet VIP" "NAT-01" "LJ45");
("4ccc01", mkKnown "Iceland" "DHC-8 Coast Guard" "TF-SIF" "DH8D");
("4d8001", mkKnown "Cyprus" "A319CJ Government" "5B-CYP" "A319");
("4d9001", mkKnown "Malta" "B200 King Air VIP" "AS1428" "BE20")
].

Definition PRESIDENTIAL_AIRCRAFT : gmap string KnownRecord :=
  Eval vm_compute in PyDict.literal_map PRESIDENTIAL_AIRCRAFT_items.

(** The items of the [VIP_CALLSIGN_PATTERNS] display, as written. *)
Definition VIP_CALLSIGN_PATTERNS_items : list (string * string) := [
("AF1", "USA");
("AF2", "USA");
("SAM", "USA");
("EXEC", "USA");
("VENUS", "USA");
("RSD", "Russia");
("ROSSIYA", "Russia");
("RFF", "Russia");
("RUSS", "Russia");
("RFAF", "Russia");
("CZAF", "Czech Rep");
("CEF", "Czech Rep");
("CZA", "Czech Rep");
("UKR", "Ukraine");
("UKRAINA", "Ukraine");
("UKF", "Ukraine");
("CCA", "China");
("CHN", "China");
("CHINA", "China");
("CXA", "China");
("KOR", "North Korea");
("PRK", "North Korea");
("RRR", "UK");
("RFR", "UK");
("KRF", "UK");
("KITTY", "UK");
("ASCOT", "UK");
("COTAM", "France");
("CTM", "France");
("FAF", "France");
("FRF", "France");
("GAF", "Germany");
("GAFTT", "Germany");
("GERM", "Germany");
("IAM", "Italy");
("ITAF", "Italy");
("AME", "Spain");
("SPANISH", "Spain");
("SPA", "Spain");
("PLF", "Poland");
("POLISH", "Poland");
("POL", "Poland");
("NAF", "Netherlands");
("NLD", "Netherlands");
("BAF", "Belgium");
("BEL", "Belgium");
("AUA", "Austria");
("OST", "Austria");
("SUI", "Switzerland");
("HEB", "Switzerland");
("SVF", "Sweden");
("SWE", "Sweden");
("NOW", "Norway");
("NOR", "Norway");
("DAF", "Denmark");
("DNK", "Denmark");
("FAF", "Finland");
("FIN", "Finland");
("FINNAF", "Finland");
("PAF", "Portugal");
("POR", "Portugal");
("HAF", "Greece");
("GRC", "Greece");
("HDF", "Hungary");
("HUN", "Hungary");
("ROF", "Romania");
("ROU", "Romania");
("BUF", "Bulgaria");
("BGR", "Bulgaria");
("HRZ", "Croatia");
("CRO", "Croatia");
("SVN", "Slovenia");
("SLO", "Slovenia");
("SLK", "Slovakia");
("SVK", "Slovakia");
("EST", "Estonia");
("EEF", "Estonia");
("LAT", "Latvia");
("LVA", "Latvia");
("LYF", "Lithuania");
("LTU", "Lithuania");
("IRL", "Ireland");
("THK", "Turkey");
("TUAF", "Turkey");
("TCGF", "Turkey");
("BRU", "Belarus");
("BLR", "Belarus");
("SRB", "Serbia");
("YUG", "Serbia");
("ALB", "Albania");
("MKD", "N. Macedonia");
("MNE", "Montenegro");
("BIH", "Bosnia");
("LUX", "Luxembourg");
("ICE", "Iceland");
("CYP", "Cyprus");
("MLT", "Malta")
].

(** The dictionary the display evaluates to. *)
Definition VIP_CALLSIGN_PATTERNS : list (string * string) :=
  Eval vm_compute in PyDict.literal VIP_CALLSIGN_PATTERNS_items.

Record AircraftInfo : Type := mkAircraftInfo {
  hex_code : string;
  callsign : string;
  registration : string;
  aircraft_type : string;
  country : string;
  description : string;
  latitude : option Q;
  longitude : option Q;
  altitude : option Q;
  ground_speed : option Q;
  heading : option Q;
  vertical_rate : option Q;
  squawk_code : string;
  on_ground : bool;
  last_seen : Q;
  over_country : string
}.

(** [info.country = c; info.description = d] *)
Definition set_country_description (info : AircraftInfo) (c d : string)
  : AircraftInfo :=
  {| hex_code := hex_code info; callsign := callsign info;
     registration := registration info; aircraft_type := aircraft_type info;
     country := c; description := d;
     latitude := latitude info; longitude := longitude info;
     altitude := altitude info; ground_speed := ground_speed info;
     heading := heading info; vertical_rate := vertical_rate info;
     squawk_code := squawk_code info; on_ground := on_ground info;
     last_seen := last_seen info; over_country := over_country info |}.

Definition country_names : gmap string string :=
  Eval vm_compute in PyDict.literal_map [
    ("US", "USA"); ("GB", "UK"); ("DE", "Germany"); ("FR", "France");
    ("IT", "Italy"); ("ES", "Spain"); ("PL", "Poland"); ("CZ", "Czechia");
    ("UA", "Ukraine"); ("RU", "Russia"); ("CN", "China"); ("KP", "N.Korea");
    ("NL", "Netherlands"); ("BE", "Belgium"); ("AT", "Austria"); ("CH", "Switzerland");
    ("SE", "Sweden"); ("NO", "Norway"); ("DK", "Denmark"); ("FI", "Finland");
    ("PT", "Portugal"); ("GR", "Greece"); ("HU", "Hungary"); ("RO", "Romania");
    ("BG", "Bulgaria"); ("HR", "Croatia"); ("SI", "Slovenia"); ("SK", "Slovakia");
    ("EE", "Estonia"); ("LV", "Latvia"); ("LT", "Lithuania"); ("IE", "Ireland");
    ("TR", "Turkey"); ("BY", "Belarus"); ("RS", "Serbia"); ("AL", "Albania");
    ("MK", "N.Macedonia"); ("ME", "Montenegro"); ("BA", "Bosnia"); ("LU", "Luxembourg");
    ("IS", "Iceland"); ("CY", "Cyprus"); ("MT", "Malta"); ("CA", "Canada");
    ("MX", "Mexico"); ("JP", "Japan"); ("KR", "S.Korea"); ("AU", "Australia");
    ("NZ", "New Zealand"); ("BR", "Brazil"); ("AR", "Argentina"); ("IN", "India");
    ("SA", "Saudi Arabia"); ("AE", "UAE"); ("IL", "Israel"); ("EG", "Egypt")
  ].

(** The scan of [VIP_CALLSIGN_PATTERNS.items()]: the country of the first
    item whose pattern the callsign starts with. *)
Fixpoint match_patterns (items : list (string * string)) (callsign : string)
  : option string :=
  match items with
  | [] => None
  | (pattern, country) :: rest =>
      if PyStr.startswith callsign pattern then Some country
      else match_patterns rest callsign
  end.

(** [if matched_country:] *)
Definition matched_truthy (matched_country : option string) : option string :=
  match matched_country with
  | Some c => if PyStr.truthy c then Some c else None
  | None => None
  end.

(** The sort key of [display_rich]. *)
Definition sort_key (x : AircraftInfo) : nat * string * string :=
  (if decide (country x ∈ PRIORITY_COUNTRIES) then 0 else 1,
   country x, description x).

(** Comparison of two keys: tier, then country, then description, the
    texts in the order of their characters' codes. *)
Definition key_compare : nat * string * string -> nat * string * string -> comparison :=
  PySort.tuple_compare (PySort.tuple_compare Nat.compare String.compare)
    String.compare.

Definition key_leb (a b : nat * string * string) : bool :=
  PySort.not_gt (key_compare a b).

(** The list as [display_rich] leaves it: an empty list is returned
    untouched, any other is sorted in place. *)
Definition display_rich_order (aircraft_list : list AircraftInfo)
  : list AircraftInfo :=
  match aircraft_list with
  | [] => []
  | _ => PySort.sort key_leb sort_key aircraft_list
  end.

Section Pipeline.
Variable RG_AVAILABLE : bool.
Variable rg_search : nat -> Q -> Q -> Geo.rg_outcome.

Definition get_location := Geo.get_location RG_AVAILABLE rg_search country_names.

Definition parse_aircraft (ac_data : RawTrack)
    (known_aircraft : gmap string KnownRecord) (st : Geo.geo_state)
  : AircraftInfo * Geo.geo_state :=
  let hex_code := PyStr.lower (default "" (hex ac_data)) in
  let known := known_aircraft !! hex_code in
  let lat := lat ac_data in
  let lon := lon ac_data in
  let '(over_country, st') :=
    if lat_and_lon lat lon then get_location lat lon st else ("", st) in
  ({| hex_code := PyStr.upper hex_code;
      callsign := PyStr.or_else (PyStr.strip (default "" (flight ac_data))) "N/A";
      registration :=
        PyStr.or_else (default "" (r ac_data))
          (from_option known_registration "N/A" known);
      aircraft_type :=
        PyStr.or_else (default "" (t ac_data))
          (from_option known_type "N/A" known);
      country := from_option known_country "Unknown" known;
      description := from_option known_description "Military Aircraft" known;
      latitude := lat;
      longitude := lon;
      altitude := altitude_of ac_data;
      ground_speed := gs ac_data;
      heading := track ac_data;
      vertical_rate := baro_rate ac_data;
      squawk_code := default "N/A" (squawk ac_data);
      on_ground := on_ground_of ac_data;
      last_seen := default 0%Q (seen ac_data);
      over_country := over_country |}, st').

(** The [for ac in aircraft_list] loop of [find_presidential_aircraft],
    with its three variables [presidential], [seen_hex] and the
    location cache. *)
Fixpoint find_loop (aircraft_list : list RawTrack)
    (presidential : list AircraftInfo) (seen_hex : gset string)
    (st : Geo.geo_state) : list AircraftInfo * Geo.geo_state :=
  match aircraft_list with
  | [] => (presidential, st)
  | ac :: rest =>
      let hex_code := PyStr.lower (default "" (hex ac)) in
      let callsign := PyStr.upper (PyStr.strip (default "" (flight ac))) in
      if decide (hex_code ∈ seen_hex) then
        find_loop rest presidential seen_hex st
      else if decide (is_Some (PRESIDENTIAL_AIRCRAFT !! hex_code)) then
        let '(info, st') := parse_aircraft ac PRESIDENTIAL_AIRCRAFT st in
        find_loop rest (presidential ++ [info]) ({[hex_code]} ∪ seen_hex) st'
      else
        match matched_truthy (match_patterns VIP_CALLSIGN_PATTERNS callsign) with
        | Some matched_country =>
            let '(info, st') := parse_aircraft ac PRESIDENTIAL_AIRCRAFT st in
            let info :=
              set_country_description info matched_country
                ("VIP Flight (" +:+ callsign +:+ ")") in
            find_loop rest (presidential ++ [info]) ({[hex_code]} ∪ seen_hex) st'
        | None => find_loop rest presidential seen_hex st
        end
  end.

Definition find_presidential_aircraft (api_response : ApiResponse)
    (st : Geo.geo_state) : list AircraftInfo * Geo.geo_state :=
  find_loop (get_ac api_response) [] ∅ st.
End Pipeline.

End Tracker1.

(** * poc_tracker2.py *)

Module Tracker2.

Definition TOP_PRIORITY_CATEGORIES : gset string :=
  {[ "Dictator Alert"; "Governments" ]}.

Definition HIGH_PRIORITY_CATEGORIES : gset string :=
  {[ "Oxcart"; "Special Forces"; "Gunship" ]}.

Definition MILITARY_CATEGORIES : gset string :=
  {[ "USAF"; "RAF"; "GAF"; "United States Navy"; "United States Marine Corps";
     "Royal Navy Fleet Air Arm"; "Other Navies"; "Other Air Forces";
     "Coastguard"; "Toy Soldiers"; "Zoomies" ]}.

(** The value of one column in a row: the text of the field, or [None],
    which [csv.DictReader] stores under the columns that a short row lacks. *)
Inductive cell : Type :=
| CellText (text : string)
| CellNone.

(** A row of the CSV file as [csv.DictReader] yields it: a dictionary from
    the column names of the header to the values of the row. *)
Abbreviation csv_row := (gmap string cell).

(** [row.get(column, '')]: the default is for a column that the header
    does not have. *)
Definition row_get (row : csv_row) (column : string) : cell :=
  default (CellText "") (row !! column).

(** The text of a value stored in a record.  A [None] is stored as it is;
    every later use of these fields tests the value's truthiness, takes it
    with [or], or looks it up in a set of categories, where [None] and the
    empty text behave alike: the record fields are texts, and [None] is
    held as the empty text. *)
Definition cell_text (c : cell) : string :=
  match c with
  | CellText text => text
  | CellNone => ""
  end.

Record AircraftRecord : Type := mkAircraftRecord {
  rec_icao_hex : string;
  rec_registration : string;
  rec_operator : string;
  rec_aircraft_type : string;
  rec_icao_type : string;
  rec_cmpg : string;
  rec_tag1 : string;
  rec_tag2 : string;
  rec_tag3 : string;
  rec_category : string;
  rec_link : string
}.

(** The file at [CSV_PATH]: absent, present but failing to open or to
    decode, or read as a sequence of rows. *)
Inductive csv_file : Type :=
| FileMissing
| FileUnreadable (text : string)
| FileRows (rows : list csv_row).

(** [row.get('$ICAO', '').lower().strip()]; there is no result when the
    value is [None], on which [.lower()] raises [AttributeError]. *)
Definition row_icao (row : csv_row) : option string :=
  match row_get row "$ICAO" with
  | CellText text => Some (PyStr.strip (PyStr.lower text))
  | CellNone => None
  end.

Definition record_of_row (icao : string) (row : csv_row) : AircraftRecord :=
  {| rec_icao_hex := icao;
     rec_registration := cell_text (row_get row "$Registration");
     rec_operator := cell_text (row_get row "$Operator");
     rec_aircraft_type := cell_text (row_get row "$Type");
     rec_icao_type := cell_text (row_get row "$ICAO Type");
     rec_cmpg := cell_text (row_get row "#CMPG");
     rec_tag1 := cell_text (row_get row "$Tag 1");
     rec_tag2 := cell_text (row_get row "$#Tag 2");
     rec_tag3 := cell_text (row_get row "$#Tag 3");
     rec_category := cell_text (row_get row "Category");
     rec_link := cell_text (row_get row "$#Link") |}.

(** [if icao and len(icao) == 6] *)
Definition row_accepted (icao : string) : bool :=
  PyStr.truthy icao && (String.length icao =? 6)%nat.

(** The body of [for row in reader]: the database after the row, or
    nothing when the row raises. *)
Definition load_row (database : gmap string AircraftRecord) (row : csv_row)
  : option (gmap string AircraftRecord) :=
  match row_icao row with
  | Some icao =>
      Some (if row_accepted icao then <[icao := record_of_row icao row]> database
            else database)
  | None => None
  end.

(** The loop [for row in reader], which ends at the first row that raises. *)
Fixpoint load_rows (rows : list csv_row) (database : gmap string AircraftRecord)
  : option (gmap string AircraftRecord) :=
  match rows with
  | [] => Some database
  | row :: rest =>
      match load_row database row with
      | Some database' => load_rows rest database'
      | None => None
      end
  end.

(** The text of the [AttributeError] of [None.lower()]. *)
Definition none_lower : string := "'NoneType' object has no attribute 'lower'".

Definition load_aircraft_database (csv_path : csv_file)
  : Client.result (gmap string AircraftRecord) :=
  match csv_path with
  | FileMissing => Client.Returned ∅
  | FileUnreadable text => Client.Raised Client.OtherError text
  | FileRows rows =>
      match load_rows rows ∅ with
      | Some database => Client.Returned database
      | None => Client.Raised Client.OtherError none_lower
      end
  end.

Definition country_names : gmap string string :=
  Eval vm_compute in PyDict.literal_map [
    ("US", "USA"); ("GB", "UK"); ("DE", "Germany"); ("FR", "France");
    ("IT", "Italy"); ("ES", "Spain"); ("PL", "Poland"); ("CZ", "Czechia");
    ("UA", "Ukraine"); ("RU", "Russia"); ("CN", "China"); ("KP", "N.Korea");
    ("NL", "Netherlands"); ("BE", "Belgium"); ("AT", "Austria"); ("CH", "Switzerland");
    ("SE", "Sweden"); ("NO", "Norway"); ("DK", "Denmark"); ("FI", "Finland");
    ("EG", "Egypt"); ("SA", "Saudi"); ("AE", "UAE"); ("IL", "Israel");
    ("TR", "Turkey"); ("JP", "Japan"); ("KR", "S.Korea"); ("AU", "Australia");
    ("CA", "Canada"); ("MX", "Mexico"); ("BR", "Brazil"); ("ZA", "S.Africa");
    ("ZW", "Zimbabwe"); ("BY", "Belarus"); ("SY", "Syria"); ("IR", "Iran");
    ("KZ", "Kazakhstan"); ("UZ", "Uzbekistan"); ("TM", "Turkmenistan")
  ].

Record TrackedAircraft : Type := mkTrackedAircraft {
  icao_hex : string;
  callsign : string;
  registration : string;
  operator : string;
  aircraft_type : string;
  icao_type : string;
  category : string;
  cmpg : string;
  tag1 : string;
  tag2 : string;
  tag3 : string;
  link : string;
  latitude : option Q;
  longitude : option Q;
  altitude : option Q;
  ground_speed : option Q;
  heading : option Q;
  squawk_code : string;
  on_ground : bool;
  over_country : string;
  is_priority : bool;
  is_high_interest : bool
}.

(** The sort key of [display_table]. *)
Definition sort_key (x : TrackedAircraft) : string * string :=
  (category x, operator x).

Definition key_compare : string * string -> string * string -> comparison :=
  PySort.tuple_compare String.compare String.compare.

Definition key_leb (a b : string * string) : bool :=
  PySort.not_gt (key_compare a b).

(** The list as [display_table] leaves it. *)
Definition display_table_order (aircraft_list : list TrackedAircraft)
  : list TrackedAircraft :=
  match aircraft_list with
  | [] => []
  | _ => PySort.sort key_leb sort_key aircraft_list
  end.

(** What a run of [main] reaches: the early [return] after
    ["Error: Could not load aircraft database!"], or the display of the
    matched list. *)
Inductive main_result : Type :=
| CouldNotLoadDatabase
| Displayed (tracked : list TrackedAircraft).

Section Pipeline.
Variable RG_AVAILABLE : bool.
Variable rg_search : nat -> Q -> Q -> Geo.rg_outcome.

Definition get_location := Geo.get_location RG_AVAILABLE rg_search country_names.

Definition parse_tracked_aircraft (ac_data : RawTrack)
    (db : gmap string AircraftRecord) (st : Geo.geo_state)
  : option TrackedAircraft * Geo.geo_state :=
  let hex_code := PyStr.lower (default "" (hex ac_data)) in
  match db !! hex_code with
  | None => (None, st)
  | Some record =>
      let lat := lat ac_data in
      let lon := lon ac_data in
      let '(over_country, st') :=
        if lat_and_lon lat lon then get_location lat lon st else ("", st) in
      (Some
         {| icao_hex := PyStr.upper hex_code;
            callsign :=
              PyStr.or_else (PyStr.strip (default "" (flight ac_data))) "N/A";
            registration := rec_registration record;
            operator :=
              if PyStr.truthy (rec_operator record)
              then PyStr.take 35 (rec_operator record) else "Unknown";
            aircraft_type :=
              if PyStr.truthy (rec_aircraft_type record)
              then PyStr.take 25 (rec_aircraft_type record) else "";
            icao_type :=
              PyStr.or_else (default "" (t ac_data)) (rec_icao_type record);
            category := rec_category record;
            cmpg := rec_cmpg record;
            tag1 := rec_tag1 record;
            tag2 := rec_tag2 record;
            tag3 := rec_tag3 record;
            link := rec_link record;
            latitude := lat;
            longitude := lon;
            altitude := altitude_of ac_data;
            ground_speed := gs ac_data;
            heading := track ac_data;
            squawk_code := default "" (squawk ac_data);
            on_ground := on_ground_of ac_data;
            over_country := over_country;
            is_priority :=
              bool_decide (rec_category record ∈ TOP_PRIORITY_CATEGORIES);
            is_high_interest :=
              bool_decide (rec_category record ∈ HIGH_PRIORITY_CATEGORIES) |},
       st')
  end.

(** The matching loop of [main]: [for ac_data in response.get("ac", [])]. *)
Fixpoint match_loop (acs : list RawTrack) (tracked : list TrackedAircraft)
    (database : gmap string AircraftRecord) (st : Geo.geo_state)
  : list TrackedAircraft * Geo.geo_state :=
  match acs with
  | [] => (tracked, st)
  | ac_data :: rest =>
      match parse_tracked_aircraft ac_data database st with
      | (Some aircraft, st') => match_loop rest (tracked ++ [aircraft]) database st'
      | (None, st') => match_loop rest tracked database st'
      end
  end.

(** [main], from the loading of the database to the list handed to the
    display functions. *)
Definition main (csv_path : csv_file) (outcome : Client.transport)
    (st : Geo.geo_state) : Client.result (main_result * Geo.geo_state) :=
  match load_aircraft_database csv_path with
  | Client.Raised c text => Client.Raised c text
  | Client.Returned database =>
      if bool_decide (size database = 0) then
        Client.Returned (CouldNotLoadDatabase, st)
      else
        match Client.get_military_aircraft outcome with
        | Client.Raised c text => Client.Raised c text
        | Client.Returned response =>
            let '(tracked, st') := match_loop (get_ac response) [] database st in
            Client.Returned (Displayed tracked, st')
        end
  end.
End Pipeline.

End Tracker2.

(** * The loop of find_presidential_aircraft, one track at a time *)

Module Tracker1Spec.
Import Tracker1.

(** [ac.get("hex", "").lower()] *)
Definition hex_lower (ac : RawTrack) : string :=
  PyStr.lower (default "" (hex ac)).

(** [ac.get("flight", "").strip().upper()] *)
Definition callsign_upper (ac : RawTrack) : string :=
  PyStr.upper (PyStr.strip (default "" (flight ac))).

(** The callsign matcher on a raw callsign: normalisation, then the scan
    of the pattern dictionary. *)
Definition match_callsign (raw : string) : option string :=
  match_patterns VIP_CALLSIGN_PATTERNS (PyStr.upper (PyStr.strip raw)).

(** Whether the loop keeps a track it has not seen yet: its identifier is
    a key of the registry, or its callsign matches a pattern. *)
Definition tracked (ac : RawTrack) : bool :=
  bool_decide (is_Some (PRESIDENTIAL_AIRCRAFT !! hex_lower ac))
  || bool_decide (is_Some (matched_truthy (match_callsign (default "" (flight ac))))).

(** The first track of the snapshot with identifier [h] that the loop
    would keep. *)
Definition first_tracked (h : string) (acs : list RawTrack) : option RawTrack :=
  List.find (fun ac => bool_decide (hex_lower ac = h) && tracked ac) acs.

(** The entries of the result that carry identifier [h]. *)
Definition entries_of (h : string) (out : list AircraftInfo) : list AircraftInfo :=
  filter (fun e => hex_code e = PyStr.upper h) out.

(** An entry with the default of its [over_country] field, the empty
    text, as [parse_aircraft] leaves it when no location is resolved. *)
Definition without_over_country (info : AircraftInfo) : AircraftInfo :=
  {| hex_code := hex_code info; callsign := callsign info;
     registration := registration info; aircraft_type := aircraft_type info;
     country := country info; description := description info;
     latitude := latitude info; longitude := longitude info;
     altitude := altitude info; ground_speed := ground_speed info;
     heading := heading info; vertical_rate := vertical_rate info;
     squawk_code := squawk_code info; on_ground := on_ground info;
     last_seen := last_seen info; over_country := "" |}.

Section Pipeline.
Variable RG_AVAILABLE : bool.
Variable rg_search : nat -> Q -> Q -> Geo.rg_outcome.

Abbreviation parse_aircraft := (parse_aircraft RG_AVAILABLE rg_search).
Abbreviation find_loop := (find_loop RG_AVAILABLE rg_search).

(** What one round of the loop appends for a track whose identifier has
    not been seen, and the location cache it leaves. *)
Definition emitted (ac : RawTrack) (st : Geo.geo_state)
  : option (AircraftInfo * Geo.geo_state) :=
  if decide (is_Some (PRESIDENTIAL_AIRCRAFT !! hex_lower ac)) then
    Some (parse_aircraft ac PRESIDENTIAL_AIRCRAFT st)
  else
    match matched_truthy (match_callsign (default "" (flight ac))) with
    | Some matched_country =>
        let '(info, st') := parse_aircraft ac PRESIDENTIAL_AIRCRAFT st in
        Some (set_country_description info matched_country
                ("VIP Flight (" +:+ callsign_upper ac +:+ ")"), st')
    | None => None
    end.

(** The list the loop has built when it ends, started from an empty one. *)
Definition found (acs : list RawTrack) (seen_hex : gset string)
    (st : Geo.geo_state) : list AircraftInfo :=
  fst (find_loop acs [] seen_hex st).

End Pipeline.

End Tracker1Spec.

Module Tracker2Spec.

(** [ac_data.get("hex", "").lower()] *)
Definition hex_lower (ac : RawTrack) : string :=
  PyStr.lower (default "" (hex ac)).

End Tracker2Spec.

(** * The orders of the display functions, spelled out *)

Module DisplayOrder.

(** [0] for a priority country, [1] otherwise: the first component of the
    sort key of [display_rich]. *)
Definition tier (x : Tracker1.AircraftInfo) : nat :=
  if decide (Tracker1.country x ∈ Tracker1.PRIORITY_COUNTRIES) then 0 else 1.

(** The order of [display_rich]: tier, then country, then description. *)
Definition rich_order (a b : Tracker1.AircraftInfo) : Prop :=
  tier a < tier b ∨
  (tier a = tier b ∧
   (String.ltb (Tracker1.country a) (Tracker1.country b) = true ∨
    (Tracker1.country a = Tracker1.country b ∧
     String.leb (Tracker1.description a) (Tracker1.description b) = true))).

(** The order of [display_table]: category, then operator. *)
Definition table_order (a b : Tracker2.TrackedAircraft) : Prop :=
  String.ltb (Tracker2.category a) (Tracker2.category b) = true ∨
  (Tracker2.category a = Tracker2.category b ∧
   String.leb (Tracker2.operator a) (Tracker2.operator b) = true).

End DisplayOrder.

(** * Sample data *)

Module Demo.
Import Geo.

(** A geocoder that resolves every position to Czechia. *)
Definition demo_search : nat -> Q -> Q -> Geo.rg_outcome :=
  fun _ _ _ => Geo.RgReturns [Geo.mkRgResult (Some "Prague") (Some "CZ")].

(** A track with an identifier, a callsign and a position only. *)
Definition demo_track (h f : string) (la lo : option Q) : RawTrack :=
  mkRawTrack (Some h) (Some f) None None la lo None None None None None None.

(** The geocoder fails on its first call and answers Czechia afterwards. *)
Definition flaky_search : nat -> Q -> Q -> rg_outcome :=
  fun calls _ _ =>
    match calls with
    | O => RgRaises
    | S _ => RgReturns [mkRgResult (Some "Prague") (Some "CZ")]
    end.

(** A geocoder that resolves every position to Gabon, for which
    [country_names] has no entry. *)
Definition gabon_search : nat -> Q -> Q -> rg_outcome :=
  fun _ _ _ => RgReturns [mkRgResult (Some "Libreville") (Some "GA")].

(** A known aircraft on the equator, off Libreville. *)
Definition equator_track : RawTrack :=
  mkRawTrack (Some "ae001f") (Some "SAM123") None None
    (Some 0%Q) (Some (945 # 100)%Q) None None None None None None.

(** A CSV row with three of the columns. *)
Definition demo_row (icao operator_name category_name : string) : Tracker2.csv_row :=
  {[ "$ICAO" := Tracker2.CellText icao;
     "$Operator" := Tracker2.CellText operator_name;
     "Category" := Tracker2.CellText category_name ]}.

(** A short row: an operator, and [None] under the identifier column. *)
Definition short_row (operator_name : string) : Tracker2.csv_row :=
  {[ "$Operator" := Tracker2.CellText operator_name;
     "$ICAO" := Tracker2.CellNone ]}.

(** An entry of the result list with no position. *)
Definition demo_info (code sign c d : string) : Tracker1.AircraftInfo :=
  Tracker1.mkAircraftInfo code sign "N/A" "N/A" c d None None None None None None
    "N/A" false 0%Q "".

End Demo.

(** * The summary statistics of main (poc_tracker.py) *)

Module Tracker1Summary.
Import Tracker1.

(** [country_counts[a.country] = country_counts.get(a.country, 0) + 1] *)
Definition count_country (country_counts : gmap string nat) (a : AircraftInfo)
  : gmap string nat :=
  <[country a := default 0 (country_counts !! country a) + 1]> country_counts.

(** The loop [for a in presidential] that fills [country_counts]. *)
Definition country_counts (presidential : list AircraftInfo) : gmap string nat :=
  fold_left count_country presidential ∅.

(** [len([a for a in presidential if a.country in PRIORITY_COUNTRIES])] *)
Definition priority_count (presidential : list AircraftInfo) : nat :=
  length (filter (fun a => country a ∈ PRIORITY_COUNTRIES) presidential).

(** [set(a.country for a in presidential)] *)
Definition countries_found (presidential : list AircraftInfo) : gset string :=
  list_to_set (country <$> presidential).

(** [countries_found & PRIORITY_COUNTRIES] *)
Definition priority_countries_found (presidential : list AircraftInfo) : gset string :=
  countries_found presidential ∩ PRIORITY_COUNTRIES.

(** [PRIORITY_COUNTRIES - countries_found] *)
Definition priority_countries_not_found (presidential : list AircraftInfo)
  : gset string :=
  PRIORITY_COUNTRIES ∖ countries_found presidential.

(** The sum of the values of a dictionary of counts. *)
Definition total (counts : gmap string nat) : nat :=
  map_fold (fun _ n acc => n + acc) 0 counts.

End Tracker1Summary.

(** * The display groups of main (poc_tracker2.py) *)

Module Tracker2Display.
Import Tracker2.

(** [[ac for ac in aircraft_list if ac.category in TOP_PRIORITY_CATEGORIES]] *)
Definition govt (aircraft_list : list TrackedAircraft) : list TrackedAircraft :=
  filter (fun ac => category ac ∈ TOP_PRIORITY_CATEGORIES) aircraft_list.

(** [[ac for ac in aircraft_list if ac.category in HIGH_PRIORITY_CATEGORIES]] *)
Definition spy_sf (aircraft_list : list TrackedAircraft) : list TrackedAircraft :=
  filter (fun ac => category ac ∈ HIGH_PRIORITY_CATEGORIES) aircraft_list.

(** [[ac for ac in aircraft_list if ac.category in MILITARY_CATEGORIES]] *)
Definition military (aircraft_list : list TrackedAircraft) : list TrackedAircraft :=
  filter (fun ac => category ac ∈ MILITARY_CATEGORIES) aircraft_list.

(** [len([ac for ac in aircraft_list if ac.is_priority])] *)
Definition priority_count (aircraft_list : list TrackedAircraft) : nat :=
  length (filter (fun ac => is_priority ac = true) aircraft_list).

(** [len([ac for ac in aircraft_list if ac.is_high_interest])] *)
Definition high_interest_count (aircraft_list : list TrackedAircraft) : nat :=
  length (filter (fun ac => is_high_interest ac = true) aircraft_list).

End Tracker2Display.

(** * What main puts on the screen *)

Module MainDisplay.

(** The rows that [main] of the first variant shows for the list
    [presidential] returned by [find_presidential_aircraft]: with Rich,
    [display_rich(presidential, ...)] sorts the list before it builds the
    table; without Rich, [display_plain(presidential, ...)] prints the list
    as it is, in a [for ac in aircraft_list] loop. *)
Definition shown (RICH_AVAILABLE : bool)
    (presidential : list Tracker1.AircraftInfo) : list Tracker1.AircraftInfo :=
  if RICH_AVAILABLE then Tracker1.display_rich_order presidential else presidential.

(** What [main] of the second variant shows for the matched list: with
    Rich, the panels of [display_government_dictators] and the two tables
    of [display_spy_special_forces] and [display_military]; without Rich,
    one line for each entry. *)
Inductive screen : Type :=
| Groups (panels spy_table military_table : list Tracker2.TrackedAircraft)
| PlainLines (lines : list Tracker2.TrackedAircraft).

(** [display_government_dictators] goes through its group with
    [for ac in govt], without sorting it; the two others hand their group
    to [display_table], which sorts it; the plain branch is
    [for ac in tracked: print(...)]. *)
Definition shown_tracked (RICH_AVAILABLE : bool)
    (tracked : list Tracker2.TrackedAircraft) : screen :=
  if RICH_AVAILABLE then
    Groups (Tracker2Display.govt tracked)
      (Tracker2.display_table_order (Tracker2Display.spy_sf tracked))
      (Tracker2.display_table_order (Tracker2Display.military tracked))
  else PlainLines tracked.

End MainDisplay.

(** * Tracks that differ in the letter case of the identifier *)

Module CaseSpec.

(** The track with its identifier in capitals. *)
Definition upcase_hex (ac : RawTrack) : RawTrack :=
  {| hex := PyStr.upper <$> hex ac; flight := flight ac; r := r ac; t := t ac;
     lat := lat ac; lon := lon ac; alt_baro := alt_baro ac; gs := gs ac;
     track := track ac; baro_rate := baro_rate ac; squawk := squawk ac;
     seen := seen ac |}.

(** The response with every identifier in capitals. *)
Definition upcase_response (api_response : ApiResponse) : ApiResponse :=
  {| ac := match ac api_response with
           | Some tracks => Some (upcase_hex <$> tracks)
           | None => None
           end;
     msg := msg api_response |}.

End CaseSpec.

(** * Successive requests of one client *)

Module Pacing.
Import Client.

(** The values of [last_request_time] after each of a run of calls to
    [_rate_limit], the calls entered at the given clock readings. *)
Fixpoint request_times (self : ADSBOneClient) (readings : list Q) : list Q :=
  match readings with
  | [] => []
  | now :: rest =>
      let self' := snd (_rate_limit self now) in
      last_request_time self' :: request_times self' rest
  end.

End Pacing.

(** * The entries of a database under construction *)

Module DatabaseSpec.
Import Tracker2.

(** [record] was built, under the 6-character key [key], from a row of
    [rows] with that identifier. *)
Definition entry_from (rows : list csv_row) (key : string) (record : AircraftRecord)
  : Prop :=
  String.length key = 6 /\
  exists row, row ∈ rows /\ row_icao row = Some key /\ record = record_of_row key row.

(** Every row has a text under the identifier column (or the header has
    no such column): no row makes the load raise. *)
Definition rows_have_identifier (rows : list csv_row) : Prop :=
  Forall (fun row => is_Some (row_icao row)) rows.

End DatabaseSpec.

(** * Facts about the text operations *)

Example format_2f_50_001 : PyNum.format_2f (50001 # 1000) = "50.00".
Proof. vm_compute. reflexivity. Qed.

Example format_2f_14_999 : PyNum.format_2f (14999 # 1000) = "15.00".
Proof. vm_compute. reflexivity. Qed.

Example format_2f_neg : PyNum.format_2f (- 1 # 1000) = "-0.00".
Proof. vm_compute. reflexivity. Qed.

Example format_2f_tie : PyNum.format_2f (1 # 8) = "0.12".
Proof. vm_compute. reflexivity. Qed.

Example strip_example : PyStr.strip "  AF1 x  " = "AF1 x".
Proof. reflexivity. Qed.

Module PyStrFacts.
Import PyStr.

Lemma lower_upper_ascii (c : ascii) : lower_ascii (upper_ascii c) = lower_ascii c.
Proof. destruct c as [[] [] [] [] [] [] [] []]; vm_compute; reflexivity. Qed.

Lemma lower_lower_ascii (c : ascii) : lower_ascii (lower_ascii c) = lower_ascii c.
Proof. destruct c as [[] [] [] [] [] [] [] []]; vm_compute; reflexivity. Qed.

Lemma lower_upper (s : string) : lower (upper s) = lower s.
Proof.
  induction s as [|c s IH]; simpl; [reflexivity|].
  now rewrite lower_upper_ascii, IH.
Qed.

Lemma lower_lower (s : string) : lower (lower s) = lower s.
Proof.
  induction s as [|c s IH]; simpl; [reflexivity|].
  now rewrite lower_lower_ascii, IH.
Qed.

(** On lowercase text, upper-casing loses nothing. *)
Lemma upper_inj_on_lower (a b : string) :
  lower a = a -> lower b = b -> upper a = upper b -> a = b.
Proof.
  intros Ha Hb Hab.
  rewrite <- Ha, <- Hb, <- (lower_upper a), <- (lower_upper b).
  now rewrite Hab.
Qed.

Lemma length_lower (s : string) : String.length (lower s) = String.length s.
Proof. induction s as [|c s IH]; simpl; congruence. Qed.

End PyStrFacts.

(** * Facts about poc_tracker.py *)

Module Tracker1Facts.
Import Tracker1 Tracker1Spec Demo.

Lemma hex_lower_fixed (ac : RawTrack) : PyStr.lower (hex_lower ac) = hex_lower ac.
Proof. apply PyStrFacts.lower_lower. Qed.

Section Pipeline.
Variable RG_AVAILABLE : bool.
Variable rg_search : nat -> Q -> Q -> Geo.rg_outcome.

Abbreviation parse_aircraft := (parse_aircraft RG_AVAILABLE rg_search).
Abbreviation find_loop := (find_loop RG_AVAILABLE rg_search).
Abbreviation find_presidential_aircraft :=
  (find_presidential_aircraft RG_AVAILABLE rg_search).
Abbreviation emitted := (emitted RG_AVAILABLE rg_search).
Abbreviation found := (found RG_AVAILABLE rg_search).

Lemma find_loop_cons ac rest presidential seen_hex st :
  find_loop (ac :: rest) presidential seen_hex st =
  if decide (hex_lower ac ∈ seen_hex) then find_loop rest presidential seen_hex st
  else match emitted ac st with
       | Some (info, st') =>
           find_loop rest (presidential ++ [info]) ({[hex_lower ac]} ∪ seen_hex) st'
       | None => find_loop rest presidential seen_hex st
       end.
Proof.
  unfold Tracker1Spec.emitted, match_callsign, callsign_upper, hex_lower.
  cbn [Tracker1.find_loop].
  destruct (decide (_ ∈ seen_hex)); [reflexivity|].
  destruct (decide (is_Some _)); [reflexivity|].
  destruct (matched_truthy _); [|reflexivity].
  destruct (parse_aircraft ac PRESIDENTIAL_AIRCRAFT st); reflexivity.
Qed.

Lemma parse_aircraft_hex_code ac known st :
  hex_code (fst (parse_aircraft ac known st)) = PyStr.upper (hex_lower ac).
Proof.
  unfold Tracker1.parse_aircraft, hex_lower.
  destruct (if lat_and_lon _ _ then _ else _); reflexivity.
Qed.

Lemma parse_aircraft_known ac known st rec :
  known !! hex_lower ac = Some rec ->
  country (fst (parse_aircraft ac known st)) = known_country rec /\
  description (fst (parse_aircraft ac known st)) = known_description rec.
Proof.
  unfold Tracker1.parse_aircraft, hex_lower. intros Hk.
  destruct (if lat_and_lon _ _ then _ else _); cbn. now rewrite Hk.
Qed.

Lemma emitted_tracked ac st : is_Some (emitted ac st) <-> tracked ac = true.
Proof.
  unfold Tracker1Spec.emitted, tracked.
  destruct (decide (is_Some (PRESIDENTIAL_AIRCRAFT !! hex_lower ac))) as [Hk|Hk].
  - rewrite bool_decide_eq_true_2 by assumption. cbn. split; eauto.
  - rewrite bool_decide_eq_false_2 by assumption. cbn.
    destruct (matched_truthy _) as [c|].
    + destruct (parse_aircraft ac PRESIDENTIAL_AIRCRAFT st).
      rewrite bool_decide_eq_true_2 by eauto. split; eauto.
    + rewrite bool_decide_eq_false_2 by (intros [? ?]; discriminate).
      split; [intros [? ?]; discriminate | discriminate].
Qed.

Lemma emitted_hex_code ac st info st' :
  emitted ac st = Some (info, st') -> hex_code info = PyStr.upper (hex_lower ac).
Proof.
  unfold Tracker1Spec.emitted. intros H.
  destruct (decide _).
  - injection H as H. rewrite <- (parse_aircraft_hex_code ac PRESIDENTIAL_AIRCRAFT st).
    now rewrite H.
  - destruct (matched_truthy _); [|discriminate].
    pose proof (parse_aircraft_hex_code ac PRESIDENTIAL_AIRCRAFT st) as Hh.
    destruct (parse_aircraft ac PRESIDENTIAL_AIRCRAFT st) as [i0 s0].
    injection H as <- _. exact Hh.
Qed.

Lemma emitted_known ac st info st' rec :
  emitted ac st = Some (info, st') ->
  PRESIDENTIAL_AIRCRAFT !! hex_lower ac = Some rec ->
  country info = known_country rec /\ description info = known_description rec.
Proof.
  unfold Tracker1Spec.emitted. intros H Hk.
  destruct (decide _) as [_|Hn].
  - injection H as H.
    pose proof (parse_aircraft_known ac _ st rec Hk) as Hp.
    now rewrite H in Hp.
  - exfalso. apply Hn. eauto.
Qed.

Lemma find_loop_acc acs : forall presidential seen_hex st,
  find_loop acs presidential seen_hex st =
  ((presidential ++ found acs seen_hex st)%list,
   snd (find_loop acs [] seen_hex st)).
Proof.
  unfold Tracker1Spec.found.
  induction acs as [|ac rest IH]; intros presidential seen_hex st.
  - cbn. now rewrite app_nil_r.
  - rewrite !find_loop_cons.
    destruct (decide (_ ∈ seen_hex)); [apply IH|].
    destruct (emitted ac st) as [[info st']|]; [|apply IH].
    rewrite (IH (presidential ++ [info])%list), (IH ([] ++ [info])%list).
    cbn. now rewrite <- app_assoc.
Qed.

Lemma found_cons ac rest seen_hex st :
  found (ac :: rest) seen_hex st =
  if decide (hex_lower ac ∈ seen_hex) then found rest seen_hex st
  else match emitted ac st with
       | Some (info, st') => info :: found rest ({[hex_lower ac]} ∪ seen_hex) st'
       | None => found rest seen_hex st
       end.
Proof.
  unfold Tracker1Spec.found at 1. rewrite find_loop_cons.
  destruct (decide (_ ∈ seen_hex)); [reflexivity|].
  destruct (emitted ac st) as [[info st']|]; [|reflexivity].
  now rewrite find_loop_acc.
Qed.

(** Every entry of the result was appended for a track of the snapshot
    whose identifier had not been seen. *)
Lemma found_origin acs : forall seen_hex st e,
  e ∈ found acs seen_hex st ->
  exists ac st0 st1,
    ac ∈ acs ∧ (hex_lower ac ∉ seen_hex) ∧ emitted ac st0 = Some (e, st1).
Proof.
  induction acs as [|ac rest IH]; intros seen_hex st e He.
  - cbn in He. now apply elem_of_nil in He.
  - rewrite found_cons in He.
    destruct (decide (hex_lower ac ∈ seen_hex)) as [Hs|Hs].
    + destruct (IH _ _ _ He) as (ac' & st0 & st1 & Hin & Hns & Hem).
      exists ac', st0, st1. split; [now apply elem_of_cons; right|]. now split.
    + destruct (emitted ac st) as [[info st']|] eqn:Hem.
      * apply elem_of_cons in He as [->|He].
        -- exists ac, st, st'. split; [now apply elem_of_cons; left|]. now split.
        -- destruct (IH _ _ _ He) as (ac' & st0 & st1 & Hin & Hns & Hem').
           exists ac', st0, st1. split; [now apply elem_of_cons; right|].
           split; [|assumption]. set_solver.
      * destruct (IH _ _ _ He) as (ac' & st0 & st1 & Hin & Hns & Hem').
        exists ac', st0, st1. split; [now apply elem_of_cons; right|]. now split.
Qed.

Lemma found_NoDup acs : forall seen_hex st,
  NoDup (hex_code <$> found acs seen_hex st).
Proof.
  induction acs as [|ac rest IH]; intros seen_hex st.
  - cbn. constructor.
  - rewrite found_cons.
    destruct (decide (hex_lower ac ∈ seen_hex)); [apply IH|].
    destruct (emitted ac st) as [[info st']|] eqn:Hem; [|apply IH].
    rewrite fmap_cons. apply NoDup_cons. split; [|apply IH].
    intros Hin. apply list_elem_of_fmap in Hin as (e & Heq & He).
    apply found_origin in He as (ac' & st0 & st1 & _ & Hns & Hem').
    apply emitted_hex_code in Hem, Hem'.
    rewrite Hem, Hem' in Heq.
    apply PyStrFacts.upper_inj_on_lower in Heq; try apply hex_lower_fixed.
    set_solver.
Qed.

Lemma found_by_id acs : forall seen_hex st h,
  PyStr.lower h = h ->
  if decide (h ∈ seen_hex) then entries_of h (found acs seen_hex st) = []
  else match first_tracked h acs with
       | Some ac =>
           exists st0 info st1,
             emitted ac st0 = Some (info, st1) /\
             entries_of h (found acs seen_hex st) = [info]
       | None => entries_of h (found acs seen_hex st) = []
       end.
Proof.
  unfold entries_of, first_tracked.
  induction acs as [|ac rest IH]; intros seen_hex st h Hh.
  - cbn. destruct (decide _); reflexivity.
  - rewrite found_cons. cbn [List.find].
    destruct (decide (hex_lower ac ∈ seen_hex)) as [Hs|Hs].
    + specialize (IH seen_hex st h Hh).
      destruct (decide (h ∈ seen_hex)) as [|Hn]; [exact IH|].
      rewrite bool_decide_eq_false_2 by congruence.
      exact IH.
    + destruct (emitted ac st) as [[info st']|] eqn:Hem.
      * assert (Ht : tracked ac = true) by (apply (emitted_tracked ac st); eauto).
        rewrite Ht, andb_true_r. rewrite filter_cons.
        rewrite (emitted_hex_code _ _ _ _ Hem).
        specialize (IH ({[hex_lower ac]} ∪ seen_hex) st' h Hh).
        destruct (decide (hex_lower ac = h)) as [Heq|Hne].
        -- rewrite (decide_True (P := PyStr.upper (hex_lower ac) = PyStr.upper h))
             by congruence.
           rewrite decide_True in IH by set_solver.
           rewrite decide_False by congruence.
           rewrite bool_decide_eq_true_2 by assumption.
           exists st, info, st'. now rewrite IH.
        -- rewrite (decide_False (P := PyStr.upper (hex_lower ac) = PyStr.upper h))
             by (intros Hu; apply Hne;
                 apply PyStrFacts.upper_inj_on_lower;
                 [apply hex_lower_fixed | exact Hh | exact Hu]).
           rewrite bool_decide_eq_false_2 by assumption.
           destruct (decide (h ∈ seen_hex)).
           ++ rewrite decide_True in IH by set_solver. exact IH.
           ++ rewrite decide_False in IH
                by (intros [Hx|Hx]%elem_of_union;
                    [apply elem_of_singleton in Hx; congruence | contradiction]).
              exact IH.
      * assert (Ht : tracked ac = false).
        { destruct (tracked ac) eqn:Ht; [|reflexivity].
          apply (emitted_tracked ac st) in Ht as [? Ht]. congruence. }
        rewrite Ht, andb_false_r. apply IH, Hh.
Qed.

Lemma first_tracked_exists h acs ac :
  ac ∈ acs -> hex_lower ac = h -> tracked ac = true ->
  exists ac', first_tracked h acs = Some ac' ∧ hex_lower ac' = h.
Proof.
  unfold first_tracked. intros Hin Hh Ht.
  destruct (List.find _ acs) as [ac'|] eqn:Hf.
  - exists ac'. split; [reflexivity|].
    apply find_some in Hf as [_ Hf].
    apply andb_true_iff in Hf as [Hf _]. now apply bool_decide_eq_true in Hf.
  - apply list_elem_of_In in Hin.
    pose proof (find_none _ _ Hf _ Hin) as Hc. cbn in Hc.
    rewrite bool_decide_eq_true_2, Ht in Hc by assumption. discriminate.
Qed.

(** C1.  Exact-match precedence.  For every track of the snapshot whose
    lower-cased identifier is a key of [PRESIDENTIAL_AIRCRAFT], the
    result of [find_presidential_aircraft] holds one entry with that
    identifier, and it carries the country and the description of the
    registry record; and every entry of the result whose identifier is
    a registry key carries that record's country and description.  The
    callsign of the track is arbitrary, so this holds whatever the
    pattern table would answer for it. *)
Theorem exact_match_precedence (api_response : ApiResponse)
    (st : Geo.geo_state) (ac : RawTrack) (rec : KnownRecord) :
  ac ∈ get_ac api_response ->
  PRESIDENTIAL_AIRCRAFT !! hex_lower ac = Some rec ->
  let out := fst (find_presidential_aircraft api_response st) in
  (exists info,
     entries_of (hex_lower ac) out = [info] ∧
     country info = known_country rec ∧
     description info = known_description rec) ∧
  (forall info rec',
     info ∈ out ->
     PRESIDENTIAL_AIRCRAFT !! PyStr.lower (hex_code info) = Some rec' ->
     country info = known_country rec' ∧
     description info = known_description rec').
Proof.
  intros Hin Hk out. subst out.
  change (fst (find_presidential_aircraft api_response st))
    with (found (get_ac api_response) ∅ st).
  split.
  - assert (Ht : tracked ac = true).
    { unfold tracked. rewrite bool_decide_eq_true_2 by eauto. reflexivity. }
    destruct (first_tracked_exists _ _ _ Hin eq_refl Ht) as (ac' & Hf & Hh).
    pose proof (found_by_id (get_ac api_response) ∅ st (hex_lower ac)
                  (hex_lower_fixed ac)) as Hid.
    rewrite decide_False, Hf in Hid by set_solver.
    destruct Hid as (st0 & info & st1 & Hem & Hent).
    exists info. split; [exact Hent|].
    apply (emitted_known _ _ _ _ _ Hem). now rewrite Hh.
  - intros info rec' Hi Hk'.
    apply found_origin in Hi as (ac' & st0 & st1 & _ & _ & Hem).
    apply (emitted_known _ _ _ _ _ Hem).
    rewrite (emitted_hex_code _ _ _ _ Hem), PyStrFacts.lower_upper in Hk'.
    now rewrite hex_lower_fixed in Hk'.
Qed.

(** C2, as the code has it.  No two entries of the result share an
    identifier; and for every identifier, the result holds exactly one
    entry with it when some track of the snapshot with that identifier
    is kept by the loop (registry key or matching callsign), built from
    the first such track in source order, and none otherwise.  Tracks
    that are dropped are not recorded as seen, so the entry need not
    come from the first occurrence of the identifier. *)
Theorem deduplication_first_tracked (api_response : ApiResponse)
    (st : Geo.geo_state) (identifier : string) :
  let out := fst (find_presidential_aircraft api_response st) in
  let h := PyStr.lower identifier in
  NoDup (hex_code <$> out) ∧
  match first_tracked h (get_ac api_response) with
  | Some ac =>
      exists st0 info st1,
        emitted ac st0 = Some (info, st1) ∧ entries_of h out = [info]
  | None => entries_of h out = []
  end.
Proof.
  intros out h. subst out h.
  change (fst (find_presidential_aircraft api_response st))
    with (found (get_ac api_response) ∅ st).
  split; [apply found_NoDup|].
  pose proof (found_by_id (get_ac api_response) ∅ st (PyStr.lower identifier)
                (PyStrFacts.lower_lower identifier)) as Hid.
  rewrite decide_False in Hid by set_solver. exact Hid.
Qed.

(** C4.  Graceful degradation.  When the request ends in one of the
    [requests] library's exceptions (a timeout, a status that
    [raise_for_status] rejects, a body that [response.json()] cannot
    decode), [get_military_aircraft] returns, without raising, a
    response with an empty ["ac"] list and the exception's text under
    ["msg"]; and [find_presidential_aircraft] on that response returns
    the empty list and leaves the location cache alone. *)
Theorem source_fault_degrades (c : Client.exn_class) (text : string)
    (st : Geo.geo_state) :
  Client.is_RequestException c = true ->
  Client.get_military_aircraft (Client.Raises c text) =
    Client.Returned {| ac := Some []; msg := Some text |} ∧
  find_presidential_aircraft {| ac := Some []; msg := Some text |} st = ([], st).
Proof.
  intros Hc. unfold Client.get_military_aircraft. rewrite Hc.
  split; reflexivity.
Qed.
End Pipeline.

(** Air Force One flying under a callsign that the pattern table gives to
    Russia is reported as the registry has it. *)
Lemma exact_match_precedence_witness :
  let ac := demo_track "AE001F" "rsd123 " None None in
  let response := {| ac := Some [ac]; msg := None |} in
  match_callsign "rsd123 " = Some "Russia" ∧
  exists info,
    entries_of (hex_lower ac)
      (fst (find_presidential_aircraft true demo_search response Geo.initial))
      = [info] ∧
    country info = "USA" ∧ description info = "Air Force One (VC-25A)".
Proof.
  intros ac response. split; [vm_compute; reflexivity|].
  refine (proj1 (exact_match_precedence true demo_search response Geo.initial ac
                   (mkKnown "USA" "Air Force One (VC-25A)" "82-8000" "VC25") _ _)).
  - constructor.
  - vm_compute. reflexivity.
Defined.

(** C2, as stated, fails: the first occurrence of identifier [abc123] has
    a callsign that matches no pattern and is dropped without being
    recorded as seen; the single entry of the result is built from the
    second occurrence. *)
Lemma dedup_first_occurrence_counterexample :
  let first := demo_track "abc123" "XYZ1" None None in
  let second := demo_track "ABC123" "AF1" None None in
  let response := {| ac := Some [first; second]; msg := None |} in
  let out := fst (find_presidential_aircraft false demo_search response Geo.initial) in
  hex_lower first = hex_lower second ∧
  (forall st, emitted false demo_search first st = None) ∧
  callsign <$> out = ["AF1"] ∧
  ~ (exists info, info ∈ out ∧ callsign info = "XYZ1").
Proof.
  intros first second response out.
  assert (Hout : callsign <$> out = ["AF1"]) by (vm_compute; reflexivity).
  split; [vm_compute; reflexivity|].
  split; [intros st; vm_compute; reflexivity|].
  split; [exact Hout|].
  intros (info & Hin & Hc).
  assert (Hm : callsign info ∈ callsign <$> out)
    by (apply list_elem_of_fmap; eauto).
  rewrite Hout, Hc in Hm. apply list_elem_of_singleton in Hm. discriminate.
Qed.

Lemma source_fault_degrades_witness :
  Client.is_RequestException Client.Timeout = true ∧
  Client.get_military_aircraft (Client.Raises Client.Timeout "Read timed out.") =
    Client.Returned {| ac := Some []; msg := Some "Read timed out." |} ∧
  find_presidential_aircraft true demo_search
    {| ac := Some []; msg := Some "Read timed out." |} Geo.initial
  = ([], Geo.initial).
Proof.
  split; [reflexivity|].
  apply (source_fault_degrades true demo_search Client.Timeout
           "Read timed out." Geo.initial).
  reflexivity.
Defined.

(** The three transport failures are exceptions of the [requests] library. *)
Example transport_failures_caught :
  Client.is_RequestException Client.Timeout = true ∧
  Client.is_RequestException Client.HTTPError = true ∧
  Client.is_RequestException Client.JSONDecodeError = true.
Proof. repeat split. Qed.

(** The pattern scan returns the country of the first item, in the order
    of the dictionary, whose pattern is a prefix of the callsign. *)
Lemma match_patterns_first items callsign :
  match_patterns items callsign =
  snd <$> List.find (fun item => PyStr.startswith callsign (fst item)) items.
Proof.
  induction items as [|[pattern c] rest IH]; cbn; [reflexivity|].
  destruct (PyStr.startswith callsign pattern); [reflexivity|exact IH].
Qed.

(** C3 at callsign [FAF123].  The table lists ["FAF": "France"] before
    ["FAF": "Finland"]; scanning the rules as written gives France, the
    rule listed first.  The dictionary display keeps one item for the
    key, at the first position and with the last value, so the matcher
    answers Finland. *)
Theorem duplicate_prefix_overwritten :
  match_patterns VIP_CALLSIGN_PATTERNS_items (PyStr.upper (PyStr.strip " faf123 "))
    = Some "France" ∧
  match_callsign " faf123 " = Some "Finland" ∧
  ("FAF", "France") ∈ VIP_CALLSIGN_PATTERNS_items ∧
  ("FAF", "France") ∉ VIP_CALLSIGN_PATTERNS.
Proof.
  split; [vm_compute; reflexivity|].
  split; [vm_compute; reflexivity|].
  split.
  - apply list_elem_of_In. vm_compute. tauto.
  - intros Hin. apply list_elem_of_In in Hin. vm_compute in Hin.
    repeat (destruct Hin as [Hin|Hin]; [discriminate Hin|]). exact Hin.
Qed.

End Tracker1Facts.

(** * Facts about the location cache *)

Module GeoFacts.
Import Geo Demo.

Section Lookup.
Variable RG_AVAILABLE : bool.
Variable rg_search : nat -> Q -> Q -> rg_outcome.
Variable country_names : gmap string string.

Abbreviation get_location := (get_location RG_AVAILABLE rg_search country_names).
Abbreviation get_locations := (get_locations RG_AVAILABLE rg_search country_names).

(** A hit: the stored value is returned, nothing changes. *)
Lemma get_location_hit lat lon st location :
  RG_AVAILABLE = true ->
  location_cache st !! cache_key lat lon = Some location ->
  get_location (Some lat) (Some lon) st = (location, st).
Proof.
  intros Hrg Hc. unfold Geo.get_location. rewrite Hrg. cbn. now rewrite Hc.
Qed.

(** Without the geocoder nothing is resolved and nothing changes. *)
Lemma get_location_unavailable lat lon st :
  RG_AVAILABLE = false -> get_location lat lon st = ("", st).
Proof.
  intros Hrg. unfold Geo.get_location. rewrite Hrg.
  destruct lat, lon; reflexivity.
Qed.

(** The cache is only ever extended. *)
Lemma get_location_keeps lat lon st key location :
  location_cache st !! key = Some location ->
  location_cache (snd (get_location lat lon st)) !! key = Some location.
Proof.
  intros Hc. unfold Geo.get_location.
  destruct lat as [lat|], lon as [lon|]; try exact Hc.
  destruct (negb RG_AVAILABLE); [exact Hc|].
  destruct (location_cache st !! cache_key lat lon) eqn:Hk; [exact Hc|].
  destruct (rg_search _ lat lon) as [|[|result results]]; try exact Hc.
  cbn. rewrite lookup_insert_ne; [exact Hc|]. congruence.
Qed.

Lemma get_locations_keeps calls : forall st key location,
  location_cache st !! key = Some location ->
  location_cache (snd (get_locations calls st)) !! key = Some location.
Proof.
  induction calls as [|[lat lon] rest IH]; intros st key location Hc; [exact Hc|].
  cbn [Geo.get_locations].
  pose proof (get_location_keeps lat lon st key location Hc) as H1.
  destruct (get_location lat lon st) as [r1 st1].
  specialize (IH st1 key location H1).
  destruct (get_locations rest st1) as [rs st2]. exact IH.
Qed.

(** One call makes at most one call to the geocoder. *)
Lemma get_location_calls lat lon st :
  length (rg_calls (snd (get_location lat lon st))) <= S (length (rg_calls st)).
Proof.
  unfold Geo.get_location.
  destruct lat as [lat|], lon as [lon|]; cbn; try lia.
  destruct (negb RG_AVAILABLE); cbn; [lia|].
  destruct (location_cache st !! cache_key lat lon); cbn; [lia|].
  destruct (rg_search _ lat lon) as [|[|result results]]; cbn;
    rewrite length_app; cbn; lia.
Qed.

(** The name that [get_location] gives to the first result of the
    geocoder: the entry of [country_names] for its country code, or the
    code itself. *)
Lemma get_location_fresh lat lon st result results :
  RG_AVAILABLE = true ->
  location_cache st !! cache_key lat lon = None ->
  rg_search (length (rg_calls st)) lat lon = RgReturns (result :: results) ->
  let location :=
    default (default "" (rg_cc result)) (country_names !! default "" (rg_cc result)) in
  get_location (Some lat) (Some lon) st
  = (location,
     {| location_cache := <[cache_key lat lon := location]> (location_cache st);
        rg_calls := (rg_calls st ++ [(lat, lon)])%list |}).
Proof.
  intros Hrg Hc Hs. unfold Geo.get_location. rewrite Hrg. cbn. now rewrite Hc, Hs.
Qed.

(** A lookup that raises or returns no result leaves the cache as it was. *)
Lemma get_location_failed lat lon st :
  RG_AVAILABLE = true ->
  location_cache st !! cache_key lat lon = None ->
  rg_search (length (rg_calls st)) lat lon = RgRaises \/
  rg_search (length (rg_calls st)) lat lon = RgReturns [] ->
  get_location (Some lat) (Some lon) st
  = ("", {| location_cache := location_cache st;
            rg_calls := (rg_calls st ++ [(lat, lon)])%list |}).
Proof.
  intros Hrg Hc Hs. unfold Geo.get_location. rewrite Hrg. cbn. rewrite Hc.
  now destruct Hs as [-> | ->].
Qed.

(** C5, as the code has it.  For two consecutive calls whose positions
    have the same cache key: when the key is cached, both return the
    stored value and the geocoder is not called; when it is not and the
    geocoder answers the first call with a result, the result's name is
    returned, stored under the key, and returned again by the second call
    from the cache, with this one call to the geocoder; when the geocoder
    raises or returns no result, the first call returns the empty text and
    stores nothing, and the second call asks the geocoder again, for its
    own position; without the geocoder module both return the empty text
    and nothing changes.  So the two results are identical, with at most
    one call, whenever the first call leaves the key in the cache or the
    module is absent.  Once a key is in the cache, it stays there with the
    same value through any run of calls, and every later call with that
    key returns this value without calling the geocoder. *)
Theorem cache_memoization :
  (forall lat1 lon1 lat2 lon2 st location,
     RG_AVAILABLE = true ->
     cache_key lat1 lon1 = cache_key lat2 lon2 ->
     location_cache st !! cache_key lat1 lon1 = Some location ->
     let first := get_location (Some lat1) (Some lon1) st in
     let second := get_location (Some lat2) (Some lon2) (snd first) in
     first = (location, st) /\ second = (location, st)) /\
  (forall lat1 lon1 lat2 lon2 st result results,
     RG_AVAILABLE = true ->
     cache_key lat1 lon1 = cache_key lat2 lon2 ->
     location_cache st !! cache_key lat1 lon1 = None ->
     rg_search (length (rg_calls st)) lat1 lon1 = RgReturns (result :: results) ->
     let location :=
       default (default "" (rg_cc result))
         (country_names !! default "" (rg_cc result)) in
     let first := get_location (Some lat1) (Some lon1) st in
     let second := get_location (Some lat2) (Some lon2) (snd first) in
     fst first = location /\
     location_cache (snd first)
       = <[cache_key lat1 lon1 := location]> (location_cache st) /\
     rg_calls (snd first) = (rg_calls st ++ [(lat1, lon1)])%list /\
     second = (location, snd first)) /\
  (forall lat1 lon1 lat2 lon2 st,
     RG_AVAILABLE = true ->
     cache_key lat1 lon1 = cache_key lat2 lon2 ->
     location_cache st !! cache_key lat1 lon1 = None ->
     rg_search (length (rg_calls st)) lat1 lon1 = RgRaises \/
     rg_search (length (rg_calls st)) lat1 lon1 = RgReturns [] ->
     let first := get_location (Some lat1) (Some lon1) st in
     let second := get_location (Some lat2) (Some lon2) (snd first) in
     fst first = "" /\
     location_cache (snd first) = location_cache st /\
     rg_calls (snd first) = (rg_calls st ++ [(lat1, lon1)])%list /\
     rg_calls (snd second) = (rg_calls st ++ [(lat1, lon1); (lat2, lon2)])%list /\
     fst second
     = match rg_search (S (length (rg_calls st))) lat2 lon2 with
       | RgReturns (result :: _) =>
           default (default "" (rg_cc result))
             (country_names !! default "" (rg_cc result))
       | _ => ""
       end) /\
  (forall lat1 lon1 lat2 lon2 st,
     RG_AVAILABLE = false ->
     let first := get_location lat1 lon1 st in
     let second := get_location lat2 lon2 (snd first) in
     first = ("", st) /\ second = ("", st)) /\
  (forall lat1 lon1 lat2 lon2 st,
     cache_key lat1 lon1 = cache_key lat2 lon2 ->
     let first := get_location (Some lat1) (Some lon1) st in
     let second := get_location (Some lat2) (Some lon2) (snd first) in
     RG_AVAILABLE = false \/
       is_Some (location_cache (snd first) !! cache_key lat1 lon1) ->
     fst first = fst second /\
     length (rg_calls (snd second)) <= S (length (rg_calls st))) /\
  (forall key location st calls lat lon,
     RG_AVAILABLE = true ->
     location_cache st !! key = Some location ->
     cache_key lat lon = key ->
     let st' := snd (get_locations calls st) in
     location_cache st' !! key = Some location /\
     get_location (Some lat) (Some lon) st' = (location, st')).
Proof.
  split; [|split; [|split; [|split; [|split]]]].
  - intros lat1 lon1 lat2 lon2 st location Hrg Hkey Hc first second.
    subst first second.
    rewrite (get_location_hit lat1 lon1 st location Hrg Hc). cbn [snd].
    rewrite Hkey in Hc. now rewrite (get_location_hit lat2 lon2 st location Hrg Hc).
  - intros lat1 lon1 lat2 lon2 st result results Hrg Hkey Hc Hs location first second.
    subst first second.
    rewrite (get_location_fresh lat1 lon1 st result results Hrg Hc Hs).
    cbn [fst snd location_cache rg_calls]. fold location.
    repeat split.
    apply get_location_hit; [exact Hrg|]. cbn [location_cache].
    rewrite <- Hkey. apply lookup_insert_eq.
  - intros lat1 lon1 lat2 lon2 st Hrg Hkey Hc Hs first second. subst first second.
    rewrite (get_location_failed lat1 lon1 st Hrg Hc Hs).
    cbn [fst snd location_cache rg_calls]. repeat split.
    + unfold Geo.get_location. rewrite Hrg. cbn. rewrite <- Hkey, Hc.
      rewrite length_app. cbn [length]. rewrite Nat.add_1_r.
      destruct (rg_search _ lat2 lon2) as [|[|result results]]; cbn;
        now rewrite <- app_assoc.
    + unfold Geo.get_location. rewrite Hrg. cbn. rewrite <- Hkey, Hc.
      rewrite length_app. cbn [length]. rewrite Nat.add_1_r.
      now destruct (rg_search _ lat2 lon2) as [|[|result results]].
  - intros lat1 lon1 lat2 lon2 st Hrg first second. subst first second.
    rewrite (get_location_unavailable lat1 lon1 st Hrg). cbn [snd].
    now rewrite (get_location_unavailable lat2 lon2 st Hrg).
  - intros lat1 lon1 lat2 lon2 st Hkey first second Hpop.
    subst first second.
    destruct (Bool.bool_dec RG_AVAILABLE true) as [Hrg|Hrg].
    + destruct Hpop as [Hf|[location Hpop]]; [congruence|].
      assert (Hr : fst (get_location (Some lat1) (Some lon1) st) = location).
      { revert Hpop. unfold Geo.get_location. rewrite Hrg. cbn.
        destruct (location_cache st !! cache_key lat1 lon1) eqn:Hk.
        - cbn. congruence.
        - destruct (rg_search _ lat1 lon1) as [|[|result results]]; cbn.
          + congruence.
          + congruence.
          + rewrite lookup_insert_eq. congruence. }
      rewrite Hkey in Hpop.
      rewrite (get_location_hit lat2 lon2 _ location Hrg Hpop). cbn [fst snd].
      split; [exact Hr|]. apply (get_location_calls (Some lat1) (Some lon1) st).
    + apply not_true_is_false in Hrg.
      rewrite !get_location_unavailable by exact Hrg. cbn. split; [reflexivity|lia].
  - intros key location st calls lat lon Hrg Hc Hkey st'. subst st'.
    pose proof (get_locations_keeps calls st key location Hc) as Hk.
    split; [exact Hk|].
    apply get_location_hit; [exact Hrg|]. now rewrite Hkey.
Qed.
End Lookup.

(** C5, as stated, fails: both positions have the key ["50.00,15.00"], the
    first lookup raises and is not cached, the second one calls the
    geocoder again; the results differ and the geocoder was called twice. *)
Lemma cache_idempotence_counterexample :
  let first :=
    Geo.get_location true flaky_search Tracker1.country_names
      (Some (50001 # 1000)%Q) (Some (14999 # 1000)%Q) initial in
  let second :=
    Geo.get_location true flaky_search Tracker1.country_names
      (Some (50004 # 1000)%Q) (Some (15001 # 1000)%Q) (snd first) in
  cache_key (50001 # 1000) (14999 # 1000) = "50.00,15.00" /\
  cache_key (50004 # 1000) (15001 # 1000) = "50.00,15.00" /\
  fst first = "" /\ fst second = "Czechia" /\
  length (rg_calls (snd second)) = 2.
Proof. vm_compute. repeat split. Qed.

(** With a geocoder that answers, the two positions of the example share
    one lookup: the first call stores Czechia under the key and the second
    call returns it from the cache. *)
Lemma cache_memoization_witness :
  let first :=
    Geo.get_location true demo_search Tracker1.country_names
      (Some (50001 # 1000)%Q) (Some (14999 # 1000)%Q) initial in
  let second :=
    Geo.get_location true demo_search Tracker1.country_names
      (Some (50004 # 1000)%Q) (Some (15001 # 1000)%Q) (snd first) in
  cache_key (50001 # 1000) (14999 # 1000) = cache_key (50004 # 1000) (15001 # 1000) /\
  location_cache initial !! cache_key (50001 # 1000) (14999 # 1000) = None /\
  fst first = "Czechia" /\
  location_cache (snd first) !! "50.00,15.00" = Some "Czechia" /\
  rg_calls (snd first) = [((50001 # 1000)%Q, (14999 # 1000)%Q)] /\
  second = ("Czechia", snd first).
Proof.
  intros first second.
  assert (Hkey : cache_key (50001 # 1000) (14999 # 1000)
                 = cache_key (50004 # 1000) (15001 # 1000))
    by (vm_compute; reflexivity).
  assert (Hc : location_cache initial !! cache_key (50001 # 1000) (14999 # 1000) = None)
    by (vm_compute; reflexivity).
  split; [exact Hkey|]. split; [exact Hc|].
  destruct (proj1 (proj2 (cache_memoization true demo_search Tracker1.country_names))
              (50001 # 1000)%Q (14999 # 1000)%Q (50004 # 1000)%Q (15001 # 1000)%Q
              initial (mkRgResult (Some "Prague") (Some "CZ")) [] eq_refl Hkey Hc eq_refl)
    as (H1 & H2 & H3 & H4).
  split; [exact H1|]. split; [|split; [exact H3|exact H4]].
  fold first in H2. rewrite H2. vm_compute. reflexivity.
Defined.

End GeoFacts.

(** * Facts about the overflight country *)

Module EnrichmentFacts.
Import Geo Demo.

Section Pipeline.
Variable RG_AVAILABLE : bool.
Variable rg_search : nat -> Q -> Q -> rg_outcome.

(** When both coordinates are truthy, the resolver is called on them and
    its result is stored. *)
Lemma parse_aircraft_resolves ac known st :
  lat_and_lon (lat ac) (lon ac) = true ->
  Tracker1.over_country (fst (Tracker1.parse_aircraft RG_AVAILABLE rg_search ac known st))
    = fst (Tracker1.get_location RG_AVAILABLE rg_search (lat ac) (lon ac) st) /\
  snd (Tracker1.parse_aircraft RG_AVAILABLE rg_search ac known st)
    = snd (Tracker1.get_location RG_AVAILABLE rg_search (lat ac) (lon ac) st).
Proof.
  intros H. unfold Tracker1.parse_aircraft. rewrite H.
  destruct (Tracker1.get_location _ _ _ _ _); split; reflexivity.
Qed.

(** Otherwise the field is empty and the resolver is not called. *)
Lemma parse_aircraft_skips ac known st :
  lat_and_lon (lat ac) (lon ac) = false ->
  Tracker1.over_country (fst (Tracker1.parse_aircraft RG_AVAILABLE rg_search ac known st))
    = "" /\
  snd (Tracker1.parse_aircraft RG_AVAILABLE rg_search ac known st) = st.
Proof.
  intros H. unfold Tracker1.parse_aircraft. rewrite H. split; reflexivity.
Qed.
End Pipeline.

(** The condition [lat and lon] is false for a position on the equator or
    on the prime meridian, although both coordinates are present. *)
Lemma lat_and_lon_zero (a b : Q) :
  lat_and_lon (Some a) (Some b) = false <-> (a == 0)%Q \/ (b == 0)%Q.
Proof.
  unfold lat_and_lon, PyNum.truthy.
  rewrite andb_false_iff, !negb_false_iff, !Qeq_bool_iff. reflexivity.
Qed.

(** C8 at a track on the equator.  Latitude and longitude are both
    present, and [get_location] resolves the position; but in
    [parse_aircraft] the test [lat and lon] takes latitude 0 for an absent
    one: the resolver is not called and the overflight country is empty.
    [parse_tracked_aircraft] has the same test. *)
Theorem equator_position_not_resolved :
  let parsed :=
    Tracker1.parse_aircraft true gabon_search equator_track
      Tracker1.PRESIDENTIAL_AIRCRAFT initial in
  Tracker1.latitude (fst parsed) = Some 0%Q /\
  Tracker1.longitude (fst parsed) = Some (945 # 100)%Q /\
  Tracker1.over_country (fst parsed) = "" /\
  rg_calls (snd parsed) = [] /\
  fst (Tracker1.get_location true gabon_search (Some 0%Q) (Some (945 # 100)%Q) initial)
    = "GA".
Proof. vm_compute. repeat split. Qed.

End EnrichmentFacts.

(** * Facts about poc_tracker2.py *)

Module Tracker2Facts.
Import Tracker2 Tracker2Spec DatabaseSpec Demo.

Lemma row_accepted_length (icao : string) :
  row_accepted icao = true <-> String.length icao = 6.
Proof.
  unfold row_accepted. rewrite andb_true_iff, Nat.eqb_eq.
  split; [tauto|]. intros H. split; [|exact H]. now destruct icao.
Qed.

Lemma load_rows_cons row rest database :
  load_rows (row :: rest) database = load_row database row ≫= load_rows rest.
Proof. cbn [load_rows]. now destruct (load_row database row). Qed.

Lemma load_rows_app before : forall after database,
  load_rows (before ++ after) database = load_rows before database ≫= load_rows after.
Proof.
  induction before as [|row rest IH]; intros after database; [reflexivity|].
  cbn [app load_rows]. destruct (load_row database row); [apply IH|reflexivity].
Qed.

(** The load goes through exactly when no row lacks its identifier. *)
Lemma load_rows_returns rows : forall database,
  rows_have_identifier rows <-> is_Some (load_rows rows database).
Proof.
  unfold rows_have_identifier.
  induction rows as [|row rest IH]; intros database; cbn [load_rows].
  - split; [eauto|constructor].
  - rewrite Forall_cons. unfold load_row.
    destruct (row_icao row) as [icao|].
    + rewrite (IH (if row_accepted icao
                   then <[icao := record_of_row icao row]> database else database)).
      split; [tauto|]. intros H. split; [eauto|exact H].
    + split; [intros [[? H] _]; discriminate|intros [? H]; discriminate].
Qed.

Lemma load_rows_lookup rows : forall database loaded key,
  load_rows rows database = Some loaded ->
  is_Some (loaded !! key) <->
  is_Some (database !! key) \/
  exists row, row ∈ rows ∧ row_icao row = Some key ∧ String.length key = 6.
Proof.
  induction rows as [|row rest IH]; intros database loaded key; cbn [load_rows].
  - intros [= <-]. split; [tauto|]. intros [H|(row & Hin & _)]; [exact H|].
    now apply elem_of_nil in Hin.
  - unfold load_row. destruct (row_icao row) as [icao|] eqn:Hrow; [|discriminate].
    intros Hload. rewrite (IH _ _ key Hload).
    destruct (row_accepted icao) eqn:Hacc.
    + apply row_accepted_length in Hacc.
      destruct (decide (icao = key)) as [Heq|Hne].
      * split; intros _.
        -- right. exists row. rewrite <- Heq.
           split; [apply elem_of_cons; now left|]. now split.
        -- left. rewrite Heq, lookup_insert_eq. eauto.
      * rewrite lookup_insert_ne by exact Hne.
        split; (intros [H|(row' & Hin & Hk & Hl)]; [now left|right]).
        -- exists row'. split; [apply elem_of_cons; now right|]. now split.
        -- exists row'. apply elem_of_cons in Hin as [->|Hin]; [congruence|].
           now repeat split.
    + split; (intros [H|(row' & Hin & Hk & Hl)]; [now left|right]).
      * exists row'. split; [apply elem_of_cons; now right|]. now split.
      * exists row'. apply elem_of_cons in Hin as [->|Hin].
        -- assert (icao = key) as -> by congruence.
           apply row_accepted_length in Hl. congruence.
        -- now repeat split.
Qed.

(** C6, as the code has it.  For a file in which every row has a value
    under the identifier column, the load returns a database in which an
    identifier is a key if and only if some row's ["$ICAO"] value,
    lower-cased and stripped, is that identifier and has exactly 6
    characters: the length is the only test, the characters need not be
    hexadecimal.  A row whose value has another length is skipped and the
    rows around it are loaded as without it. *)
Theorem catalog_rows_by_length :
  (forall rows,
     rows_have_identifier rows ->
     exists database,
       load_aircraft_database (FileRows rows) = Client.Returned database ∧
       forall key,
         is_Some (database !! key) <->
         exists row, row ∈ rows ∧ row_icao row = Some key ∧ String.length key = 6) ∧
  (forall before row after icao,
     row_icao row = Some icao ->
     String.length icao ≠ 6 ->
     load_aircraft_database (FileRows (before ++ row :: after)) =
     load_aircraft_database (FileRows (before ++ after))).
Proof.
  split.
  - intros rows Hrows.
    destruct (proj1 (load_rows_returns rows ∅) Hrows) as [database Hload].
    exists database. cbn [load_aircraft_database]. rewrite Hload.
    split; [reflexivity|].
    intros key. rewrite (load_rows_lookup _ _ _ key Hload), lookup_empty.
    split; [intros [[? H]|H]; [discriminate|exact H] | now right].
  - intros before row after icao Hrow Hlen. cbn [load_aircraft_database].
    rewrite !load_rows_app. destruct (load_rows before ∅) as [database|]; [|reflexivity].
    cbn [mbind option_bind]. rewrite load_rows_cons. unfold load_row. rewrite Hrow.
    destruct (row_accepted icao) eqn:Hacc; [|reflexivity].
    apply row_accepted_length in Hacc. contradiction.
Qed.

(** C6, as stated, fails: a row whose identifier has six characters that
    are not hexadecimal digits is loaded. *)
Lemma non_hex_row_loaded :
  let row := demo_row " ZZZZZZ " "Nobody" "Joe Cool" in
  row_icao row = Some "zzzzzz" ∧
  PyStr.all_hex "zzzzzz" = false ∧
  exists database,
    load_aircraft_database (FileRows [row]) = Client.Returned database ∧
    rec_operator <$> database !! "zzzzzz" = Some "Nobody".
Proof.
  intros row. split; [vm_compute; reflexivity|].
  split; [vm_compute; reflexivity|].
  eexists. split; [vm_compute; reflexivity|]. vm_compute. reflexivity.
Qed.

Lemma catalog_rows_by_length_witness :
  let short := demo_row "AE01" "Short" "USAF" in
  let good := demo_row "AE001F" "USAF" "Governments" in
  rows_have_identifier [short; good] ∧
  row_icao short = Some "ae01" ∧
  String.length "ae01" ≠ 6 ∧
  load_aircraft_database (FileRows ([] ++ short :: [good])) =
  load_aircraft_database (FileRows ([] ++ [good])) ∧
  exists database,
    load_aircraft_database (FileRows [short; good]) = Client.Returned database ∧
    forall key,
      is_Some (database !! key) <->
      exists row, row ∈ [short; good] ∧ row_icao row = Some key ∧ String.length key = 6.
Proof.
  intros short good.
  assert (Hrows : rows_have_identifier [short; good])
    by (repeat constructor; vm_compute; eauto).
  assert (Hrow : row_icao short = Some "ae01") by (vm_compute; reflexivity).
  assert (Hlen : String.length "ae01" ≠ 6) by (vm_compute; congruence).
  split; [exact Hrows|]. split; [exact Hrow|]. split; [exact Hlen|].
  split.
  - exact (proj2 catalog_rows_by_length [] short [good] "ae01" Hrow Hlen).
  - exact (proj1 catalog_rows_by_length [short; good] Hrows).
Defined.

Section Pipeline.
Variable RG_AVAILABLE : bool.
Variable rg_search : nat -> Q -> Q -> Geo.rg_outcome.

Abbreviation parse_tracked_aircraft :=
  (parse_tracked_aircraft RG_AVAILABLE rg_search).
Abbreviation match_loop := (match_loop RG_AVAILABLE rg_search).
Abbreviation main := (main RG_AVAILABLE rg_search).

Lemma parse_tracked_absent ac db st :
  db !! hex_lower ac = None -> parse_tracked_aircraft ac db st = (None, st).
Proof.
  unfold Tracker2.parse_tracked_aircraft, hex_lower. now intros ->.
Qed.

Lemma parse_tracked_present ac db st aircraft st' :
  parse_tracked_aircraft ac db st = (Some aircraft, st') ->
  is_Some (db !! hex_lower ac) ∧ icao_hex aircraft = PyStr.upper (hex_lower ac).
Proof.
  unfold Tracker2.parse_tracked_aircraft, hex_lower.
  destruct (db !! PyStr.lower (default "" (hex ac))) as [record|]; [|discriminate].
  destruct (if lat_and_lon _ _ then _ else _) as [over st1].
  intros H. injection H as <- _. split; [eauto|reflexivity].
Qed.

Lemma match_loop_origin acs : forall tracked db st aircraft,
  aircraft ∈ fst (match_loop acs tracked db st) ->
  aircraft ∈ tracked ∨
  exists ac, ac ∈ acs ∧ is_Some (db !! hex_lower ac) ∧
             icao_hex aircraft = PyStr.upper (hex_lower ac).
Proof.
  induction acs as [|ac rest IH]; intros tracked db st aircraft Hin.
  - now left.
  - cbn [Tracker2.match_loop] in Hin.
    destruct (parse_tracked_aircraft ac db st) as [[found|] st'] eqn:Hp.
    + apply IH in Hin as [Hin|(ac' & Hin & Hk)].
      * apply elem_of_app in Hin as [Hin|Hin]; [now left|].
        apply list_elem_of_singleton in Hin as ->.
        right. exists ac. split; [apply elem_of_cons; now left|].
        exact (parse_tracked_present _ _ _ _ _ Hp).
      * right. exists ac'. split; [apply elem_of_cons; now right|exact Hk].
    + apply IH in Hin as [Hin|(ac' & Hin & Hk)]; [now left|].
      right. exists ac'. split; [apply elem_of_cons; now right|exact Hk].
Qed.

(** C10.  Matching in the second variant is by identifier only.  A
    track whose lower-cased identifier is not a key of the database is
    parsed to [None], whatever its callsign, and the loop of [main]
    passes over it; and every aircraft in the list that [main] hands to
    the display functions was built from a track of the response whose
    identifier is a key of the loaded database. *)
Theorem registry_only_matching :
  (forall ac db st,
     db !! hex_lower ac = None ->
     parse_tracked_aircraft ac db st = (None, st) ∧
     forall rest tracked,
       match_loop (ac :: rest) tracked db st = match_loop rest tracked db st) ∧
  (forall csv_path response st tracked st',
     main csv_path (Client.Body response) st
       = Client.Returned (Displayed tracked, st') ->
     exists database,
       load_aircraft_database csv_path = Client.Returned database ∧
       forall aircraft,
         aircraft ∈ tracked ->
         is_Some (database !! PyStr.lower (icao_hex aircraft)) ∧
         exists ac,
           ac ∈ get_ac response ∧
           icao_hex aircraft = PyStr.upper (hex_lower ac)).
Proof.
  split.
  - intros ac db st Hk. split; [now apply parse_tracked_absent|].
    intros rest tracked. cbn [Tracker2.match_loop].
    now rewrite parse_tracked_absent.
  - intros csv_path response st tracked st'. unfold Tracker2.main.
    destruct (load_aircraft_database csv_path) as [database|]; [|discriminate].
    destruct (bool_decide (size database = 0)); [discriminate|].
    cbn [Client.get_military_aircraft].
    destruct (match_loop (get_ac response) [] database st) as [out st1] eqn:Hl.
    intros H. injection H as <- <-.
    exists database. split; [reflexivity|].
    intros aircraft Hin.
    assert (Hin' : aircraft ∈ fst (match_loop (get_ac response) [] database st))
      by now rewrite Hl.
    apply match_loop_origin in Hin' as [Hin'|(ac & Hac & Hk & Hx)].
    + now apply elem_of_nil in Hin'.
    + split; [|eauto].
      rewrite Hx, PyStrFacts.lower_upper.
      unfold hex_lower. now rewrite PyStrFacts.lower_lower.
Qed.

(** C7, as the code has it.  When the CSV file is missing, the database
    is empty and [main] stops after its error message: it returns
    before the request to the API and before any matching, and no list
    is produced.  The second variant has no callsign patterns to fall
    back on. *)
Theorem missing_catalog_stops_run (outcome : Client.transport)
    (st : Geo.geo_state) :
  load_aircraft_database FileMissing = Client.Returned ∅ ∧
  main FileMissing outcome st = Client.Returned (CouldNotLoadDatabase, st).
Proof. split; reflexivity. Qed.
End Pipeline.

(** C7, as stated, fails: with the file missing and the API answering
    with Air Force One in the air, [main] produces no list. *)
Lemma missing_catalog_counterexample :
  let response := {| ac := Some [demo_track "ae001f" "AF1" None None]; msg := None |} in
  load_aircraft_database FileMissing = Client.Returned ∅ ∧
  ~ (exists tracked st',
       main true demo_search FileMissing (Client.Body response) Geo.initial
       = Client.Returned (Displayed tracked, st')).
Proof.
  intros response. split; [reflexivity|].
  intros (tracked & st' & H). vm_compute in H. discriminate H.
Qed.

(** A catalog with one aircraft, and a response with that aircraft and a
    stranger flying under a presidential callsign. *)
Lemma registry_only_matching_witness :
  let catalog := FileRows [demo_row "AE001F" "USAF" "Governments"] in
  let response :=
    {| ac := Some [demo_track "abc123" "AF1" None None;
                   demo_track "AE001F" "SAM45" None None];
       msg := None |} in
  exists tracked st',
    main true demo_search catalog (Client.Body response) Geo.initial
      = Client.Returned (Displayed tracked, st') ∧
    icao_hex <$> tracked = ["AE001F"] ∧
    exists database,
      load_aircraft_database catalog = Client.Returned database ∧
      forall aircraft,
        aircraft ∈ tracked ->
        is_Some (database !! PyStr.lower (icao_hex aircraft)) ∧
        exists ac,
          ac ∈ get_ac response ∧ icao_hex aircraft = PyStr.upper (hex_lower ac).
Proof.
  intros catalog response.
  destruct (main true demo_search catalog (Client.Body response) Geo.initial)
    as [[[|tracked] st']|] eqn:Hm; try (vm_compute in Hm; discriminate Hm).
  exists tracked, st'. split; [reflexivity|].
  split.
  - vm_compute in Hm. injection Hm as <- _. reflexivity.
  - exact (proj2 (registry_only_matching true demo_search) _ _ _ _ _ Hm).
Defined.

End Tracker2Facts.

(** * Facts about the stable sort *)

Module PySortFacts.
Import PySort.

#[export] Instance nat_compare_order : CompareOrder Nat.compare.
Proof.
  split.
  - apply Nat.compare_eq_iff.
  - intros a b. apply (Nat.compare_antisym b a).
  - intros a b c. rewrite !Nat.compare_lt_iff. lia.
Qed.

Lemma ascii_compare_lt_trans (a b c : ascii) :
  Ascii.compare a b = Lt -> Ascii.compare b c = Lt -> Ascii.compare a c = Lt.
Proof. unfold Ascii.compare. rewrite !N.compare_lt_iff. lia. Qed.

Lemma ascii_compare_refl (a : ascii) : Ascii.compare a a = Eq.
Proof. unfold Ascii.compare. apply N.compare_refl. Qed.

Lemma string_compare_refl (s : string) : String.compare s s = Eq.
Proof.
  induction s as [|c s IH]; cbn; [reflexivity|].
  now rewrite ascii_compare_refl.
Qed.

Lemma string_compare_lt_trans (a : string) : forall b c,
  String.compare a b = Lt -> String.compare b c = Lt -> String.compare a c = Lt.
Proof.
  induction a as [|x a IH]; intros [|y b] [|z c]; cbn; try congruence.
  destruct (Ascii.compare x y) eqn:Hxy; try discriminate.
  - apply Ascii.compare_eq_iff in Hxy as ->.
    destruct (Ascii.compare y z); try congruence. apply IH.
  - destruct (Ascii.compare y z) eqn:Hyz; try discriminate.
    + apply Ascii.compare_eq_iff in Hyz as <-. now rewrite Hxy.
    + now rewrite (ascii_compare_lt_trans _ _ _ Hxy Hyz).
Qed.

#[export] Instance string_compare_order : CompareOrder String.compare.
Proof.
  split.
  - intros a b. split; [apply String.compare_eq_iff|].
    intros ->. apply string_compare_refl.
  - apply String.compare_antisym.
  - apply string_compare_lt_trans.
Qed.

#[export] Instance tuple_compare_order {A B : Type}
    (cmpA : A -> A -> comparison) (cmpB : B -> B -> comparison)
    `{!CompareOrder cmpA} `{!CompareOrder cmpB} :
  CompareOrder (tuple_compare cmpA cmpB).
Proof.
  split.
  - intros [a1 a2] [b1 b2]. unfold tuple_compare, lex. cbn.
    destruct (cmpA a1 b1) eqn:H1.
    + apply cmp_eq in H1 as ->. rewrite cmp_eq. split; congruence.
    + split; [discriminate|]. intros [= -> ->].
      rewrite (proj2 (cmp_eq b1 b1) eq_refl) in H1. discriminate.
    + split; [discriminate|]. intros [= -> ->].
      rewrite (proj2 (cmp_eq b1 b1) eq_refl) in H1. discriminate.
  - intros [a1 a2] [b1 b2]. unfold tuple_compare, lex. cbn.
    rewrite (cmp_antisym (cmp := cmpA) a1 b1), (cmp_antisym (cmp := cmpB) a2 b2).
    destruct (cmpA b1 a1); reflexivity.
  - intros [a1 a2] [b1 b2] [c1 c2]. unfold tuple_compare, lex. cbn.
    destruct (cmpA a1 b1) eqn:H1; try discriminate.
    + apply cmp_eq in H1 as ->.
      destruct (cmpA b1 c1); try congruence. apply cmp_lt_trans.
    + destruct (cmpA b1 c1) eqn:H2; try discriminate.
      * apply cmp_eq in H2 as <-. now rewrite H1.
      * now rewrite (cmp_lt_trans _ _ _ H1 H2).
Qed.

Section Order.
Context {K : Type} (cmp : K -> K -> comparison) `{!CompareOrder cmp}.

Lemma leb_refl a : leb cmp a a = true.
Proof. unfold leb. now rewrite (proj2 (cmp_eq a a) eq_refl). Qed.

Lemma leb_total a b : leb cmp a b = false -> leb cmp b a = true.
Proof.
  unfold leb. rewrite (cmp_antisym b a). now destruct (cmp a b).
Qed.

Lemma leb_trans a b c :
  leb cmp a b = true -> leb cmp b c = true -> leb cmp a c = true.
Proof.
  unfold leb. intros Hab Hbc.
  destruct (cmp a b) eqn:H1; try discriminate.
  - apply cmp_eq in H1 as ->. exact Hbc.
  - destruct (cmp b c) eqn:H2; try discriminate.
    + apply cmp_eq in H2 as <-. now rewrite H1.
    + now rewrite (cmp_lt_trans _ _ _ H1 H2).
Qed.
End Order.

Section Sort.
Context {A K : Type} `{EqDecision K}.
Context (cmp : K -> K -> comparison) `{!CompareOrder cmp}.
Variable key : A -> K.

Abbreviation insert := (PySort.insert (leb cmp) key).
Abbreviation sort := (PySort.sort (leb cmp) key).
Abbreviation key_le := (PySort.key_le cmp key).

Lemma insert_perm x l : Permutation (insert x l) (x :: l).
Proof.
  induction l as [|y l IH]; cbn; [reflexivity|].
  destruct (leb cmp (key x) (key y)); [reflexivity|].
  rewrite IH. apply perm_swap.
Qed.

Lemma sort_perm l : Permutation (sort l) l.
Proof.
  induction l as [|x l IH]; cbn; [reflexivity|].
  rewrite insert_perm. now apply perm_skip.
Qed.

Lemma insert_sorted x l :
  StronglySorted key_le l -> StronglySorted key_le (insert x l).
Proof.
  induction 1 as [|y l Hs IH Hy]; cbn.
  - constructor; constructor.
  - destruct (leb cmp (key x) (key y)) eqn:Hxy.
    + constructor; [now constructor|].
      constructor; [exact Hxy|].
      eapply Forall_impl; [exact Hy|].
      intros z Hz. exact (leb_trans cmp _ _ _ Hxy Hz).
    + constructor; [exact IH|].
      rewrite insert_perm. constructor; [|exact Hy].
      now apply leb_total.
Qed.

Lemma sort_sorted l : StronglySorted key_le (sort l).
Proof.
  induction l as [|x l IH]; cbn; [constructor|]. now apply insert_sorted.
Qed.

Lemma insert_same_key x l k :
  filter (fun a => key a = k) (insert x l) = filter (fun a => key a = k) (x :: l).
Proof.
  induction l as [|y l IH]; cbn [PySort.insert]; [reflexivity|].
  destruct (leb cmp (key x) (key y)) eqn:Hxy; [reflexivity|].
  rewrite (filter_cons _ y), IH, !(filter_cons _ x), (filter_cons _ y).
  destruct (decide (key x = k)) as [Hx|Hx], (decide (key y = k)) as [Hy|Hy];
    try reflexivity.
  rewrite Hx, Hy, leb_refl in Hxy by assumption. discriminate.
Qed.

(** The elements with a given key come out in the order they went in. *)
Lemma sort_stable l k :
  filter (fun a => key a = k) (sort l) = filter (fun a => key a = k) l.
Proof.
  induction l as [|x l IH]; cbn [PySort.sort]; [reflexivity|].
  now rewrite insert_same_key, !filter_cons, IH.
Qed.

Lemma sorted_lookup l : StronglySorted key_le l ->
  forall i j a b, i < j -> l !! i = Some a -> l !! j = Some b -> key_le a b.
Proof.
  induction 1 as [|y l Hs IH Hy]; intros i j a b Hij Ha Hb.
  - discriminate.
  - destruct j as [|j]; [lia|]. cbn in Hb.
    destruct i as [|i]; cbn in Ha.
    + injection Ha as <-. rewrite Forall_forall in Hy.
      apply Hy. eapply list_elem_of_lookup_2. exact Hb.
    + apply (IH i j); [lia|assumption|assumption].
Qed.
End Sort.

End PySortFacts.

(** * Facts about the display order *)

Module DisplayFacts.
Import PySortFacts DisplayOrder Demo.

Lemma string_ltb_leb (s1 s2 : string) (c : comparison) :
  PySort.not_gt (PySort.lex (String.compare s1 s2) c) = true <->
  String.ltb s1 s2 = true ∨ (s1 = s2 ∧ PySort.not_gt c = true).
Proof.
  unfold String.ltb, PySort.lex.
  destruct (String.compare s1 s2) eqn:H.
  - apply String.compare_eq_iff in H as ->. split; [now right|].
    intros [?|[_ ?]]; [discriminate|assumption].
  - split; [now left|reflexivity].
  - split; [discriminate|]. intros [?|[-> _]]; [discriminate|].
    rewrite string_compare_refl in H. discriminate.
Qed.

Lemma string_leb_not_gt (s1 s2 : string) :
  PySort.not_gt (String.compare s1 s2) = String.leb s1 s2.
Proof. unfold String.leb. now destruct (String.compare s1 s2). Qed.

Lemma key_leb_rich_order a b :
  Tracker1.key_leb (Tracker1.sort_key a) (Tracker1.sort_key b) = true <->
  rich_order a b.
Proof.
  unfold Tracker1.key_leb, Tracker1.key_compare, PySort.tuple_compare, rich_order.
  unfold Tracker1.sort_key. cbn [fst snd]. fold (tier a) (tier b).
  destruct (Nat.compare (tier a) (tier b)) eqn:Ht.
  - apply Nat.compare_eq_iff in Ht. cbn [PySort.lex].
    rewrite string_ltb_leb, string_leb_not_gt. split.
    + intros H. right. now split.
    + intros [H|[_ H]]; [lia|exact H].
  - apply Nat.compare_lt_iff in Ht. cbn. split; [now left|reflexivity].
  - apply Nat.compare_gt_iff in Ht. cbn. split; [discriminate|].
    intros [H|[H _]]; lia.
Qed.

Lemma key_leb_table_order a b :
  Tracker2.key_leb (Tracker2.sort_key a) (Tracker2.sort_key b) = true <->
  table_order a b.
Proof.
  unfold Tracker2.key_leb, Tracker2.key_compare, PySort.tuple_compare, table_order.
  unfold Tracker2.sort_key. cbn [fst snd].
  now rewrite string_ltb_leb, string_leb_not_gt.
Qed.

Lemma display_rich_order_sort l :
  Tracker1.display_rich_order l
  = PySort.sort (PySort.leb Tracker1.key_compare) Tracker1.sort_key l.
Proof. now destruct l. Qed.

Lemma display_table_order_sort l :
  Tracker2.display_table_order l
  = PySort.sort (PySort.leb Tracker2.key_compare) Tracker2.sort_key l.
Proof. now destruct l. Qed.

(** The list as [display_rich] orders it holds the same entries, and of
    two entries the earlier one is in a tier not after the later one's (so
    the entries of priority countries come before all others), then has a
    country not after it in the order of the texts, then a description not
    after it; the entries that agree on tier, country and description
    stand in their original relative order. *)
Lemma display_rich_sorted_stable (aircraft_list : list Tracker1.AircraftInfo) :
  let rows := Tracker1.display_rich_order aircraft_list in
  Permutation rows aircraft_list ∧
  (forall i j a b,
     i < j -> rows !! i = Some a -> rows !! j = Some b ->
     rich_order a b ∧
     (Tracker1.country b ∈ Tracker1.PRIORITY_COUNTRIES ->
      Tracker1.country a ∈ Tracker1.PRIORITY_COUNTRIES)) ∧
  (forall k,
     filter (fun a => Tracker1.sort_key a = k) rows
     = filter (fun a => Tracker1.sort_key a = k) aircraft_list).
Proof.
  intros rows. subst rows. rewrite display_rich_order_sort.
  split; [apply sort_perm; apply _|].
  split; [|intros k; apply sort_stable; apply _].
  intros i j a b Hij Ha Hb.
  assert (Hle : rich_order a b).
  { apply key_leb_rich_order.
    exact (sorted_lookup Tracker1.key_compare Tracker1.sort_key _
             (sort_sorted Tracker1.key_compare Tracker1.sort_key aircraft_list)
             i j a b Hij Ha Hb). }
  split; [exact Hle|].
  intros Hb'. unfold rich_order, tier in Hle.
  destruct (decide (Tracker1.country a ∈ _)) as [Hin|Hout]; [exact Hin|].
  rewrite decide_True in Hle by exact Hb'.
  destruct Hle as [Hle|[Hle _]]; [lia|discriminate].
Qed.

(** The sort of [display_table] does the same on category and operator. *)
Lemma display_table_sorted_stable (aircraft_list : list Tracker2.TrackedAircraft) :
  let rows := Tracker2.display_table_order aircraft_list in
  Permutation rows aircraft_list ∧
  (forall i j a b,
     i < j -> rows !! i = Some a -> rows !! j = Some b -> table_order a b) ∧
  (forall k,
     filter (fun a => Tracker2.sort_key a = k) rows
     = filter (fun a => Tracker2.sort_key a = k) aircraft_list).
Proof.
  intros rows. subst rows. rewrite display_table_order_sort.
  split; [apply sort_perm; apply _|].
  split; [|intros k; apply sort_stable; apply _].
  intros i j a b Hij Ha Hb.
  apply key_leb_table_order.
  exact (sorted_lookup Tracker2.key_compare Tracker2.sort_key _
           (sort_sorted Tracker2.key_compare Tracker2.sort_key aircraft_list)
           i j a b Hij Ha Hb).
Qed.

End DisplayFacts.

(** * More facts about the text operations *)

Module TextFacts.
Import PyStr.

Lemma is_space_lower (c : ascii) : is_space (lower_ascii c) = is_space c.
Proof. destruct c as [[] [] [] [] [] [] [] []]; vm_compute; reflexivity. Qed.

Lemma is_space_upper (c : ascii) : is_space (upper_ascii c) = is_space c.
Proof. destruct c as [[] [] [] [] [] [] [] []]; vm_compute; reflexivity. Qed.

Lemma upper_lower_ascii (c : ascii) : upper_ascii (lower_ascii c) = upper_ascii c.
Proof. destruct c as [[] [] [] [] [] [] [] []]; vm_compute; reflexivity. Qed.

Lemma upper_upper_ascii (c : ascii) : upper_ascii (upper_ascii c) = upper_ascii c.
Proof. destruct c as [[] [] [] [] [] [] [] []]; vm_compute; reflexivity. Qed.

Lemma upper_lower (s : string) : upper (lower s) = upper s.
Proof.
  induction s as [|c s IH]; cbn; [reflexivity|].
  now rewrite upper_lower_ascii, IH.
Qed.

Lemma upper_upper (s : string) : upper (upper s) = upper s.
Proof.
  induction s as [|c s IH]; cbn; [reflexivity|].
  now rewrite upper_upper_ascii, IH.
Qed.

(** Stripping and changing the letter case commute. *)
Lemma lstrip_upper (s : string) : lstrip (upper s) = upper (lstrip s).
Proof.
  induction s as [|c s IH]; cbn; [reflexivity|].
  rewrite is_space_upper. now destruct (is_space c).
Qed.

Lemma rstrip_upper (s : string) : rstrip (upper s) = upper (rstrip s).
Proof.
  induction s as [|c s IH]; cbn; [reflexivity|].
  rewrite IH, is_space_upper.
  destruct (rstrip s); cbn; [now destruct (is_space c)|reflexivity].
Qed.

Lemma strip_upper (s : string) : strip (upper s) = upper (strip s).
Proof. unfold strip. now rewrite lstrip_upper, rstrip_upper. Qed.

Lemma lstrip_lower (s : string) : lstrip (lower s) = lower (lstrip s).
Proof.
  induction s as [|c s IH]; cbn; [reflexivity|].
  rewrite is_space_lower. now destruct (is_space c).
Qed.

Lemma rstrip_lower (s : string) : rstrip (lower s) = lower (rstrip s).
Proof.
  induction s as [|c s IH]; cbn; [reflexivity|].
  rewrite IH, is_space_lower.
  destruct (rstrip s); cbn; [now destruct (is_space c)|reflexivity].
Qed.

Lemma strip_lower (s : string) : strip (lower s) = lower (strip s).
Proof. unfold strip. now rewrite lstrip_lower, rstrip_lower. Qed.

(** What is left of [lstrip] does not start with white space. *)
Lemma lstrip_head (s : string) :
  lstrip s = "" \/ exists c r, lstrip s = String c r /\ is_space c = false.
Proof.
  induction s as [|c s IH]; cbn; [now left|].
  destruct (is_space c) eqn:Hc; [exact IH|]. right. eauto.
Qed.

Lemma rstrip_keeps_head (c : ascii) (r : string) :
  is_space c = false -> exists r', rstrip (String c r) = String c r'.
Proof.
  intros Hc. cbn. rewrite Hc. destruct (rstrip r); eauto.
Qed.

Lemma rstrip_idem (s : string) : rstrip (rstrip s) = rstrip s.
Proof.
  induction s as [|c s IH]; cbn; [reflexivity|].
  destruct (rstrip s) as [|c' r'] eqn:Hr.
  - destruct (is_space c) eqn:Hc; cbn; [reflexivity|]. now rewrite Hc.
  - cbn [rstrip]. fold rstrip. cbn [rstrip] in IH. now rewrite IH.
Qed.

Lemma lstrip_rstrip_lstrip (s : string) : lstrip (rstrip (lstrip s)) = rstrip (lstrip s).
Proof.
  destruct (lstrip_head s) as [->|(c & r & -> & Hc)]; [reflexivity|].
  destruct (rstrip_keeps_head c r Hc) as [r' ->]. cbn. now rewrite Hc.
Qed.

(** Stripping twice is stripping once. *)
Lemma strip_idem (s : string) : strip (strip s) = strip s.
Proof. unfold strip. now rewrite lstrip_rstrip_lstrip, rstrip_idem. Qed.

Lemma length_take (n : nat) (s : string) : String.length (take n s) <= n.
Proof.
  unfold take. revert s.
  induction n as [|n IH]; intros [|c s]; cbn; try lia.
  specialize (IH s). lia.
Qed.

Lemma take_all (n : nat) (s : string) : String.length s <= n -> take n s = s.
Proof.
  unfold take. revert s.
  induction n as [|n IH]; intros [|c s]; cbn; try reflexivity; try lia.
  intros H. f_equal. apply IH. lia.
Qed.

Lemma take_truthy (n : nat) (s : string) :
  truthy s = true -> truthy (take (S n) s) = true.
Proof. now destruct s. Qed.

Lemma startswith_blank (p : string) : truthy p = true -> startswith "" p = false.
Proof. now destruct p. Qed.

Lemma startswith_trans (p q s : string) :
  startswith q p = true -> startswith s q = true -> startswith s p = true.
Proof.
  unfold startswith. revert p q.
  induction s as [|c s IH]; intros [|a p] [|b q]; cbn; try congruence.
  destruct (ascii_dec a b) as [->|]; [|discriminate].
  destruct (ascii_dec b c) as [->|]; [|discriminate].
  destruct (ascii_dec c c); [|congruence]. apply IH.
Qed.

End TextFacts.

(** * More facts about poc_tracker.py: parsing and the callsign matcher *)

Module ParseFacts.
Import Tracker1Spec Demo.

(** [ac_data.get("flight", "").strip() or "N/A"] *)
Lemma callsign_text_normal (raw : string) :
  let shown := PyStr.or_else (PyStr.strip raw) "N/A" in
  shown <> "" /\ PyStr.strip shown = shown.
Proof.
  unfold PyStr.or_else. destruct (PyStr.strip raw) as [|c r] eqn:Hs; cbn [PyStr.truthy].
  - split; [discriminate|reflexivity].
  - split; [discriminate|]. rewrite <- Hs. apply TextFacts.strip_idem.
Qed.

Lemma callsign_text_kept (raw : string) :
  PyStr.strip raw <> "" -> PyStr.or_else (PyStr.strip raw) "N/A" = PyStr.strip raw.
Proof.
  unfold PyStr.or_else. now destruct (PyStr.strip raw).
Qed.

Section Pipeline.
Variable RG_AVAILABLE : bool.
Variable rg_search : nat -> Q -> Q -> Geo.rg_outcome.

(** X1.  The callsign of a parsed aircraft, in both variants, is the
    ["flight"] value of the track with the white space at its ends
    removed, or ["N/A"] when that is blank or absent; so it is never empty
    and has no white space at either end. *)
Theorem parsed_callsign_normal (ac : RawTrack) (st : Geo.geo_state) :
  (forall known,
     let info := fst (Tracker1.parse_aircraft RG_AVAILABLE rg_search ac known st) in
     Tracker1.callsign info <> "" /\
     PyStr.strip (Tracker1.callsign info) = Tracker1.callsign info /\
     (PyStr.strip (default "" (flight ac)) = "" -> Tracker1.callsign info = "N/A") /\
     (PyStr.strip (default "" (flight ac)) <> "" ->
      Tracker1.callsign info = PyStr.strip (default "" (flight ac)))) /\
  (forall db aircraft st',
     Tracker2.parse_tracked_aircraft RG_AVAILABLE rg_search ac db st
       = (Some aircraft, st') ->
     Tracker2.callsign aircraft <> "" /\
     PyStr.strip (Tracker2.callsign aircraft) = Tracker2.callsign aircraft /\
     (PyStr.strip (default "" (flight ac)) = "" -> Tracker2.callsign aircraft = "N/A") /\
     (PyStr.strip (default "" (flight ac)) <> "" ->
      Tracker2.callsign aircraft = PyStr.strip (default "" (flight ac)))).
Proof.
  split.
  - intros known info. subst info. unfold Tracker1.parse_aircraft.
    destruct (if lat_and_lon _ _ then _ else _) as [over st1]. cbn [fst Tracker1.callsign].
    destruct (callsign_text_normal (default "" (flight ac))) as [H1 H2].
    split; [exact H1|]. split; [exact H2|]. split; [now intros ->|].
    apply callsign_text_kept.
  - intros db aircraft st'. unfold Tracker2.parse_tracked_aircraft.
    destruct (db !! _) as [record|]; [|discriminate].
    destruct (if lat_and_lon _ _ then _ else _) as [over st1].
    intros H. injection H as <- _. cbn [Tracker2.callsign].
    destruct (callsign_text_normal (default "" (flight ac))) as [H1 H2].
    split; [exact H1|]. split; [exact H2|]. split; [now intros ->|].
    apply callsign_text_kept.
Qed.

(** X2.  Ground state.  In both variants a parsed aircraft is on the
    ground exactly when ["alt_baro"] is the text ["ground"], and then its
    altitude is 0; a numeric ["alt_baro"] is carried as the altitude of an
    aircraft that is not on the ground, an absent one stays absent. *)
Theorem ground_state_altitude (ac : RawTrack) (st : Geo.geo_state) :
  (forall known,
     let info := fst (Tracker1.parse_aircraft RG_AVAILABLE rg_search ac known st) in
     (Tracker1.on_ground info = true <-> alt_baro ac = Some AltGround) /\
     (Tracker1.on_ground info = true -> Tracker1.altitude info = Some 0%Q) /\
     (forall feet, alt_baro ac = Some (AltFeet feet) ->
        Tracker1.on_ground info = false /\ Tracker1.altitude info = Some feet) /\
     (alt_baro ac = None ->
        Tracker1.on_ground info = false /\ Tracker1.altitude info = None)) /\
  (forall db aircraft st',
     Tracker2.parse_tracked_aircraft RG_AVAILABLE rg_search ac db st
       = (Some aircraft, st') ->
     (Tracker2.on_ground aircraft = true <-> alt_baro ac = Some AltGround) /\
     (Tracker2.on_ground aircraft = true -> Tracker2.altitude aircraft = Some 0%Q) /\
     (forall feet, alt_baro ac = Some (AltFeet feet) ->
        Tracker2.on_ground aircraft = false /\ Tracker2.altitude aircraft = Some feet) /\
     (alt_baro ac = None ->
        Tracker2.on_ground aircraft = false /\ Tracker2.altitude aircraft = None)).
Proof.
  split.
  - intros known info. subst info. unfold Tracker1.parse_aircraft.
    destruct (if lat_and_lon _ _ then _ else _) as [over st1].
    cbn [fst Tracker1.on_ground Tracker1.altitude].
    unfold on_ground_of, altitude_of.
    destruct (alt_baro ac) as [[feet|]|]; repeat split; try congruence; try discriminate.
    all: intros; congruence.
  - intros db aircraft st'. unfold Tracker2.parse_tracked_aircraft.
    destruct (db !! _) as [record|]; [|discriminate].
    destruct (if lat_and_lon _ _ then _ else _) as [over st1].
    intros H. injection H as <- _.
    cbn [Tracker2.on_ground Tracker2.altitude].
    unfold on_ground_of, altitude_of.
    destruct (alt_baro ac) as [[feet|]|]; repeat split; try congruence; try discriminate.
    all: intros; congruence.
Qed.
End Pipeline.

(** A callsign with white space around it is kept without it, in both
    variants; a blank one is shown as ["N/A"]. *)
Lemma parsed_callsign_normal_witness :
  let ac := demo_track "ae001f" "  sam123 " None None in
  let blank := demo_track "ae001f" "   " None None in
  let db : gmap string Tracker2.AircraftRecord :=
    default ∅ (Tracker2.load_rows [demo_row "AE001F" "USAF" "Governments"] ∅) in
  let info :=
    fst (Tracker1.parse_aircraft true demo_search ac Tracker1.PRESIDENTIAL_AIRCRAFT
           Geo.initial) in
  let blank_info :=
    fst (Tracker1.parse_aircraft true demo_search blank Tracker1.PRESIDENTIAL_AIRCRAFT
           Geo.initial) in
  PyStr.strip (default "" (flight ac)) <> "" /\
  Tracker1.callsign info = "sam123" /\
  (exists aircraft st',
     Tracker2.parse_tracked_aircraft true demo_search ac db Geo.initial
       = (Some aircraft, st') /\
     Tracker2.callsign aircraft = "sam123") /\
  PyStr.strip (default "" (flight blank)) = "" /\
  Tracker1.callsign blank_info = "N/A".
Proof.
  intros ac blank db info blank_info.
  assert (H : PyStr.strip (default "" (flight ac)) <> "") by (vm_compute; discriminate).
  assert (Hb : PyStr.strip (default "" (flight blank)) = "") by reflexivity.
  split; [exact H|]. split; [|split; [|split; [exact Hb|]]].
  - exact (proj2 (proj2 (proj2 (proj1 (parsed_callsign_normal true demo_search ac
                                          Geo.initial)
                                  Tracker1.PRESIDENTIAL_AIRCRAFT))) H).
  - destruct (Tracker2.parse_tracked_aircraft true demo_search ac db Geo.initial)
      as [[aircraft|] st'] eqn:Hp; [|vm_compute in Hp; discriminate Hp].
    exists aircraft, st'. split; [reflexivity|].
    exact (proj2 (proj2 (proj2 (proj2 (parsed_callsign_normal true demo_search ac
                                          Geo.initial)
                                  db aircraft st' Hp))) H).
  - exact (proj1 (proj2 (proj2 (proj1 (parsed_callsign_normal true demo_search blank
                                          Geo.initial)
                                  Tracker1.PRESIDENTIAL_AIRCRAFT))) Hb).
Defined.

Lemma ground_state_altitude_witness :
  let ac :=
    mkRawTrack (Some "ae001f") (Some "SAM1") None None None None (Some AltGround)
      None None None None None in
  let info :=
    fst (Tracker1.parse_aircraft true demo_search ac Tracker1.PRESIDENTIAL_AIRCRAFT
           Geo.initial) in
  Tracker1.on_ground info = true /\ Tracker1.altitude info = Some 0%Q.
Proof.
  intros ac info.
  pose proof (proj1 (ground_state_altitude true demo_search ac Geo.initial)
                Tracker1.PRESIDENTIAL_AIRCRAFT) as (Hg & Hz & _).
  assert (H : Tracker1.on_ground info = true) by (apply Hg; reflexivity).
  split; [exact H|exact (Hz H)].
Defined.

(** X3.  The country matched for a callsign does not depend on its letter
    case nor on white space around it. *)
Theorem match_callsign_normalises (raw : string) :
  match_callsign (PyStr.strip raw) = match_callsign raw /\
  match_callsign (PyStr.upper raw) = match_callsign raw /\
  match_callsign (PyStr.lower raw) = match_callsign raw.
Proof.
  unfold match_callsign. repeat split.
  - now rewrite TextFacts.strip_idem.
  - now rewrite TextFacts.strip_upper, TextFacts.upper_upper.
  - now rewrite TextFacts.strip_lower, TextFacts.upper_lower.
Qed.

Lemma match_patterns_blank items :
  Forall (fun item => PyStr.truthy (fst item) = true) items ->
  Tracker1.match_patterns items "" = None.
Proof.
  induction 1 as [|[p c] rest Hp _ IH]; cbn [Tracker1.match_patterns]; [reflexivity|].
  cbn in Hp. now rewrite (TextFacts.startswith_blank p Hp).
Qed.

Lemma patterns_truthy :
  Forall (fun item => PyStr.truthy (fst item) = true) Tracker1.VIP_CALLSIGN_PATTERNS.
Proof. apply Forall_forall. intros item Hin. apply list_elem_of_In in Hin.
  vm_compute in Hin.
  repeat (destruct Hin as [<-|Hin]; [reflexivity|]). destruct Hin.
Qed.

Section Blank.
Variable RG_AVAILABLE : bool.
Variable rg_search : nat -> Q -> Q -> Geo.rg_outcome.

(** X4.  A track with a blank or absent callsign whose identifier is not
    in the registry is never reported: no pattern matches the empty
    callsign, and the loop passes over the track without recording its
    identifier. *)
Theorem blank_callsign_dropped (ac : RawTrack) (rest : list RawTrack)
    (seen_hex : gset string) (st : Geo.geo_state) :
  PyStr.strip (default "" (flight ac)) = "" ->
  Tracker1.PRESIDENTIAL_AIRCRAFT !! hex_lower ac = None ->
  match_callsign (default "" (flight ac)) = None /\
  Tracker1.find_loop RG_AVAILABLE rg_search (ac :: rest) [] seen_hex st
  = Tracker1.find_loop RG_AVAILABLE rg_search rest [] seen_hex st.
Proof.
  intros Hb Hk.
  assert (Hm : match_callsign (default "" (flight ac)) = None).
  { unfold match_callsign. rewrite Hb. cbn [PyStr.upper].
    apply match_patterns_blank, patterns_truthy. }
  split; [exact Hm|].
  rewrite Tracker1Facts.find_loop_cons.
  destruct (decide (hex_lower ac ∈ seen_hex)); [reflexivity|].
  unfold emitted. rewrite decide_False by (rewrite Hk; intros [? ?]; discriminate).
  now rewrite Hm.
Qed.
End Blank.

Lemma blank_callsign_dropped_witness :
  let ac := demo_track "abc123" "  " None None in
  let next := demo_track "abc123" "AF1" None None in
  PyStr.strip (default "" (flight ac)) = "" /\
  Tracker1.PRESIDENTIAL_AIRCRAFT !! hex_lower ac = None /\
  Tracker1.find_loop true demo_search [ac; next] [] ∅ Geo.initial
  = Tracker1.find_loop true demo_search [next] [] ∅ Geo.initial.
Proof.
  intros ac next.
  assert (H1 : PyStr.strip (default "" (flight ac)) = "") by reflexivity.
  assert (H2 : Tracker1.PRESIDENTIAL_AIRCRAFT !! hex_lower ac = None)
    by (vm_compute; reflexivity).
  split; [exact H1|]. split; [exact H2|].
  exact (proj2 (blank_callsign_dropped true demo_search ac [next] ∅ Geo.initial H1 H2)).
Defined.

(** X5.  A pattern listed after one of its own prefixes never decides a
    match: every callsign it would match is matched earlier, so removing
    it leaves the scan unchanged.  In the table this is the case of
    [GAFTT] after [GAF], [UKRAINA] after [UKR] and [FINNAF] after [FIN]. *)
Theorem shadowed_pattern_is_dead (before between after : list (string * string))
    (p1 c1 p2 c2 callsign : string) :
  PyStr.startswith p2 p1 = true ->
  Tracker1.match_patterns (before ++ (p1, c1) :: between ++ (p2, c2) :: after) callsign
  = Tracker1.match_patterns (before ++ (p1, c1) :: between ++ after) callsign.
Proof.
  intros Hp.
  induction before as [|[p c] before IH]; cbn.
  - destruct (PyStr.startswith callsign p1) eqn:H1; [reflexivity|].
    induction between as [|[p c] between IH]; cbn.
    + destruct (PyStr.startswith callsign p2) eqn:H2; [|reflexivity].
      rewrite (TextFacts.startswith_trans _ _ _ Hp H2) in H1. discriminate.
    + destruct (PyStr.startswith callsign p); [reflexivity|exact IH].
  - destruct (PyStr.startswith callsign p); [reflexivity|exact IH].
Qed.

Lemma shadowed_pattern_witness :
  let before := take 31 Tracker1.VIP_CALLSIGN_PATTERNS in
  let after := drop 33 Tracker1.VIP_CALLSIGN_PATTERNS in
  Tracker1.VIP_CALLSIGN_PATTERNS
    = (before ++ ("GAF", "Germany") :: [] ++ ("GAFTT", "Germany") :: after)%list /\
  PyStr.startswith "GAFTT" "GAF" = true /\
  Tracker1.match_patterns Tracker1.VIP_CALLSIGN_PATTERNS "GAFTT01"
  = Tracker1.match_patterns (before ++ ("GAF", "Germany") :: [] ++ after) "GAFTT01".
Proof.
  intros before after.
  assert (Ht : Tracker1.VIP_CALLSIGN_PATTERNS
               = (before ++ ("GAF", "Germany") :: [] ++ ("GAFTT", "Germany") :: after)%list)
    by (vm_compute; reflexivity).
  assert (Hp : PyStr.startswith "GAFTT" "GAF" = true) by reflexivity.
  split; [exact Ht|]. split; [exact Hp|].
  rewrite Ht at 1.
  exact (shadowed_pattern_is_dead before [] after "GAF" "Germany" "GAFTT" "Germany"
           "GAFTT01" Hp).
Defined.

End ParseFacts.

(** * More facts about poc_tracker.py: the loop of find_presidential_aircraft *)

Module LoopFacts.
Import Tracker1 Tracker1Spec CaseSpec Demo.

(** The geocoder decides the [over_country] field of a parsed entry and
    nothing else. *)
Lemma parse_aircraft_blank RG rg RG' rg' ac known st st' :
  without_over_country (fst (Tracker1.parse_aircraft RG rg ac known st))
  = without_over_country (fst (Tracker1.parse_aircraft RG' rg' ac known st')).
Proof.
  unfold Tracker1.parse_aircraft.
  destruct (if lat_and_lon _ _ then Tracker1.get_location RG rg _ _ st else _).
  destruct (if lat_and_lon _ _ then Tracker1.get_location RG' rg' _ _ st' else _).
  reflexivity.
Qed.

Lemma emitted_blank RG rg RG' rg' ac st st' :
  (fun entry => without_over_country (fst entry)) <$> Tracker1Spec.emitted RG rg ac st
  = (fun entry => without_over_country (fst entry))
      <$> Tracker1Spec.emitted RG' rg' ac st'.
Proof.
  unfold Tracker1Spec.emitted.
  pose proof (parse_aircraft_blank RG rg RG' rg' ac PRESIDENTIAL_AIRCRAFT st st') as H.
  destruct (decide _); [cbn; now rewrite H|].
  destruct (matched_truthy _); [|reflexivity].
  destruct (Tracker1.parse_aircraft RG rg ac PRESIDENTIAL_AIRCRAFT st) as [i1 s1].
  destruct (Tracker1.parse_aircraft RG' rg' ac PRESIDENTIAL_AIRCRAFT st') as [i2 s2].
  cbn [fst] in H. cbn. f_equal.
  destruct i1, i2. unfold without_over_country, set_country_description in *.
  cbn in *. injection H as -> -> -> -> -> -> -> -> -> -> -> -> -> -> ->.
  reflexivity.
Qed.

Lemma found_blank RG rg RG' rg' acs : forall seen_hex st st',
  without_over_country <$> Tracker1Spec.found RG rg acs seen_hex st
  = without_over_country <$> Tracker1Spec.found RG' rg' acs seen_hex st'.
Proof.
  induction acs as [|ac rest IH]; intros seen_hex st st'; [reflexivity|].
  rewrite !Tracker1Facts.found_cons.
  destruct (decide (hex_lower ac ∈ seen_hex)); [apply IH|].
  pose proof (emitted_blank RG rg RG' rg' ac st st') as He.
  destruct (Tracker1Spec.emitted RG rg ac st) as [[i1 s1]|];
    destruct (Tracker1Spec.emitted RG' rg' ac st') as [[i2 s2]|];
    cbn in He; try discriminate He; [|apply IH].
  rewrite !fmap_cons. f_equal; [|apply IH].
  exact (Some_inj _ _ He).
Qed.

Lemma blank_fixed (entries : list AircraftInfo) :
  Forall (fun e => over_country e = "") entries ->
  without_over_country <$> entries = entries.
Proof.
  induction 1 as [|e rest He _ IH]; [reflexivity|].
  rewrite fmap_cons, IH. f_equal. destruct e. cbn in He. now subst.
Qed.

Section Pipeline.
Variable RG_AVAILABLE : bool.
Variable rg_search : nat -> Q -> Q -> Geo.rg_outcome.

Abbreviation parse_aircraft := (parse_aircraft RG_AVAILABLE rg_search).
Abbreviation find_loop := (find_loop RG_AVAILABLE rg_search).
Abbreviation find_presidential_aircraft :=
  (find_presidential_aircraft RG_AVAILABLE rg_search).
Abbreviation emitted := (emitted RG_AVAILABLE rg_search).
Abbreviation found := (found RG_AVAILABLE rg_search).

Lemma found_sublist acs : forall seen_hex st,
  hex_code <$> found acs seen_hex st
    `sublist_of` (fun ac => PyStr.upper (hex_lower ac)) <$> acs.
Proof.
  induction acs as [|ac rest IH]; intros seen_hex st.
  - cbn. constructor.
  - rewrite Tracker1Facts.found_cons, (fmap_cons _ ac).
    destruct (decide (hex_lower ac ∈ seen_hex)); [apply sublist_cons, IH|].
    destruct (emitted ac st) as [[info st']|] eqn:Hem; [|apply sublist_cons, IH].
    rewrite fmap_cons, (Tracker1Facts.emitted_hex_code _ _ _ _ _ _ Hem).
    apply sublist_skip, IH.
Qed.

(** X6.  The result of [find_presidential_aircraft] follows the source
    order: its identifiers are a subsequence of the upper-cased
    identifiers of the response's tracks, so it has no more entries than
    the response has tracks; a response without the ["ac"] key gives the
    empty list. *)
Theorem result_in_source_order (api_response : ApiResponse) (st : Geo.geo_state) :
  let out := fst (find_presidential_aircraft api_response st) in
  hex_code <$> out
    `sublist_of` (fun ac => PyStr.upper (hex_lower ac)) <$> get_ac api_response /\
  length out <= length (get_ac api_response) /\
  (ac api_response = None -> out = []).
Proof.
  intros out. subst out.
  change (fst (find_presidential_aircraft api_response st))
    with (found (get_ac api_response) ∅ st).
  pose proof (found_sublist (get_ac api_response) ∅ st) as Hs.
  split; [exact Hs|]. split.
  - apply sublist_length in Hs. now rewrite !length_fmap in Hs.
  - unfold get_ac. now intros ->.
Qed.

Lemma parse_aircraft_position ac known st :
  latitude (fst (parse_aircraft ac known st)) = lat ac /\
  longitude (fst (parse_aircraft ac known st)) = lon ac.
Proof.
  unfold Tracker1.parse_aircraft.
  destruct (if lat_and_lon _ _ then _ else _); split; reflexivity.
Qed.

(** One call to [parse_aircraft] keeps what the cache holds and calls the
    geocoder at most once, and only for a position with two truthy
    coordinates. *)
Lemma parse_aircraft_geo ac known st :
  let st' := snd (parse_aircraft ac known st) in
  (forall key location,
     Geo.location_cache st !! key = Some location ->
     Geo.location_cache st' !! key = Some location) /\
  length (Geo.rg_calls st')
    <= length (Geo.rg_calls st) + (if lat_and_lon (lat ac) (lon ac) then 1 else 0).
Proof.
  intros st'. subst st'.
  destruct (lat_and_lon (lat ac) (lon ac)) eqn:Hp.
  - destruct (EnrichmentFacts.parse_aircraft_resolves RG_AVAILABLE rg_search
                ac known st Hp) as [_ ->].
    split.
    + intros key location. apply GeoFacts.get_location_keeps.
    + pose proof (GeoFacts.get_location_calls RG_AVAILABLE rg_search
                    country_names (lat ac) (lon ac) st). unfold get_location. lia.
  - destruct (EnrichmentFacts.parse_aircraft_skips RG_AVAILABLE rg_search
                ac known st Hp) as [_ ->].
    split; [tauto|lia].
Qed.

Lemma emitted_geo ac st info st' :
  emitted ac st = Some (info, st') ->
  latitude info = lat ac /\ longitude info = lon ac /\
  (forall key location,
     Geo.location_cache st !! key = Some location ->
     Geo.location_cache st' !! key = Some location) /\
  length (Geo.rg_calls st')
    <= length (Geo.rg_calls st) + (if lat_and_lon (lat ac) (lon ac) then 1 else 0).
Proof.
  unfold Tracker1Spec.emitted. intros H.
  pose proof (parse_aircraft_position ac PRESIDENTIAL_AIRCRAFT st) as [Hla Hlo].
  pose proof (parse_aircraft_geo ac PRESIDENTIAL_AIRCRAFT st) as [Hk Hc].
  destruct (parse_aircraft ac PRESIDENTIAL_AIRCRAFT st) as [i0 s0].
  cbn [fst snd] in *.
  destruct (decide _).
  - injection H as <- <-. auto.
  - destruct (matched_truthy _); [|discriminate].
    injection H as <- <-. auto.
Qed.

(** The same over the whole loop. *)
Lemma find_loop_geo acs : forall seen_hex st,
  let out := fst (find_loop acs [] seen_hex st) in
  let st' := snd (find_loop acs [] seen_hex st) in
  (forall key location,
     Geo.location_cache st !! key = Some location ->
     Geo.location_cache st' !! key = Some location) /\
  length (Geo.rg_calls st')
    <= length (Geo.rg_calls st)
       + length (filter (fun e => lat_and_lon (latitude e) (longitude e) = true) out).
Proof.
  induction acs as [|ac rest IH]; intros seen_hex st.
  - cbn. split; [tauto|lia].
  - rewrite Tracker1Facts.find_loop_cons.
    destruct (decide (hex_lower ac ∈ seen_hex)); [apply IH|].
    destruct (emitted ac st) as [[info st1]|] eqn:Hem; [|apply IH].
    rewrite Tracker1Facts.find_loop_acc. cbn [fst snd].
    destruct (emitted_geo _ _ _ _ Hem) as (Hla & Hlo & Hk & Hc).
    destruct (IH ({[hex_lower ac]} ∪ seen_hex) st1) as [Hk' Hc'].
    fold (found rest ({[hex_lower ac]} ∪ seen_hex) st1) in Hc'.
    split; [intros key location Hl; apply Hk', Hk, Hl|].
    cbn [app].
    rewrite filter_cons, Hla, Hlo.
    destruct (lat_and_lon (lat ac) (lon ac));
      [rewrite decide_True by reflexivity|rewrite decide_False by discriminate];
      cbn [length]; lia.
Qed.

(** X7.  One classification keeps every entry of the location cache with
    its value, and calls the geocoder at most once for each entry of the
    result that has two truthy coordinates: never for a track that is
    dropped or skipped as a duplicate. *)
Theorem classification_geocoder_budget (api_response : ApiResponse)
    (st : Geo.geo_state) :
  let out := fst (find_presidential_aircraft api_response st) in
  let st' := snd (find_presidential_aircraft api_response st) in
  (forall key location,
     Geo.location_cache st !! key = Some location ->
     Geo.location_cache st' !! key = Some location) /\
  length (Geo.rg_calls st')
    <= length (Geo.rg_calls st)
       + length (filter (fun e => lat_and_lon (latitude e) (longitude e) = true) out) /\
  length (Geo.rg_calls st') <= length (Geo.rg_calls st) + length out.
Proof.
  intros out st'. subst out st'. unfold Tracker1.find_presidential_aircraft.
  destruct (find_loop_geo (get_ac api_response) ∅ st) as [Hk Hc].
  split; [exact Hk|]. split; [exact Hc|].
  etransitivity; [exact Hc|]. apply Nat.add_le_mono_l, length_filter.
Qed.

Lemma parse_aircraft_unavailable ac known st :
  RG_AVAILABLE = false ->
  over_country (fst (parse_aircraft ac known st)) = "" /\
  snd (parse_aircraft ac known st) = st.
Proof.
  intros Hrg. unfold Tracker1.parse_aircraft, get_location.
  rewrite (GeoFacts.get_location_unavailable _ _ _ _ _ _ Hrg).
  destruct (lat_and_lon _ _); split; reflexivity.
Qed.

Lemma emitted_unavailable ac st info st' :
  RG_AVAILABLE = false ->
  emitted ac st = Some (info, st') -> over_country info = "" /\ st' = st.
Proof.
  intros Hrg. unfold Tracker1Spec.emitted. intros H.
  pose proof (parse_aircraft_unavailable ac PRESIDENTIAL_AIRCRAFT st Hrg) as [Ho Hs].
  destruct (parse_aircraft ac PRESIDENTIAL_AIRCRAFT st) as [i0 s0].
  cbn [fst snd] in *.
  destruct (decide _).
  - injection H as <- <-. auto.
  - destruct (matched_truthy _); [|discriminate].
    injection H as <- <-. auto.
Qed.

Lemma find_loop_unavailable acs : forall seen_hex st,
  RG_AVAILABLE = false ->
  snd (find_loop acs [] seen_hex st) = st /\
  Forall (fun e => over_country e = "") (fst (find_loop acs [] seen_hex st)).
Proof.
  induction acs as [|ac rest IH]; intros seen_hex st Hrg.
  - cbn. split; [reflexivity|constructor].
  - rewrite Tracker1Facts.find_loop_cons.
    destruct (decide (hex_lower ac ∈ seen_hex)); [now apply IH|].
    destruct (emitted ac st) as [[info st1]|] eqn:Hem; [|now apply IH].
    rewrite Tracker1Facts.find_loop_acc. cbn [fst snd].
    destruct (emitted_unavailable _ _ _ _ Hrg Hem) as [Ho ->].
    destruct (IH ({[hex_lower ac]} ∪ seen_hex) st Hrg) as [Hs Hf].
    split; [exact Hs|].
    cbn [app].
    constructor; [exact Ho|exact Hf].
Qed.

(** X8.  Without the [reverse_geocoder] module the classification still
    runs: it returns the entries that it returns with any geocoder, from
    any location cache, each with an empty overflight country, and the
    location cache and the log of geocoder calls are left as they were. *)
Theorem classification_without_geocoder (api_response : ApiResponse)
    (st : Geo.geo_state) :
  RG_AVAILABLE = false ->
  snd (find_presidential_aircraft api_response st) = st /\
  Forall (fun e => over_country e = "")
    (fst (find_presidential_aircraft api_response st)) /\
  forall (RG_AVAILABLE' : bool) (rg_search' : nat -> Q -> Q -> Geo.rg_outcome)
         (st' : Geo.geo_state),
    fst (find_presidential_aircraft api_response st)
    = without_over_country
        <$> fst (Tracker1.find_presidential_aircraft RG_AVAILABLE' rg_search'
                   api_response st').
Proof.
  intros Hrg.
  destruct (find_loop_unavailable (get_ac api_response) ∅ st Hrg) as [Hs Hf].
  split; [exact Hs|]. split; [exact Hf|].
  intros RG_AVAILABLE' rg_search' st'.
  change (fst (find_presidential_aircraft api_response st))
    with (found (get_ac api_response) ∅ st).
  change (fst (Tracker1.find_presidential_aircraft RG_AVAILABLE' rg_search'
                 api_response st'))
    with (Tracker1Spec.found RG_AVAILABLE' rg_search' (get_ac api_response) ∅ st').
  rewrite <- (found_blank RG_AVAILABLE rg_search RG_AVAILABLE' rg_search'
                (get_ac api_response) ∅ st st').
  symmetry. apply blank_fixed. exact Hf.
Qed.

Lemma hex_lower_upcase ac : hex_lower (upcase_hex ac) = hex_lower ac.
Proof.
  unfold hex_lower, upcase_hex. cbn [hex].
  destruct (hex ac); cbn; [apply PyStrFacts.lower_upper|reflexivity].
Qed.

Lemma parse_aircraft_upcase ac known st :
  parse_aircraft (upcase_hex ac) known st = parse_aircraft ac known st.
Proof.
  unfold Tracker1.parse_aircraft.
  change (PyStr.lower (default "" (hex (upcase_hex ac)))) with (hex_lower (upcase_hex ac)).
  now rewrite hex_lower_upcase.
Qed.

Lemma find_loop_upcase acs : forall presidential seen_hex st,
  find_loop (upcase_hex <$> acs) presidential seen_hex st
  = find_loop acs presidential seen_hex st.
Proof.
  induction acs as [|ac rest IH]; intros presidential seen_hex st; [reflexivity|].
  rewrite fmap_cons. cbn [Tracker1.find_loop].
  change (PyStr.lower (default "" (hex (upcase_hex ac)))) with (hex_lower (upcase_hex ac)).
  rewrite hex_lower_upcase, parse_aircraft_upcase. unfold hex_lower.
  destruct (decide _); [apply IH|].
  destruct (decide _).
  - destruct (parse_aircraft ac PRESIDENTIAL_AIRCRAFT st). apply IH.
  - destruct (matched_truthy _); [|apply IH].
    destruct (parse_aircraft ac PRESIDENTIAL_AIRCRAFT st). apply IH.
Qed.

(** X9.  Identifiers are matched without regard to letter case: writing
    every identifier of a response in capitals changes neither the result
    nor the location cache. *)
Theorem identifier_case_ignored (api_response : ApiResponse) (st : Geo.geo_state) :
  find_presidential_aircraft (upcase_response api_response) st
  = find_presidential_aircraft api_response st.
Proof.
  unfold Tracker1.find_presidential_aircraft, upcase_response, get_ac. cbn [ac].
  destruct (ac api_response) as [tracks|]; [|reflexivity].
  apply find_loop_upcase.
Qed.
End Pipeline.

(** Air Force One over Czechia: without the geocoder it is still in the
    result, as the entry that the run with the geocoder gives, less the
    overflight country. *)
Lemma classification_without_geocoder_witness :
  let response :=
    {| ac := Some [demo_track "ae001f" "SAM1" (Some (50001 # 1000)%Q)
                     (Some (14999 # 1000)%Q)];
       msg := None |} in
  let without :=
    Tracker1.find_presidential_aircraft false demo_search response Geo.initial in
  let resolved :=
    Tracker1.find_presidential_aircraft true demo_search response Geo.initial in
  false = false /\
  snd without = Geo.initial /\
  Forall (fun e => over_country e = "") (fst without) /\
  description <$> fst without = ["Air Force One (VC-25A)"] /\
  over_country <$> fst resolved = ["Czechia"] /\
  fst without = without_over_country <$> fst resolved.
Proof.
  intros response without resolved. split; [reflexivity|].
  destruct (classification_without_geocoder false demo_search response Geo.initial
              eq_refl) as (H1 & H2 & H3).
  split; [exact H1|]. split; [exact H2|].
  split; [vm_compute; reflexivity|]. split; [vm_compute; reflexivity|].
  exact (H3 true demo_search Geo.initial).
Defined.

End LoopFacts.

(** * More facts about poc_tracker.py: what the result is made of *)

Module ProvenanceFacts.
Import Tracker1 Tracker1Spec Demo.

Lemma match_patterns_in items callsign c :
  match_patterns items callsign = Some c -> c ∈ snd <$> items.
Proof.
  induction items as [|[p c'] rest IH]; cbn [match_patterns]; [discriminate|].
  rewrite fmap_cons. destruct (PyStr.startswith callsign p).
  - intros [= ->]. now left.
  - intros H. right. now apply IH.
Qed.

Lemma matched_truthy_some m c :
  matched_truthy m = Some c -> m = Some c /\ c <> "".
Proof.
  destruct m as [c'|]; cbn; [|discriminate].
  destruct c'; cbn; [discriminate|]. intros [= <-]. split; [reflexivity|discriminate].
Qed.

(** No record of the registry has a placeholder for its country or its
    description. *)
Lemma registry_resolved k rec :
  PRESIDENTIAL_AIRCRAFT !! k = Some rec ->
  known_country rec <> "Unknown" /\ known_country rec <> "" /\
  known_description rec <> "Military Aircraft".
Proof.
  intros Hk. apply elem_of_map_to_list, list_elem_of_In in Hk.
  assert (Hall : forallb
            (fun kr => negb (String.eqb (known_country (snd kr)) "Unknown")
                       && negb (String.eqb (known_country (snd kr)) "")
                       && negb (String.eqb (known_description (snd kr))
                                  "Military Aircraft"))
            (map_to_list PRESIDENTIAL_AIRCRAFT) = true)
    by (vm_compute; reflexivity).
  rewrite forallb_forall in Hall. specialize (Hall _ Hk). cbn [snd] in Hall.
  rewrite !andb_true_iff, !negb_true_iff, !String.eqb_neq in Hall. tauto.
Qed.

Lemma patterns_resolved c :
  c ∈ snd <$> VIP_CALLSIGN_PATTERNS -> c <> "Unknown".
Proof.
  intros Hc. apply list_elem_of_In in Hc.
  assert (Hall : forallb (fun c => negb (String.eqb c "Unknown"))
                   (snd <$> VIP_CALLSIGN_PATTERNS) = true)
    by (vm_compute; reflexivity).
  rewrite forallb_forall in Hall. specialize (Hall _ Hc).
  now rewrite negb_true_iff, String.eqb_neq in Hall.
Qed.

Section Pipeline.
Variable RG_AVAILABLE : bool.
Variable rg_search : nat -> Q -> Q -> Geo.rg_outcome.

Abbreviation parse_aircraft := (parse_aircraft RG_AVAILABLE rg_search).
Abbreviation find_presidential_aircraft :=
  (find_presidential_aircraft RG_AVAILABLE rg_search).
Abbreviation emitted := (emitted RG_AVAILABLE rg_search).
Abbreviation found := (found RG_AVAILABLE rg_search).

Lemma parse_aircraft_fields ac known st :
  country (fst (parse_aircraft ac known st))
    = from_option known_country "Unknown" (known !! hex_lower ac) /\
  description (fst (parse_aircraft ac known st))
    = from_option known_description "Military Aircraft" (known !! hex_lower ac).
Proof.
  unfold Tracker1.parse_aircraft, hex_lower.
  destruct (if lat_and_lon _ _ then _ else _); split; reflexivity.
Qed.

Lemma emitted_provenance ac st info st' :
  emitted ac st = Some (info, st') ->
  (exists rec,
     PRESIDENTIAL_AIRCRAFT !! hex_lower ac = Some rec /\
     country info = known_country rec /\
     description info = known_description rec) \/
  (PRESIDENTIAL_AIRCRAFT !! hex_lower ac = None /\
   match_callsign (default "" (flight ac)) = Some (country info) /\
   country info <> "" /\
   description info = "VIP Flight (" +:+ callsign_upper ac +:+ ")").
Proof.
  unfold Tracker1Spec.emitted. intros H.
  pose proof (parse_aircraft_fields ac PRESIDENTIAL_AIRCRAFT st) as [Hc Hd].
  destruct (parse_aircraft ac PRESIDENTIAL_AIRCRAFT st) as [i0 s0]. cbn [fst] in *.
  destruct (decide _) as [[rec Hk]|Hn].
  - injection H as <- _. left. exists rec. rewrite Hk in Hc, Hd. auto.
  - destruct (matched_truthy _) as [c|] eqn:Hm; [|discriminate].
    injection H as <- _. right. apply matched_truthy_some in Hm as [Hm Hne].
    split; [|now repeat split].
    destruct (PRESIDENTIAL_AIRCRAFT !! hex_lower ac) eqn:Hk; [|reflexivity].
    exfalso. apply Hn. eauto.
Qed.

(** X10.  Every entry of the result is a registry aircraft, with the
    record's country and description, or a VIP flight: its identifier is
    not in the registry, its country is the one the pattern table gives
    for its callsign and its description is ["VIP Flight (CALLSIGN)"].
    The placeholders of [parse_aircraft] (country ["Unknown"], description
    ["Military Aircraft"]) never appear in the result, and no country is
    empty. *)
Theorem result_provenance (api_response : ApiResponse) (st : Geo.geo_state)
    (info : AircraftInfo) :
  info ∈ fst (find_presidential_aircraft api_response st) ->
  (exists ac,
     ac ∈ get_ac api_response /\
     hex_code info = PyStr.upper (hex_lower ac) /\
     ((exists rec,
         PRESIDENTIAL_AIRCRAFT !! hex_lower ac = Some rec /\
         country info = known_country rec /\
         description info = known_description rec) \/
      (PRESIDENTIAL_AIRCRAFT !! hex_lower ac = None /\
       match_callsign (default "" (flight ac)) = Some (country info) /\
       description info = "VIP Flight (" +:+ callsign_upper ac +:+ ")"))) /\
  country info <> "Unknown" /\ country info <> "" /\
  description info <> "Military Aircraft".
Proof.
  intros Hin.
  change (fst (find_presidential_aircraft api_response st))
    with (found (get_ac api_response) ∅ st) in Hin.
  apply Tracker1Facts.found_origin in Hin as (ac & st0 & st1 & Hac & _ & Hem).
  pose proof (Tracker1Facts.emitted_hex_code _ _ _ _ _ _ Hem) as Hx.
  destruct (emitted_provenance _ _ _ _ Hem)
    as [(rec & Hk & Hc & Hd)|(Hk & Hm & Hne & Hd)].
  - destruct (registry_resolved _ _ Hk) as (H1 & H2 & H3).
    split; [exists ac; eauto 10|]. rewrite Hc, Hd. auto.
  - split; [exists ac; eauto 10|].
    split; [|split; [exact Hne|rewrite Hd; discriminate]].
    apply patterns_resolved. apply (match_patterns_in _ _ _ Hm).
Qed.
End Pipeline.

Lemma result_provenance_witness :
  let response :=
    {| ac := Some [demo_track "abc123" "gaf901" None None]; msg := None |} in
  let out := fst (find_presidential_aircraft true demo_search response Geo.initial) in
  exists info,
    out = [info] /\
    country info = "Germany" /\ description info = "VIP Flight (GAF901)" /\
    country info <> "Unknown" /\ country info <> "" /\
    description info <> "Military Aircraft".
Proof.
  intros response out.
  destruct out as [|info [|]] eqn:Hout; try (vm_compute in Hout; discriminate Hout).
  exists info. split; [reflexivity|].
  assert (Hin : info ∈ fst (find_presidential_aircraft true demo_search response
                              Geo.initial)).
  { fold out. rewrite Hout. now left. }
  split; [vm_compute in Hout; now injection Hout as <-|].
  split; [vm_compute in Hout; now injection Hout as <-|].
  exact (proj2 (result_provenance true demo_search response Geo.initial info Hin)).
Defined.

End ProvenanceFacts.

(** * Facts about the pacing of requests *)

Module PacingFacts.
Import Client Pacing.

Lemma rate_limit_step (self : ADSBOneClient) (now : Q) :
  let slept := fst (_rate_limit self now) in
  let self' := snd (_rate_limit self now) in
  (0 <= slept)%Q /\
  (last_request_time self' == now + slept)%Q /\
  (last_request_time self + min_request_interval self <= last_request_time self')%Q /\
  min_request_interval self' = min_request_interval self /\
  ((min_request_interval self <= now - last_request_time self)%Q -> slept = 0%Q) /\
  ((last_request_time self <= now)%Q ->
   (0 <= min_request_interval self)%Q ->
   (slept <= min_request_interval self)%Q).
Proof.
  unfold _rate_limit. cbn [fst snd last_request_time min_request_interval].
  destruct (Qlt_le_dec _ _) as [Hlt|Hle]; repeat split; try reflexivity; try lra.
Qed.

(** X11.  Pacing.  With the clock read on entry and a sleep that lasts
    what was asked, [_rate_limit] never sleeps a negative time, does not
    sleep when the interval has already passed, sleeps at most one
    interval when the clock has not gone back, and always leaves
    [last_request_time] at least [min_request_interval] after its former
    value; so in any run of requests of one client, each is stamped at
    least one interval after the one before, whether the requests
    succeed or fail. *)
Theorem requests_are_paced (self : ADSBOneClient) (readings : list Q) :
  (forall now,
     let slept := fst (_rate_limit self now) in
     let self' := snd (_rate_limit self now) in
     (0 <= slept)%Q /\
     (last_request_time self + min_request_interval self
        <= last_request_time self')%Q /\
     ((min_request_interval self <= now - last_request_time self)%Q -> slept = 0%Q) /\
     ((last_request_time self <= now)%Q -> (0 <= min_request_interval self)%Q ->
      (slept <= min_request_interval self)%Q)) /\
  (forall i earlier later,
     request_times self readings !! i = Some earlier ->
     request_times self readings !! S i = Some later ->
     (earlier + min_request_interval self <= later)%Q).
Proof.
  split.
  - intros now. destruct (rate_limit_step self now) as (H1 & _ & H3 & _ & H5 & H6).
    cbn zeta. split; [exact H1|]. split; [exact H3|]. split; [exact H5|exact H6].
  - revert self. induction readings as [|now rest IH]; intros self i earlier later.
    + discriminate.
    + cbn [request_times].
      destruct (rate_limit_step self now) as (_ & _ & _ & Hint & _).
      destruct i as [|i]; cbn [lookup list_lookup].
      * destruct rest as [|now' rest]; [discriminate|]. cbn [request_times].
        intros [= <-] [= <-].
        destruct (rate_limit_step (snd (_rate_limit self now)) now')
          as (_ & _ & Hstep & _).
        rewrite Hint in Hstep. exact Hstep.
      * intros He Hl. rewrite <- Hint. exact (IH _ i earlier later He Hl).
Qed.

(** Requests entered at 0.5 s, 1.3 s and 5 s are stamped at 1 s, 2 s and 5 s. *)
Lemma requests_are_paced_witness :
  let readings := [(1 # 2)%Q; (13 # 10)%Q; (5 # 1)%Q] in
  request_times init readings = [(4 # 4)%Q; (800 # 400)%Q; 5%Q] /\
  ((4 # 4) + min_request_interval init <= (800 # 400))%Q.
Proof.
  intros readings.
  assert (Ht : request_times init readings = [(4 # 4)%Q; (800 # 400)%Q; 5%Q])
    by (vm_compute; reflexivity).
  split; [exact Ht|].
  apply (proj2 (requests_are_paced init readings) 0 (4 # 4)%Q (800 # 400)%Q);
    now rewrite Ht.
Defined.

End PacingFacts.

(** * Facts about the summary statistics of poc_tracker.py *)

Module SummaryFacts.
Import Tracker1 Tracker1Summary.

Lemma count_country_lookup m a c :
  default 0 (count_country m a !! c)
  = default 0 (m !! c) + (if decide (country a = c) then 1 else 0).
Proof.
  unfold count_country. destruct (decide (country a = c)) as [<-|Hne].
  - now rewrite lookup_insert_eq.
  - rewrite lookup_insert_ne by exact Hne. lia.
Qed.

Lemma country_counts_from presidential : forall m c,
  default 0 (fold_left count_country presidential m !! c)
  = default 0 (m !! c) + length (filter (fun a => country a = c) presidential).
Proof.
  induction presidential as [|a rest IH]; intros m c; cbn [fold_left].
  - cbn. lia.
  - rewrite IH, count_country_lookup, filter_cons.
    destruct (decide (country a = c)); cbn [length]; lia.
Qed.

Lemma country_counts_dom presidential : forall m,
  dom (fold_left count_country presidential m)
  = dom m ∪ list_to_set (country <$> presidential).
Proof.
  induction presidential as [|a rest IH]; intros m; cbn [fold_left].
  - cbn. set_solver.
  - rewrite IH. unfold count_country. rewrite dom_insert_L, fmap_cons. set_solver.
Qed.

Lemma total_count_country m a : total (count_country m a) = S (total m).
Proof.
  unfold total, count_country.
  assert (Hcomm : forall (m' : gmap string nat) j1 j2 z1 z2 y,
            j1 <> j2 -> m' !! j1 = Some z1 -> m' !! j2 = Some z2 ->
            z1 + (z2 + y) = z2 + (z1 + y)) by (intros; lia).
  destruct (m !! country a) as [n|] eqn:Hk.
  - rewrite <- insert_delete_eq.
    rewrite map_fold_insert_L; [|apply Hcomm|apply lookup_delete_eq].
    rewrite (map_fold_delete_L _ _ (country a) n m); [|apply Hcomm|exact Hk].
    cbn. lia.
  - rewrite map_fold_insert_L; [|apply Hcomm|exact Hk]. cbn. lia.
Qed.

Lemma total_country_counts presidential : forall m,
  total (fold_left count_country presidential m) = total m + length presidential.
Proof.
  induction presidential as [|a rest IH]; intros m; cbn [fold_left length]; [lia|].
  rewrite IH, total_count_country. lia.
Qed.

(** X12.  The summary of [main].  The dictionary of counts has exactly the
    countries that occur in the list as keys, each with the number of
    entries of that country (at least 1), and the counts add up to the
    length of the list.  The priority alert is printed (count above 0)
    exactly when the set of priority countries found is not empty, and the
    priority countries found and not found split [PRIORITY_COUNTRIES]. *)
Theorem summary_counts (presidential : list AircraftInfo) :
  dom (country_counts presidential) = countries_found presidential /\
  (forall c n,
     country_counts presidential !! c = Some n ->
     n = length (filter (fun a => country a = c) presidential) /\ 1 <= n) /\
  total (country_counts presidential) = length presidential /\
  (0 < priority_count presidential <-> priority_countries_found presidential <> ∅) /\
  priority_countries_found presidential ∪ priority_countries_not_found presidential
    = PRIORITY_COUNTRIES /\
  priority_countries_found presidential ## priority_countries_not_found presidential.
Proof.
  assert (Hdom : dom (country_counts presidential) = countries_found presidential).
  { unfold country_counts, countries_found. rewrite country_counts_dom. set_solver. }
  split; [exact Hdom|]. split; [|split; [|split; [|split]]].
  - intros c n Hn.
    pose proof (country_counts_from presidential ∅ c) as Hc.
    fold (country_counts presidential) in Hc.
    rewrite Hn, lookup_empty in Hc. cbn in Hc. split; [exact Hc|].
    assert (Hin : c ∈ countries_found presidential)
      by (rewrite <- Hdom; apply elem_of_dom; eauto).
    unfold countries_found in Hin.
    apply elem_of_list_to_set, list_elem_of_fmap in Hin as (a & -> & Ha).
    assert (Hf : a ∈ filter (fun a' => country a' = country a) presidential)
      by (apply list_elem_of_filter; auto).
    rewrite Hc. destruct (filter _ presidential); [now apply elem_of_nil in Hf|].
    cbn. lia.
  - unfold country_counts. rewrite total_country_counts.
    unfold total. now rewrite map_fold_empty.
  - unfold priority_count, priority_countries_found, countries_found. split.
    + intros Hp Hempty.
      destruct (filter _ presidential) as [|a l] eqn:Hf; [cbn in Hp; lia|].
      assert (Ha : a ∈ filter (fun a => country a ∈ PRIORITY_COUNTRIES) presidential)
        by (rewrite Hf; now left).
      apply list_elem_of_filter in Ha as [Hpr Ha].
      assert (Hc : country a ∈ (list_to_set (country <$> presidential) : gset string)
                             ∩ PRIORITY_COUNTRIES).
      { apply elem_of_intersection. split; [|exact Hpr].
        apply elem_of_list_to_set, list_elem_of_fmap. eauto. }
      rewrite Hempty in Hc. now apply not_elem_of_empty in Hc.
    + intros Hne. apply set_choose_L in Hne as [c Hc].
      apply elem_of_intersection in Hc as [Hc Hpr].
      apply elem_of_list_to_set, list_elem_of_fmap in Hc as (a & -> & Ha).
      assert (Hf : a ∈ filter (fun a => country a ∈ PRIORITY_COUNTRIES) presidential)
        by (apply list_elem_of_filter; auto).
      destruct (filter _ presidential); [now apply elem_of_nil in Hf|]. cbn. lia.
  - unfold priority_countries_found, priority_countries_not_found.
    apply set_eq. intros c.
    rewrite elem_of_union, elem_of_intersection, elem_of_difference.
    destruct (decide (c ∈ countries_found presidential)); tauto.
  - unfold priority_countries_found, priority_countries_not_found.
    intros c. rewrite elem_of_intersection, elem_of_difference. tauto.
Qed.

Lemma summary_counts_witness :
  let usa := Demo.demo_info "AE0414" "GORDO14" "USA" "E-4B Nightwatch NAOC" in
  let german := Demo.demo_info "3F4615" "GAF901" "Germany" "A350-900" in
  country_counts [usa; german; usa] !! "USA" = Some 2 /\
  2 = length (filter (fun a => country a = "USA") [usa; german; usa]) /\ 1 <= 2.
Proof.
  intros usa german.
  assert (H : country_counts [usa; german; usa] !! "USA" = Some 2)
    by (vm_compute; reflexivity).
  split; [exact H|].
  exact (proj1 (proj2 (summary_counts [usa; german; usa])) "USA" 2 H).
Defined.

End SummaryFacts.

(** * More facts about poc_tracker2.py *)

Module DatabaseFacts.
Import Tracker2 Tracker2Spec Tracker2Display DatabaseSpec Demo.

Lemma row_icao_normal (row : csv_row) (key : string) :
  row_icao row = Some key -> PyStr.lower key = key /\ PyStr.strip key = key.
Proof.
  unfold row_icao. destruct (row_get row "$ICAO") as [text|]; [|discriminate].
  intros [= <-]. split.
  - now rewrite <- TextFacts.strip_lower, PyStrFacts.lower_lower.
  - apply TextFacts.strip_idem.
Qed.

Lemma load_rows_entries rows : forall database loaded,
  load_rows rows database = Some loaded ->
  map_Forall (entry_from rows) database ->
  map_Forall (entry_from rows) loaded.
Proof.
  assert (Hgen : forall todo done database loaded,
            load_rows todo database = Some loaded ->
            map_Forall (entry_from (done ++ todo)) database ->
            map_Forall (entry_from (done ++ todo)) loaded).
  { induction todo as [|row rest IH]; intros done database loaded; cbn [load_rows].
    - now intros [= <-].
    - unfold load_row. destruct (row_icao row) as [icao|] eqn:Hrow; [|discriminate].
      intros Hload Hdb.
      replace (done ++ row :: rest)%list with ((done ++ [row]) ++ rest)%list in *
        by now rewrite <- app_assoc.
      apply (IH _ _ _ Hload).
      destruct (row_accepted icao) eqn:Hacc; [|exact Hdb].
      apply map_Forall_insert_2; [|exact Hdb].
      apply Tracker2Facts.row_accepted_length in Hacc.
      split; [exact Hacc|]. exists row.
      split; [|now split]. apply elem_of_app. left. apply elem_of_app. right. now left. }
  intros database loaded. apply (Hgen rows []).
Qed.

Lemma load_rows_size rows : forall database loaded,
  load_rows rows database = Some loaded ->
  size loaded <= size database + length rows.
Proof.
  induction rows as [|row rest IH]; intros database loaded; cbn [load_rows].
  - intros [= <-]. cbn. lia.
  - unfold load_row. destruct (row_icao row) as [icao|]; [|discriminate].
    intros Hload. etransitivity; [exact (IH _ _ Hload)|].
    destruct (row_accepted icao); cbn [length]; [|lia].
    destruct (database !! icao) eqn:Hk.
    + rewrite map_size_insert_Some by eauto. lia.
    + rewrite map_size_insert_None by exact Hk. lia.
Qed.

(** X13.  The load returns a database whenever every row has a value
    under the identifier column.  Every key of a returned database has
    exactly 6 characters, is in lower case and has no white space at either
    end; the record stored under it carries the key as its [icao_hex] and
    was built from a row of the file with that identifier; and the
    database has no more entries than the file has rows. *)
Theorem database_keys_normal (rows : list csv_row) :
  (rows_have_identifier rows ->
   exists database, load_aircraft_database (FileRows rows) = Client.Returned database) /\
  forall database,
    load_aircraft_database (FileRows rows) = Client.Returned database ->
    size database <= length rows /\
    forall key record,
      database !! key = Some record ->
      String.length key = 6 /\ PyStr.lower key = key /\ PyStr.strip key = key /\
      rec_icao_hex record = key /\
      exists row,
        row ∈ rows /\ row_icao row = Some key /\ record = record_of_row key row.
Proof.
  cbn [load_aircraft_database]. split.
  - intros Hrows.
    destruct (proj1 (Tracker2Facts.load_rows_returns rows ∅) Hrows) as [database ->].
    eauto.
  - intros database.
    destruct (load_rows rows ∅) as [loaded|] eqn:Hload; [|discriminate].
    intros [= <-]. split.
    + pose proof (load_rows_size rows ∅ _ Hload) as H. now rewrite map_size_empty in H.
    + intros key record Hk.
      pose proof (load_rows_entries rows ∅ _ Hload (map_Forall_empty _) key record Hk)
        as (Hlen & row & Hin & Hrow & Hrec).
      destruct (row_icao_normal row key Hrow) as [Hl Hs].
      repeat split; try assumption.
      * now rewrite Hrec.
      * eauto.
Qed.

Lemma load_rows_untouched rows : forall database loaded key,
  load_rows rows database = Some loaded ->
  Forall (fun row => row_icao row <> Some key) rows ->
  loaded !! key = database !! key.
Proof.
  induction rows as [|row rest IH]; intros database loaded key; cbn [load_rows].
  - now intros [= <-].
  - unfold load_row. destruct (row_icao row) as [icao|] eqn:Hrow; [|discriminate].
    intros Hload Hrows. apply Forall_cons in Hrows as [Hne Hrest].
    rewrite (IH _ _ _ Hload Hrest).
    destruct (row_accepted icao); [|reflexivity].
    rewrite lookup_insert_ne; [reflexivity|congruence].
Qed.

(** X14.  Of several rows with the same identifier the last one wins: the
    record stored for an accepted row is the row's own unless a later row
    has the same identifier. *)
Theorem last_row_wins (before after : list csv_row) (row : csv_row) (icao : string) :
  rows_have_identifier (before ++ after) ->
  row_icao row = Some icao ->
  String.length icao = 6 ->
  Forall (fun later => row_icao later <> Some icao) after ->
  exists database,
    load_aircraft_database (FileRows (before ++ row :: after))
      = Client.Returned database /\
    database !! icao = Some (record_of_row icao row).
Proof.
  intros Hrows Hrow Hlen Hafter.
  apply Forall_app in Hrows as [Hbefore Hrest].
  cbn [load_aircraft_database]. rewrite Tracker2Facts.load_rows_app.
  destruct (proj1 (Tracker2Facts.load_rows_returns before ∅) Hbefore) as [db1 ->].
  cbn [mbind option_bind load_rows]. unfold load_row. rewrite Hrow.
  rewrite (proj2 (Tracker2Facts.row_accepted_length _) Hlen).
  destruct (proj1 (Tracker2Facts.load_rows_returns after
                     (<[icao := record_of_row icao row]> db1)) Hrest)
    as [database Hload].
  rewrite Hload. exists database. split; [reflexivity|].
  rewrite (load_rows_untouched _ _ _ _ Hload Hafter). apply lookup_insert_eq.
Qed.

Lemma last_row_wins_witness :
  let old := demo_row "ae001f" "Old operator" "USAF" in
  let new := demo_row " AE001F" "New operator" "Governments" in
  rows_have_identifier ([old] ++ []) /\
  row_icao new = Some "ae001f" /\
  String.length "ae001f" = 6 /\
  exists database,
    load_aircraft_database (FileRows ([old] ++ new :: [])) = Client.Returned database /\
    database !! "ae001f" = Some (record_of_row "ae001f" new).
Proof.
  intros old new.
  assert (Hrows : rows_have_identifier ([old] ++ []))
    by (repeat constructor; vm_compute; eauto).
  assert (Hrow : row_icao new = Some "ae001f") by (vm_compute; reflexivity).
  assert (Hlen : String.length "ae001f" = 6) by reflexivity.
  split; [exact Hrows|]. split; [exact Hrow|]. split; [exact Hlen|].
  exact (last_row_wins [old] [] new "ae001f" Hrows Hrow Hlen (Forall_nil_2 _)).
Defined.

Lemma database_keys_normal_witness :
  let rows := [demo_row " AE001F " "USAF" "Governments"] in
  rows_have_identifier rows /\
  exists database record,
    load_aircraft_database (FileRows rows) = Client.Returned database /\
    database !! "ae001f" = Some record /\
    rec_icao_hex record = "ae001f".
Proof.
  intros rows.
  assert (Hrows : rows_have_identifier rows) by (repeat constructor; vm_compute; eauto).
  split; [exact Hrows|].
  destruct (proj1 (database_keys_normal rows) Hrows) as (database & Hload).
  destruct (proj2 (database_keys_normal rows) database Hload) as [_ Hkeys].
  assert (Hk : is_Some (database !! "ae001f")).
  { vm_compute in Hload. injection Hload as <-. vm_compute. eauto. }
  destruct Hk as [record Hk].
  exists database, record. split; [exact Hload|]. split; [exact Hk|].
  apply (Hkeys _ _ Hk).
Defined.

Lemma load_rows_raises rows : forall database,
  load_rows rows database = None <-> exists row, row ∈ rows /\ row_icao row = None.
Proof.
  induction rows as [|row rest IH]; intros database; cbn [load_rows].
  - split; [discriminate|]. intros (row & Hin & _). now apply elem_of_nil in Hin.
  - unfold load_row. destruct (row_icao row) as [icao|] eqn:Hrow.
    + rewrite IH. split; intros (row' & Hin & Hnone).
      * exists row'. split; [now apply elem_of_cons; right|exact Hnone].
      * apply elem_of_cons in Hin as [->|Hin]; [congruence|eauto].
    + split; [|reflexivity]. intros _. exists row. split; [now left|exact Hrow].
Qed.

Section Pipeline.
Variable RG_AVAILABLE : bool.
Variable rg_search : nat -> Q -> Q -> Geo.rg_outcome.

Abbreviation parse_tracked_aircraft :=
  (parse_tracked_aircraft RG_AVAILABLE rg_search).
Abbreviation match_loop := (match_loop RG_AVAILABLE rg_search).
Abbreviation main := (main RG_AVAILABLE rg_search).

Lemma parse_tracked_fields ac db st aircraft st' :
  parse_tracked_aircraft ac db st = (Some aircraft, st') ->
  exists record,
    db !! hex_lower ac = Some record /\
    icao_hex aircraft = PyStr.upper (hex_lower ac) /\
    operator aircraft
      = (if PyStr.truthy (rec_operator record)
         then PyStr.take 35 (rec_operator record) else "Unknown") /\
    aircraft_type aircraft
      = (if PyStr.truthy (rec_aircraft_type record)
         then PyStr.take 25 (rec_aircraft_type record) else "") /\
    category aircraft = rec_category record /\
    is_priority aircraft = bool_decide (category aircraft ∈ TOP_PRIORITY_CATEGORIES) /\
    is_high_interest aircraft
      = bool_decide (category aircraft ∈ HIGH_PRIORITY_CATEGORIES).
Proof.
  unfold Tracker2.parse_tracked_aircraft, hex_lower.
  destruct (db !! PyStr.lower (default "" (hex ac))) as [record|]; [|discriminate].
  destruct (if lat_and_lon _ _ then _ else _) as [over st1].
  intros H. injection H as <- _. exists record. repeat split.
Qed.

(** X15.  The texts of a parsed aircraft are bounded: the operator is
    never empty and has at most 35 characters (it is ["Unknown"] exactly
    when the catalog has none), the aircraft type has at most 25. *)
Theorem parsed_texts_bounded (ac : RawTrack) (db : gmap string AircraftRecord)
    (st st' : Geo.geo_state) (aircraft : TrackedAircraft) :
  parse_tracked_aircraft ac db st = (Some aircraft, st') ->
  1 <= String.length (operator aircraft) <= 35 /\
  String.length (aircraft_type aircraft) <= 25 /\
  exists record,
    db !! hex_lower ac = Some record /\
    (rec_operator record = "" -> operator aircraft = "Unknown") /\
    (String.length (rec_operator record) <= 35 -> rec_operator record <> "" ->
     operator aircraft = rec_operator record).
Proof.
  intros Hp.
  destruct (parse_tracked_fields _ _ _ _ _ Hp) as (record & Hk & _ & Ho & Ht & _).
  split; [|split].
  - rewrite Ho. destruct (rec_operator record) as [|c s] eqn:Hop; cbn [PyStr.truthy].
    + cbn. lia.
    + split; [cbn; lia|apply TextFacts.length_take].
  - rewrite Ht. destruct (PyStr.truthy (rec_aircraft_type record));
      [apply TextFacts.length_take|cbn; lia].
  - exists record. split; [exact Hk|]. split.
    + intros Hempty. now rewrite Ho, Hempty.
    + intros Hlen Hne. rewrite Ho.
      destruct (rec_operator record) as [|c s] eqn:Hop; [contradiction|].
      cbn [PyStr.truthy]. now apply TextFacts.take_all.
Qed.

Lemma match_loop_acc acs : forall tracked db st,
  match_loop acs tracked db st
  = ((tracked ++ fst (match_loop acs [] db st))%list, snd (match_loop acs [] db st)).
Proof.
  induction acs as [|ac rest IH]; intros tracked db st.
  - cbn. now rewrite app_nil_r.
  - cbn [Tracker2.match_loop].
    destruct (parse_tracked_aircraft ac db st) as [[aircraft|] st1]; [|apply IH].
    rewrite (IH (tracked ++ [aircraft])%list), (IH ([] ++ [aircraft])%list).
    cbn. now rewrite <- app_assoc.
Qed.

Lemma match_loop_all acs : forall db st,
  icao_hex <$> fst (match_loop acs [] db st)
  = (fun ac => PyStr.upper (hex_lower ac))
      <$> filter (fun ac => is_Some (db !! hex_lower ac)) acs /\
  Forall (fun aircraft =>
            is_priority aircraft
              = bool_decide (category aircraft ∈ TOP_PRIORITY_CATEGORIES) /\
            is_high_interest aircraft
              = bool_decide (category aircraft ∈ HIGH_PRIORITY_CATEGORIES))
    (fst (match_loop acs [] db st)).
Proof.
  induction acs as [|ac rest IH]; intros db st.
  - cbn. split; [reflexivity|constructor].
  - cbn [Tracker2.match_loop]. rewrite filter_cons.
    destruct (parse_tracked_aircraft ac db st) as [[aircraft|] st1] eqn:Hp.
    + destruct (parse_tracked_fields _ _ _ _ _ Hp)
        as (record & Hk & Hx & _ & _ & _ & Hpr & Hhi).
      rewrite match_loop_acc. cbn [fst app].
      rewrite decide_True by (rewrite Hk; eauto).
      destruct (IH db st1) as [IH1 IH2].
      split; [now rewrite !fmap_cons, Hx, IH1|]. constructor; [now split|exact IH2].
    + assert (Hk : db !! hex_lower ac = None).
      { destruct (db !! hex_lower ac) as [record|] eqn:Hk; [|reflexivity].
        revert Hp. unfold Tracker2.parse_tracked_aircraft. fold (hex_lower ac).
        rewrite Hk. destruct (if lat_and_lon _ _ then _ else _). discriminate. }
      replace st1 with st
        by (rewrite (Tracker2Facts.parse_tracked_absent _ _ _ _ _ Hk) in Hp;
            congruence).
      rewrite decide_False by (rewrite Hk; intros [? ?]; discriminate).
      apply IH.
Qed.

(** X16.  The second variant does not deduplicate: the list that [main]
    displays has one aircraft for every track of the response whose
    identifier is in the database, repeated identifiers included, in the
    order of the response. *)
Theorem matches_keep_duplicates (csv_path : csv_file) (response : ApiResponse)
    (st st' : Geo.geo_state) (tracked : list TrackedAircraft) :
  main csv_path (Client.Body response) st = Client.Returned (Displayed tracked, st') ->
  exists database,
    load_aircraft_database csv_path = Client.Returned database /\
    icao_hex <$> tracked
    = (fun ac => PyStr.upper (hex_lower ac))
        <$> filter (fun ac => is_Some (database !! hex_lower ac)) (get_ac response) /\
    length tracked
    = length (filter (fun ac => is_Some (database !! hex_lower ac)) (get_ac response)).
Proof.
  unfold Tracker2.main.
  destruct (load_aircraft_database csv_path) as [database|]; [|discriminate].
  destruct (bool_decide (size database = 0)); [discriminate|].
  cbn [Client.get_military_aircraft].
  pose proof (match_loop_all (get_ac response) database st) as [Hall _].
  destruct (match_loop (get_ac response) [] database st) as [out st1].
  intros H. injection H as <- <-. cbn [fst] in Hall.
  exists database. split; [reflexivity|]. split; [exact Hall|].
  apply (f_equal length) in Hall. now rewrite !length_fmap in Hall.
Qed.

(** X17.  With a database loaded, a fault of the data source does not
    stop [main]: it displays the empty list and touches neither the
    geocoder nor the location cache.  An exception that is not one of the
    [requests] library's, and a file that cannot be read, are not caught. *)
Theorem source_fault_with_database (rows : list csv_row) (c : Client.exn_class)
    (text : string) (st : Geo.geo_state) :
  rows_have_identifier rows ->
  (exists row icao,
     row ∈ rows /\ row_icao row = Some icao /\ String.length icao = 6) ->
  (Client.is_RequestException c = true ->
   main (FileRows rows) (Client.Raises c text) st = Client.Returned (Displayed [], st)) /\
  (Client.is_RequestException c = false ->
   main (FileRows rows) (Client.Raises c text) st = Client.Raised c text) /\
  (forall outcome,
     main (FileUnreadable text) outcome st = Client.Raised Client.OtherError text).
Proof.
  intros Hrows (row & icao & Hin & Hrow & Hlen).
  destruct (proj1 (Tracker2Facts.load_rows_returns rows ∅) Hrows) as [database Hload].
  assert (Hsize : bool_decide (size database = 0) = false).
  { apply bool_decide_eq_false_2. intros Hz. apply map_size_empty_iff in Hz.
    assert (Hk : is_Some (database !! icao))
      by (apply (Tracker2Facts.load_rows_lookup _ _ _ icao Hload); right; eauto).
    rewrite Hz, lookup_empty in Hk. destruct Hk; discriminate. }
  unfold Tracker2.main. cbn [load_aircraft_database]. rewrite Hload, Hsize.
  unfold Client.get_military_aircraft.
  split; [|split].
  - intros ->. reflexivity.
  - intros ->. reflexivity.
  - reflexivity.
Qed.

(** X20.  A row that holds [None] under the identifier column (a row
    shorter than the header) stops the load: the [AttributeError] of
    [None.lower()] is caught neither by [load_aircraft_database] nor by
    [main], whatever the rows before it held; this is the only way the
    loop over the rows raises.  A header without the identifier column
    does not raise: every row then reads as the empty text and is
    skipped. *)
Theorem short_row_aborts_load (rows : list csv_row) :
  ((exists row, row ∈ rows /\ row !! "$ICAO" = Some CellNone) <->
   load_aircraft_database (FileRows rows)
   = Client.Raised Client.OtherError none_lower) /\
  (forall outcome st,
     load_aircraft_database (FileRows rows)
     = Client.Raised Client.OtherError none_lower ->
     main (FileRows rows) outcome st = Client.Raised Client.OtherError none_lower) /\
  (Forall (fun row => row !! "$ICAO" = None) rows ->
   load_aircraft_database (FileRows rows) = Client.Returned ∅).
Proof.
  assert (Hnone : forall row, row_icao row = None <-> row !! "$ICAO" = Some CellNone).
  { intros row. unfold row_icao, row_get.
    destruct (row !! "$ICAO") as [[text|]|]; cbn; split; congruence. }
  split; [|split].
  - cbn [load_aircraft_database].
    destruct (load_rows rows ∅) as [database|] eqn:Hload.
    + split; [|discriminate]. intros (row & Hin & Hrow). apply Hnone in Hrow.
      assert (Hr : load_rows rows ∅ = None) by (apply load_rows_raises; eauto).
      congruence.
    + split; [reflexivity|]. intros _.
      apply load_rows_raises in Hload as (row & Hin & Hrow).
      exists row. split; [exact Hin|]. now apply Hnone.
  - intros outcome st Hload. unfold Tracker2.main. now rewrite Hload.
  - intros Hrows. cbn [load_aircraft_database].
    assert (Hload : forall database, load_rows rows database = Some database).
    { induction Hrows as [|row rest Hrow _ IH]; intros database; [reflexivity|].
      cbn [load_rows]. unfold load_row, row_icao, row_get. rewrite Hrow. cbn. apply IH. }
    now rewrite Hload.
Qed.
End Pipeline.

Lemma disjoint_categories :
  TOP_PRIORITY_CATEGORIES ## HIGH_PRIORITY_CATEGORIES /\
  TOP_PRIORITY_CATEGORIES ## MILITARY_CATEGORIES /\
  HIGH_PRIORITY_CATEGORIES ## MILITARY_CATEGORIES.
Proof.
  repeat split; apply disjoint_intersection_L; vm_compute; reflexivity.
Qed.

(** X18.  The three tables of the display never share an aircraft: no
    aircraft is in two of the groups, and together they hold no more than
    the aircraft matched; an aircraft whose category is in none of the
    three sets is counted as matched but shown in no table.  For a list
    built by [main], the priority count of the summary is the size of the
    group of governments and dictators. *)
Theorem display_groups_disjoint (aircraft_list : list TrackedAircraft) :
  (forall aircraft,
     ~ (aircraft ∈ govt aircraft_list /\ aircraft ∈ spy_sf aircraft_list) /\
     ~ (aircraft ∈ govt aircraft_list /\ aircraft ∈ military aircraft_list) /\
     ~ (aircraft ∈ spy_sf aircraft_list /\ aircraft ∈ military aircraft_list)) /\
  length (govt aircraft_list) + length (spy_sf aircraft_list)
    + length (military aircraft_list) <= length aircraft_list /\
  (Forall (fun aircraft =>
             is_priority aircraft
             = bool_decide (category aircraft ∈ TOP_PRIORITY_CATEGORIES))
     aircraft_list ->
   priority_count aircraft_list = length (govt aircraft_list)).
Proof.
  destruct disjoint_categories as (H12 & H13 & H23).
  split; [|split].
  - intros aircraft. unfold govt, spy_sf, military.
    rewrite !list_elem_of_filter.
    split; [|split]; intros [[Ha _] [Hb _]];
      [exact (H12 _ Ha Hb)|exact (H13 _ Ha Hb)|exact (H23 _ Ha Hb)].
  - unfold govt, spy_sf, military.
    induction aircraft_list as [|a l IH]; [cbn; lia|].
    rewrite !filter_cons. cbn [length].
    destruct (decide (category a ∈ TOP_PRIORITY_CATEGORIES)) as [Ha|Ha],
             (decide (category a ∈ HIGH_PRIORITY_CATEGORIES)) as [Hb|Hb],
             (decide (category a ∈ MILITARY_CATEGORIES)) as [Hc|Hc];
      cbn [length]; try lia;
      exfalso; eauto using H12, H13, H23.
  - unfold priority_count, govt.
    induction 1 as [|a l Ha _ IH]; [reflexivity|].
    rewrite !filter_cons, Ha.
    destruct (decide (category a ∈ TOP_PRIORITY_CATEGORIES)) as [Hin|Hout].
    + rewrite bool_decide_eq_true_2 by exact Hin.
      rewrite decide_True by reflexivity. cbn [length]. now rewrite IH.
    + rewrite bool_decide_eq_false_2 by exact Hout.
      rewrite decide_False by discriminate. exact IH.
Qed.

(** A good row, then a short one: the load raises and so does [main]. *)
Lemma short_row_aborts_load_witness :
  let rows := [demo_row "AE001F" "USAF" "Governments"; short_row "Nobody"] in
  load_aircraft_database (FileRows rows) = Client.Raised Client.OtherError none_lower /\
  Tracker2.main true demo_search (FileRows rows)
    (Client.Body {| ac := Some [demo_track "ae001f" "AF1" None None]; msg := None |})
    Geo.initial
  = Client.Raised Client.OtherError none_lower.
Proof.
  intros rows.
  assert (Hload : load_aircraft_database (FileRows rows)
                  = Client.Raised Client.OtherError none_lower).
  { apply (proj1 (short_row_aborts_load true demo_search rows)).
    exists (short_row "Nobody"). split; [right; now left|vm_compute; reflexivity]. }
  split; [exact Hload|].
  exact (proj1 (proj2 (short_row_aborts_load true demo_search rows)) _ _ Hload).
Defined.

Lemma source_fault_with_database_witness :
  let rows := [demo_row "AE001F" "USAF" "Governments"] in
  rows_have_identifier rows /\
  (exists row icao,
     row ∈ rows /\ row_icao row = Some icao /\ String.length icao = 6) /\
  Client.is_RequestException Client.Timeout = true /\
  Tracker2.main true demo_search (FileRows rows)
    (Client.Raises Client.Timeout "Read timed out.") Geo.initial
  = Client.Returned (Displayed [], Geo.initial).
Proof.
  intros rows.
  assert (Hrows : rows_have_identifier rows) by (repeat constructor; vm_compute; eauto).
  assert (Hrow : exists row icao,
            row ∈ rows /\ row_icao row = Some icao /\ String.length icao = 6).
  { eexists _, "ae001f". split; [now left|]. split; vm_compute; reflexivity. }
  split; [exact Hrows|]. split; [exact Hrow|]. split; [reflexivity|].
  exact (proj1 (source_fault_with_database true demo_search rows Client.Timeout
                  "Read timed out." Geo.initial Hrows Hrow) eq_refl).
Defined.

Lemma parsed_texts_bounded_witness :
  let database :=
    default ∅
      (load_rows [demo_row "AE001F" "A very long operator name, longer than 35 characters"
                    "Governments"] ∅) in
  let ac := demo_track "ae001f" "SAM1" None None in
  exists aircraft st',
    Tracker2.parse_tracked_aircraft true demo_search ac database Geo.initial
      = (Some aircraft, st') /\
    operator aircraft = "A very long operator name, longer t" /\
    1 <= String.length (operator aircraft) <= 35.
Proof.
  intros database ac.
  destruct (Tracker2.parse_tracked_aircraft true demo_search ac database Geo.initial)
    as [[aircraft|] st'] eqn:Hp; [|vm_compute in Hp; discriminate Hp].
  exists aircraft, st'. split; [reflexivity|].
  split; [vm_compute in Hp; now injection Hp as <- _|].
  exact (proj1 (parsed_texts_bounded true demo_search ac database Geo.initial st'
                  aircraft Hp)).
Defined.

(** The same aircraft reported twice is displayed twice. *)
Lemma matches_keep_duplicates_witness :
  let catalog := FileRows [demo_row "AE001F" "USAF" "Governments"] in
  let response :=
    {| ac := Some [demo_track "ae001f" "SAM1" None None;
                   demo_track "AE001F" "SAM2" None None];
       msg := None |} in
  exists tracked st',
    Tracker2.main true demo_search catalog (Client.Body response) Geo.initial
      = Client.Returned (Displayed tracked, st') /\
    callsign <$> tracked = ["SAM1"; "SAM2"] /\
    exists database,
      load_aircraft_database catalog = Client.Returned database /\
      icao_hex <$> tracked
      = (fun ac => PyStr.upper (hex_lower ac))
          <$> filter (fun ac => is_Some (database !! hex_lower ac)) (get_ac response) /\
      length tracked
      = length (filter (fun ac => is_Some (database !! hex_lower ac)) (get_ac response)).
Proof.
  intros catalog response.
  destruct (Tracker2.main true demo_search catalog (Client.Body response) Geo.initial)
    as [[[|tracked] st']|] eqn:Hm; try (vm_compute in Hm; discriminate Hm).
  exists tracked, st'. split; [reflexivity|]. split.
  - vm_compute in Hm. injection Hm as <- _. reflexivity.
  - exact (matches_keep_duplicates true demo_search _ _ _ _ _ Hm).
Defined.

Lemma display_groups_witness :
  let aircraft_list :=
    fst (Tracker2.match_loop true demo_search
           [demo_track "ae001f" "SAM1" None None; demo_track "43c6c4" "RRR1" None None]
           []
           (default ∅
              (load_rows [demo_row "AE001F" "USAF" "Governments";
                          demo_row "43C6C4" "Royal Air Force" "RAF"] ∅))
           Geo.initial) in
  Forall (fun aircraft =>
            is_priority aircraft
            = bool_decide (category aircraft ∈ TOP_PRIORITY_CATEGORIES))
    aircraft_list /\
  callsign <$> govt aircraft_list = ["SAM1"] /\
  priority_count aircraft_list = length (govt aircraft_list).
Proof.
  intros aircraft_list.
  assert (Hall : Forall (fun aircraft =>
                           is_priority aircraft
                           = bool_decide (category aircraft ∈ TOP_PRIORITY_CATEGORIES))
                   aircraft_list).
  { eapply Forall_impl; [apply (proj2 (match_loop_all true demo_search _ _ _))|].
    intros aircraft [H _]. exact H. }
  split; [exact Hall|]. split; [vm_compute; reflexivity|].
  exact (proj2 (proj2 (display_groups_disjoint aircraft_list)) Hall).
Defined.

End DatabaseFacts.

(** * More facts about the location cache *)

Module CacheFacts.
Import Geo Demo.

Section Lookup.
Variable RG_AVAILABLE : bool.
Variable rg_search : nat -> Q -> Q -> rg_outcome.
Variable country_names : gmap string string.

Abbreviation get_location := (get_location RG_AVAILABLE rg_search country_names).
Abbreviation get_locations := (get_locations RG_AVAILABLE rg_search country_names).

Lemma get_location_growth lat lon st :
  let st' := snd (get_location lat lon st) in
  size (location_cache st') + length (rg_calls st)
    <= size (location_cache st) + length (rg_calls st') /\
  rg_calls st `prefix_of` rg_calls st'.
Proof.
  unfold Geo.get_location.
  destruct lat as [lat|], lon as [lon|]; cbn; try (split; [lia|reflexivity]).
  destruct (negb RG_AVAILABLE); cbn; [split; [lia|reflexivity]|].
  destruct (location_cache st !! cache_key lat lon) eqn:Hk; cbn;
    [split; [lia|reflexivity]|].
  destruct (rg_search _ lat lon) as [|[|result results]]; cbn;
    rewrite ?length_app; cbn;
    (split; [|now apply prefix_app_r]); try lia.
  rewrite map_size_insert_None by exact Hk. lia.
Qed.

Lemma get_location_returns_cached lat lon st :
  RG_AVAILABLE = true ->
  fst (get_location (Some lat) (Some lon) st)
  = default "" (location_cache (snd (get_location (Some lat) (Some lon) st))
                  !! cache_key lat lon).
Proof.
  intros Hrg. unfold Geo.get_location. rewrite Hrg. cbn.
  destruct (location_cache st !! cache_key lat lon) eqn:Hk; cbn; [now rewrite Hk|].
  destruct (rg_search _ lat lon) as [|[|result results]]; cbn.
  - now rewrite Hk.
  - now rewrite Hk.
  - now rewrite lookup_insert_eq.
Qed.

(** X19.  Over any run of calls to [get_location]: the log of geocoder
    calls only grows at its end, by at most one call for each lookup; the
    cache gains at most one entry for each geocoder call made; and, the
    geocoder being available, what a lookup returns for a position is what
    the cache then holds under the position's key, or the empty text when
    the key is not cached. *)
Theorem cache_growth_bounded (calls : list (option Q * option Q)) (st : geo_state) :
  let results := fst (get_locations calls st) in
  let st' := snd (get_locations calls st) in
  length results = length calls /\
  rg_calls st `prefix_of` rg_calls st' /\
  length (rg_calls st') <= length (rg_calls st) + length calls /\
  size (location_cache st') + length (rg_calls st)
    <= size (location_cache st) + length (rg_calls st') /\
  (forall lat lon,
     RG_AVAILABLE = true ->
     fst (get_location (Some lat) (Some lon) st')
     = default "" (location_cache (snd (get_location (Some lat) (Some lon) st'))
                     !! cache_key lat lon)).
Proof.
  intros results st'. subst results st'.
  split; [|split; [|split; [|split]]].
  - revert st. induction calls as [|[lat lon] rest IH]; intros st; [reflexivity|].
    cbn [Geo.get_locations]. destruct (get_location lat lon st) as [r1 st1].
    specialize (IH st1). destruct (get_locations rest st1). cbn in *. now rewrite IH.
  - revert st. induction calls as [|[lat lon] rest IH]; intros st; [reflexivity|].
    cbn [Geo.get_locations].
    pose proof (get_location_growth lat lon st) as [_ Hp].
    destruct (get_location lat lon st) as [r1 st1].
    specialize (IH st1). destruct (get_locations rest st1). cbn in *.
    etransitivity; eassumption.
  - revert st. induction calls as [|[lat lon] rest IH]; intros st; [cbn; lia|].
    cbn [Geo.get_locations].
    pose proof (GeoFacts.get_location_calls RG_AVAILABLE rg_search country_names
                  lat lon st) as Hc.
    destruct (get_location lat lon st) as [r1 st1].
    specialize (IH st1). destruct (get_locations rest st1). cbn in *. lia.
  - revert st. induction calls as [|[lat lon] rest IH]; intros st; [cbn; lia|].
    cbn [Geo.get_locations].
    pose proof (get_location_growth lat lon st) as [Hg _].
    destruct (get_location lat lon st) as [r1 st1].
    specialize (IH st1). destruct (get_locations rest st1). cbn in *. lia.
  - intros lat lon Hrg. now apply get_location_returns_cached.
Qed.
End Lookup.

(** Three lookups, two of them with the same key and one without a
    longitude, from the empty cache: one geocoder call, one cache entry. *)
Lemma cache_growth_witness :
  let calls :=
    [(Some (50001 # 1000)%Q, Some (14999 # 1000)%Q);
     (Some (50004 # 1000)%Q, Some (15001 # 1000)%Q);
     (Some (50004 # 1000)%Q, None)] in
  let st' := snd (Geo.get_locations true demo_search Tracker1.country_names calls initial) in
  fst (Geo.get_locations true demo_search Tracker1.country_names calls initial)
    = ["Czechia"; "Czechia"; ""] /\
  true = true /\
  fst (Geo.get_location true demo_search Tracker1.country_names
         (Some (50001 # 1000)%Q) (Some (14999 # 1000)%Q) st')
  = default "" (location_cache
                  (snd (Geo.get_location true demo_search Tracker1.country_names
                          (Some (50001 # 1000)%Q) (Some (14999 # 1000)%Q) st'))
                  !! cache_key (50001 # 1000) (14999 # 1000)).
Proof.
  intros calls st'. split; [vm_compute; reflexivity|]. split; [reflexivity|].
  exact (proj2 (proj2 (proj2 (proj2
           (cache_growth_bounded true demo_search Tracker1.country_names calls initial))))
           (50001 # 1000)%Q (14999 # 1000)%Q eq_refl).
Defined.

End CacheFacts.

(** * The order of the classified list and of what is shown *)

Module ShownFacts.
Import DisplayOrder MainDisplay Demo.

Section Pipeline.
Variable RG_AVAILABLE : bool.
Variable rg_search : nat -> Q -> Q -> Geo.rg_outcome.

(** C9, as the code has it.  The list that [find_presidential_aircraft]
    returns is in the order of the source snapshot, whatever the countries
    of its entries, and [display_plain] shows it so.  It is
    [display_rich] that sorts it: the rows it shows are the entries of the
    list, of two rows the earlier one is in a tier not after the later
    one's (so the priority countries come first), then has a country not
    after it, then a description not after it, and the entries that agree
    on tier, country and description keep their relative order of the
    list.  In the second variant the matched list is in source order, with
    one entry for each track of the snapshot that is in the database; the
    plain display and the government panels show their entries in that
    order; only the two tables of [display_table] are sorted, each by
    category and then operator, with ties in the order of the list, and
    their key has no tier. *)
Theorem classified_display_order :
  (forall (api_response : ApiResponse) (st : Geo.geo_state),
     let presidential :=
       fst (Tracker1.find_presidential_aircraft RG_AVAILABLE rg_search
              api_response st) in
     let rows := shown true presidential in
     Tracker1.hex_code <$> presidential
       `sublist_of` (fun ac => PyStr.upper (Tracker1Spec.hex_lower ac))
                      <$> get_ac api_response ∧
     shown false presidential = presidential ∧
     Permutation rows presidential ∧
     (forall i j a b,
        i < j -> rows !! i = Some a -> rows !! j = Some b ->
        rich_order a b ∧
        (Tracker1.country b ∈ Tracker1.PRIORITY_COUNTRIES ->
         Tracker1.country a ∈ Tracker1.PRIORITY_COUNTRIES)) ∧
     (forall k,
        filter (fun a => Tracker1.sort_key a = k) rows
        = filter (fun a => Tracker1.sort_key a = k) presidential)) ∧
  (forall (database : gmap string Tracker2.AircraftRecord)
          (response : ApiResponse) (st : Geo.geo_state),
     let tracked :=
       fst (Tracker2.match_loop RG_AVAILABLE rg_search (get_ac response) []
              database st) in
     Tracker2.icao_hex <$> tracked
     = (fun ac => PyStr.upper (Tracker2Spec.hex_lower ac))
         <$> filter (fun ac => is_Some (database !! Tracker2Spec.hex_lower ac))
               (get_ac response) ∧
     shown_tracked false tracked = PlainLines tracked ∧
     exists panels spy_table military_table,
       shown_tracked true tracked = Groups panels spy_table military_table ∧
       panels `sublist_of` tracked ∧
       (forall aircraft,
          aircraft ∈ panels <->
          aircraft ∈ tracked ∧
          Tracker2.category aircraft ∈ Tracker2.TOP_PRIORITY_CATEGORIES) ∧
       Permutation spy_table (Tracker2Display.spy_sf tracked) ∧
       Permutation military_table (Tracker2Display.military tracked) ∧
       (forall i j a b,
          i < j ->
          (spy_table !! i = Some a ∧ spy_table !! j = Some b) ∨
          (military_table !! i = Some a ∧ military_table !! j = Some b) ->
          table_order a b) ∧
       (forall k,
          filter (fun a => Tracker2.sort_key a = k) spy_table
          = filter (fun a => Tracker2.sort_key a = k)
              (Tracker2Display.spy_sf tracked) ∧
          filter (fun a => Tracker2.sort_key a = k) military_table
          = filter (fun a => Tracker2.sort_key a = k)
              (Tracker2Display.military tracked))).
Proof.
  split.
  - intros api_response st presidential rows. subst rows. unfold shown.
    destruct (DisplayFacts.display_rich_sorted_stable presidential)
      as (Hperm & Hord & Hstable).
    split; [|split; [reflexivity|split; [exact Hperm|split; [exact Hord|exact Hstable]]]].
    exact (LoopFacts.found_sublist RG_AVAILABLE rg_search (get_ac api_response) ∅ st).
  - intros database response st tracked.
    split; [exact (proj1 (DatabaseFacts.match_loop_all RG_AVAILABLE rg_search
                            (get_ac response) database st))|].
    split; [reflexivity|].
    destruct (DisplayFacts.display_table_sorted_stable (Tracker2Display.spy_sf tracked))
      as (Hp1 & Ho1 & Hs1).
    destruct (DisplayFacts.display_table_sorted_stable (Tracker2Display.military tracked))
      as (Hp2 & Ho2 & Hs2).
    eexists _, _, _. split; [reflexivity|].
    split; [apply sublist_filter|].
    split; [intros aircraft; unfold Tracker2Display.govt;
            rewrite list_elem_of_filter; tauto|].
    split; [exact Hp1|]. split; [exact Hp2|]. split.
    + intros i j a b Hij [[Ha Hb]|[Ha Hb]];
        [exact (Ho1 i j a b Hij Ha Hb)|exact (Ho2 i j a b Hij Ha Hb)].
    + intros k. split; [apply Hs1|apply Hs2].
Qed.

End Pipeline.

(** A snapshot with a German aircraft before Air Force One: the classified
    list holds the German entry first, although Germany is no priority
    country and the USA are one, and the plain display shows it first;
    only the table of [display_rich] has the entry of the USA first. *)
Lemma classified_order_counterexample :
  let response :=
    {| ac := Some [demo_track "3f4615" "GAF901" None None;
                   demo_track "ae001f" "SAM1" None None];
       msg := None |} in
  let presidential :=
    fst (Tracker1.find_presidential_aircraft true demo_search response Geo.initial) in
  Tracker1.country <$> presidential = ["Germany"; "USA"] ∧
  Tracker1.hex_code <$> presidential = ["3F4615"; "AE001F"] ∧
  "Germany" ∉ Tracker1.PRIORITY_COUNTRIES ∧
  "USA" ∈ Tracker1.PRIORITY_COUNTRIES ∧
  tier <$> presidential = [1; 0] ∧
  Tracker1.country <$> shown false presidential = ["Germany"; "USA"] ∧
  Tracker1.country <$> shown true presidential = ["USA"; "Germany"].
Proof.
  intros response presidential.
  split; [vm_compute; reflexivity|]. split; [vm_compute; reflexivity|].
  split; [unfold Tracker1.PRIORITY_COUNTRIES; set_solver|].
  split; [unfold Tracker1.PRIORITY_COUNTRIES; set_solver|].
  split; [vm_compute; reflexivity|]. split; vm_compute; reflexivity.
Qed.

(** A German aircraft first in the snapshot, then two aircraft of the USA
    with the same description: the classified list has the three in source
    order, the table of [display_rich] has the two of the USA first, in
    their source order. *)
Lemma classified_display_order_witness :
  let response :=
    {| ac := Some [demo_track "3f4615" "GAF901" None None;
                   demo_track "ae001f" "SAM1" None None;
                   demo_track "ae0020" "SAM2" None None];
       msg := None |} in
  let presidential :=
    fst (Tracker1.find_presidential_aircraft true demo_search response Geo.initial) in
  let rows := shown true presidential in
  exists german first second,
    presidential = [german; first; second] ∧
    rows = [first; second; german] ∧
    Tracker1.sort_key first = Tracker1.sort_key second ∧
    0 < 2 ∧ rows !! 0 = Some first ∧ rows !! 2 = Some german ∧
    rich_order first german ∧
    (Tracker1.country german ∈ Tracker1.PRIORITY_COUNTRIES ->
     Tracker1.country first ∈ Tracker1.PRIORITY_COUNTRIES).
Proof.
  intros response presidential rows.
  eexists _, _, _.
  split; [vm_compute; reflexivity|].
  split; [vm_compute; reflexivity|].
  split; [vm_compute; reflexivity|].
  split; [lia|].
  match goal with
  | |- ?P0 ∧ ?P2 ∧ _ =>
      assert (H0 : P0) by (vm_compute; reflexivity);
      assert (H2 : P2) by (vm_compute; reflexivity)
  end.
  split; [exact H0|]. split; [exact H2|].
  exact (proj1 (proj2 (proj2 (proj2
           (proj1 (classified_display_order true demo_search) response Geo.initial))))
           0 2 _ _ ltac:(lia) H0 H2).
Defined.

End ShownFacts.

(** * Examples for the loop of find_presidential_aircraft *)

Module LoopExamples.
Import Tracker1 Tracker1Spec Demo.

(** Three tracks, the middle one dropped: two entries in source order, and
    no entry for a response without the ["ac"] key. *)
Lemma result_in_source_order_witness :
  let snapshot :=
    {| ac := Some [demo_track "3f4615" "GAF901" None None;
                   demo_track "zzzzzz" "NOPE" None None;
                   demo_track "ae001f" "SAM1" None None];
       msg := None |} in
  let response := {| ac := None; msg := Some "no aircraft" |} in
  let out := fst (find_presidential_aircraft true demo_search snapshot Geo.initial) in
  hex_code <$> out = ["3F4615"; "AE001F"] /\
  hex_code <$> out
    `sublist_of` (fun ac => PyStr.upper (hex_lower ac)) <$> get_ac snapshot /\
  ac response = None /\
  fst (find_presidential_aircraft true demo_search response Geo.initial) = [].
Proof.
  intros snapshot response out.
  split; [vm_compute; reflexivity|].
  split; [exact (proj1 (LoopFacts.result_in_source_order true demo_search snapshot
                          Geo.initial))|].
  split; [reflexivity|].
  exact (proj2 (proj2 (LoopFacts.result_in_source_order true demo_search response
                         Geo.initial)) eq_refl).
Defined.

(** A cached key survives a classification that resolves another position. *)
Lemma classification_geocoder_budget_witness :
  let st :=
    {| Geo.location_cache := {[ "48.85,2.35" := "France" ]}; Geo.rg_calls := [] |} in
  let response :=
    {| ac := Some [demo_track "ae001f" "SAM1" (Some (50001 # 1000)%Q)
                     (Some (14999 # 1000)%Q);
                   demo_track "zzzzzz" "NOPE" (Some (1 # 1)%Q) (Some (1 # 1)%Q)];
       msg := None |} in
  let st' := snd (find_presidential_aircraft true demo_search response st) in
  Geo.location_cache st !! "48.85,2.35" = Some "France" /\
  Geo.location_cache st' !! "48.85,2.35" = Some "France" /\
  length (Geo.rg_calls st') = 1.
Proof.
  intros st response st'.
  assert (H : Geo.location_cache st !! "48.85,2.35" = Some "France")
    by (vm_compute; reflexivity).
  split; [exact H|]. split; [|vm_compute; reflexivity].
  exact (proj1 (LoopFacts.classification_geocoder_budget true demo_search response st)
           "48.85,2.35" "France" H).
Defined.

End LoopExamples.
